(** * MyDuka backend: role guards, inventory ledger, sales, supply requests

    A shallow embedding of the request handlers of [src/app] and the
    properties of the specification that concern them.

    Conventions of the embedding.
    - A table is the list of its rows in storage order; [Model.query.get]
      is a search on the primary key.
    - A JSON request body is a finite map from keys to JSON values.
    - A handler is a function from the committed database, the clock, the
      outcome of [db.session.commit()] and the request to the database
      it leaves behind and the response.  Early [return]s are the
      [Return] of a small control-flow monad.
    - Python floats, the string parsers of [int]/[float], the e-mail
      validator and the password hashing of the user models belong to
      the platform; they are the fields of the class [Platform]. *)

From stdpp Require Import base option list strings gmap pretty.
From Stdlib Require Import ZArith Lia Sorted.

Local Open Scope Z_scope.

(** ** Python values and exceptions *)

(** The values a decoded JSON body holds in the fields the handlers read:
    [null], booleans, integers and strings.  Numbers with a fraction,
    arrays and objects as field values are outside the model. *)
Inductive json : Type :=
| JNull
| JBool (b : bool)
| JInt (z : Z)
| JStr (s : string).

Global Instance json_eq_dec : EqDecision json.
Proof. solve_decision. Defined.

(** Exceptions that the handlers raise or catch. *)
Inductive pyexn : Type := NameError | TypeError | ValueError | OverflowError.

(** [bool(v)]. *)
Definition truthy (v : json) : bool :=
  match v with
  | JNull => false
  | JBool b => b
  | JInt z => negb (z =? 0)
  | JStr s => negb (bool_decide (s = ""))
  end.

(** [v is not None]. *)
Definition is_not_None (v : json) : bool :=
  match v with JNull => false | _ => true end.

(** [data.get(k)]: an absent key reads as [None]. *)
Definition dict_get (data : gmap string json) (k : string) : json :=
  default JNull (data !! k).

(** [data.get(k, d)]. *)
Definition dict_get_default (data : gmap string json) (k : string) (d : json) : json :=
  default d (data !! k).

(** [k in data]. *)
Definition dict_has (data : gmap string json) (k : string) : bool :=
  bool_decide (is_Some (data !! k)).

(** [if x:] on a nullable integer column: [None] and [0] are false. *)
Definition truthy_id (x : option Z) : bool :=
  match x with
  | Some z => negb (z =? 0)
  | None => false
  end.

(** [x != y] between a nullable integer column and an integer. *)
Definition id_differs (x : option Z) (y : Z) : bool :=
  match x with
  | Some z => negb (z =? y)
  | None => true
  end.

(** ** The platform *)

Class Platform : Type := {
  (** Python [float], the type of [db.Float] columns. *)
  float : Type;
  (** [f * n] for a float [f] and an int [n]. *)
  float_mul_int : float -> Z -> float;
  (** [float(v)]; the left summand is the exception raised. *)
  float_of : json -> pyexn + float;
  (** [f < 0]. *)
  float_is_negative : float -> bool;
  (** [int(s)] for a string [s]; [None] is [ValueError]. *)
  int_of_str : string -> option Z;
  (** Truth value of [validators.email(v)]. *)
  validators_email : json -> bool;
  (** The hash the [password] setter of a user model stores. *)
  generate_password_hash : json -> string;
  (** [user.check_password(v)] against the stored hash. *)
  check_password_hash : string -> json -> bool
}.

(** ** Responses and control flow *)

(** What a handler answers: a [{'message': m}, code] pair, a payload with
    its code and optional message, or an exception that leaves the
    handler (the framework answers 500). *)
Inductive response (A : Type) : Type :=
| Msg (code : Z) (message : string)
| Data (code : Z) (message : option string) (a : A)
| Raised (e : pyexn).

Arguments Msg {A} code message.
Arguments Data {A} code message a.
Arguments Raised {A} e.

Definition response_code {A} (r : response A) : Z :=
  match r with
  | Msg c _ => c
  | Data c _ _ => c
  | Raised _ => 500
  end.

(** Straight-line code with early [return r]. *)
Inductive flow (R A : Type) : Type :=
| Next (a : A)
| Return (r : R).

Arguments Next {R A} a.
Arguments Return {R A} r.

Global Instance flow_ret {R} : MRet (flow R) := fun _ a => Next a.

Global Instance flow_bind {R} : MBind (flow R) := fun _ _ k m =>
  match m with
  | Next a => k a
  | Return r => Return r
  end.

(** The value of a body all of whose paths end in [return]. *)
Definition run {R} (m : flow R R) : R :=
  match m with
  | Next r => r
  | Return r => r
  end.

(** [if b: return r]. *)
Definition return_if {R} (b : bool) (r : R) : flow R unit :=
  if b then Return r else Next tt.

(** [x = e] followed by [if not x: return r]. *)
Definition unless_none {R A} (x : option A) (r : R) : flow R A :=
  match x with
  | Some a => Next a
  | None => Return r
  end.

(** Outcome of [db.session.commit()], decided by the datastore. *)
Inductive commit_outcome : Type :=
| Committed
| IntegrityError
| DatastoreError.

(** ** Queries *)

Section Query.
Context {A : Type} (key : A -> Z).

(** [Model.query.get(k)]. *)
Definition query_get (tbl : list A) (k : Z) : option A :=
  find (fun r => key r =? k) tbl.

(** The key an autoincrement column gives the next row. *)
Definition next_id (tbl : list A) : Z :=
  1 + foldr (fun r m => Z.max (key r) m) 0 tbl.

(** Flush of a modified row: the stored row with its key is replaced. *)
Definition update_row (r : A) (tbl : list A) : list A :=
  map (fun x => if key x =? key r then r else x) tbl.
End Query.

(** ** Data model

    Timestamps are readings of the clock, as integers.  The audit column
    [updated_at], which the ORM maintains through its [onupdate] hook and
    which no handler reads or assigns, is not part of the rows. *)

Section Backend.
Context `{Platform}.

(** Modelled from the spec: [app.models.user_models] is not part of the
    sources; the three account kinds carry the attributes of the data
    model of the specification, which are the ones the handlers use. *)
Record Merchant : Type := {
  Merchant_id : Z;
  Merchant_username : json;
  Merchant_email : json;
  Merchant_password_hash : string;
  Merchant_is_active : bool;
  Merchant_is_superuser : bool
}.

Record Admin : Type := {
  Admin_id : Z;
  Admin_username : json;
  Admin_email : json;
  Admin_password_hash : string;
  Admin_is_active : bool;
  Admin_merchant_id : Z;
  Admin_store_id : option Z
}.

Record Clerk : Type := {
  Clerk_id : Z;
  Clerk_username : json;
  Clerk_email : json;
  Clerk_password_hash : string;
  Clerk_is_active : bool;
  Clerk_admin_id : Z;
  Clerk_store_id : option Z
}.

Record Store : Type := {
  Store_id : Z;
  Store_name : json;
  Store_location : json;
  Store_is_active : bool;
  Store_merchant_id : Z
}.

Record Product : Type := {
  Product_id : Z;
  Product_name : json;
  Product_description : json;
  buying_price : float;
  selling_price : float;
  Product_merchant_id : Z;
  Product_is_active : bool
}.

Record Inventory : Type := {
  Inventory_id : Z;
  Inventory_product_id : Z;
  Inventory_store_id : Z;
  Inventory_clerk_id : option Z;
  quantity_received : Z;
  items_in_stock : Z;
  items_spoilt : Z;
  (** Boolean column; the handlers store the value of the body as it is. *)
  payment_status : json;
  buying_price_at_record : float;
  selling_price_at_record : float;
  date_recorded : Z
}.

Record Transaction : Type := {
  Transaction_id : Z;
  Transaction_product_id : Z;
  Transaction_store_id : Z;
  Transaction_clerk_id : option Z;
  quantity_sold : Z;
  selling_price_at_transaction : float;
  total_revenue : float;
  transaction_date : Z
}.

Record SupplyRequest : Type := {
  SupplyRequest_id : Z;
  SupplyRequest_product_id : Z;
  SupplyRequest_store_id : Z;
  requested_by_clerk_id : option Z;
  approved_by_admin_id : option Z;
  quantity_requested : Z;
  status : string;
  notes : json;
  request_date : Z;
  response_date : option Z
}.

(** The committed state of the datastore. *)
Record DB : Type := {
  merchants : list Merchant;
  admins : list Admin;
  clerks : list Clerk;
  stores : list Store;
  products : list Product;
  inventory_records : list Inventory;
  transactions : list Transaction;
  supply_requests : list SupplyRequest
}.

(** The identity and the [user_type] claim of a verified bearer token,
    as [get_jwt_identity()] and [get_jwt().get('user_type')] read them. *)
Record jwt : Type := {
  identity : Z;
  user_type : option string
}.

(** [create_access_token(identity=i, additional_claims={"user_type": t})]. *)
Definition create_access_token (i : Z) (t : string) : jwt :=
  {| identity := i; user_type := Some t |}.

(** [create_refresh_token(identity=i, additional_claims={"user_type": t})]:
    the same identity and claim, in a token of the refresh kind. *)
Definition create_refresh_token (i : Z) (t : string) : jwt :=
  {| identity := i; user_type := Some t |}.

(** [int(v)]: the left summand is the exception raised. *)
Definition py_int (v : json) : pyexn + Z :=
  match v with
  | JNull => inl TypeError
  | JBool b => inr (if b then 1 else 0)
  | JInt z => inr z
  | JStr s => match int_of_str s with
              | Some z => inr z
              | None => inl ValueError
              end
  end.

(** One conversion inside [try: ... except ValueError: return r]: a
    [ValueError] returns [r], any other exception leaves the handler. *)
Definition try_int {A} (db : DB) (on_value_error : DB * response A) (v : json)
  : flow (DB * response A) Z :=
  match py_int v with
  | inr z => Next z
  | inl ValueError => Return on_value_error
  | inl e => Return (db, Raised e)
  end.

(** [db.session.commit()] inside [try: ... except Exception: rollback]:
    the staged writes become the committed state together, or none does. *)
Definition session_commit {A} (o : commit_outcome) (db staged : DB)
    (success failure : response A) : DB * response A :=
  match o with
  | Committed => (staged, success)
  | _ => (db, failure)
  end.

(** ** app/auth/permissions.py *)

Definition merchant_required {A} (db : DB) (tok : jwt) : flow (DB * response A) unit :=
  let current_user_id := identity tok in
  match query_get Merchant_id (merchants db) current_user_id with
  | Some merchant =>
      if Merchant_is_superuser merchant then Next tt
      else Return (db, Msg 403 "Merchant (Superuser) access required")
  | None => Return (db, Msg 403 "Merchant (Superuser) access required")
  end.

Definition admin_required {A} (db : DB) (tok : jwt) : flow (DB * response A) unit :=
  let current_user_id := identity tok in
  match query_get Admin_id (admins db) current_user_id with
  | Some _ => Next tt
  | None => Return (db, Msg 403 "Admin access required")
  end.

Definition clerk_required {A} (db : DB) (tok : jwt) : flow (DB * response A) unit :=
  let current_user_id := identity tok in
  match query_get Clerk_id (clerks db) current_user_id with
  | Some _ => Next tt
  | None => Return (db, Msg 403 "Clerk access required")
  end.

(** ** app/models/inventory.py: the ledger queries *)

(** [.order_by(Inventory.date_recorded.desc()).first()]: a row of greatest
    [date_recorded], the earliest stored one among equals. *)
Fixpoint first_by_date_desc (l : list Inventory) : option Inventory :=
  match l with
  | [] => None
  | r :: l' =>
      match first_by_date_desc l' with
      | Some b => if date_recorded r <? date_recorded b then Some b else Some r
      | None => Some r
      end
  end.

(** [Inventory.query.filter_by(product_id=p, store_id=s)]. *)
Definition inventory_for (db : DB) (p s : Z) : list Inventory :=
  filter (fun r => Inventory_product_id r = p /\ Inventory_store_id r = s)
         (inventory_records db).

Definition latest_inventory_record (db : DB) (p s : Z) : option Inventory :=
  first_by_date_desc (inventory_for db p s).

Definition set_items_in_stock (r : Inventory) (n : Z) : Inventory :=
  {| Inventory_id := Inventory_id r;
     Inventory_product_id := Inventory_product_id r;
     Inventory_store_id := Inventory_store_id r;
     Inventory_clerk_id := Inventory_clerk_id r;
     quantity_received := quantity_received r;
     items_in_stock := n;
     items_spoilt := items_spoilt r;
     payment_status := payment_status r;
     buying_price_at_record := buying_price_at_record r;
     selling_price_at_record := selling_price_at_record r;
     date_recorded := date_recorded r |}.

(** The session's pending writes, applied to a copy of the state. *)
Definition stage_inventory (r : Inventory) (db : DB) : DB :=
  {| merchants := merchants db; admins := admins db; clerks := clerks db;
     stores := stores db; products := products db;
     inventory_records := update_row Inventory_id r (inventory_records db);
     transactions := transactions db;
     supply_requests := supply_requests db |}.

Definition stage_new_inventory (r : Inventory) (db : DB) : DB :=
  {| merchants := merchants db; admins := admins db; clerks := clerks db;
     stores := stores db; products := products db;
     inventory_records := inventory_records db ++ [r];
     transactions := transactions db;
     supply_requests := supply_requests db |}.

Definition stage_new_transaction (t : Transaction) (db : DB) : DB :=
  {| merchants := merchants db; admins := admins db; clerks := clerks db;
     stores := stores db; products := products db;
     inventory_records := inventory_records db;
     transactions := transactions db ++ [t];
     supply_requests := supply_requests db |}.

(** ** app/models/transactions.py *)

Definition TransactionListResource_post (db : DB) (now : Z) (o : commit_outcome)
    (tok : jwt) (data : gmap string json) : DB * response Transaction :=
  run (
    clerk_required db tok ;;
    let current_clerk_id := identity tok in
    clerk ← unless_none (query_get Clerk_id (clerks db) current_clerk_id)
              (db, Msg 404 "Clerk not found") ;
    let product_id := dict_get data "product_id" in
    let store_id := dict_get data "store_id" in
    let quantity_sold := dict_get data "quantity_sold" in
    return_if (negb (truthy product_id && truthy store_id && is_not_None quantity_sold))
      (db, Msg 400 "Missing required fields: product_id, store_id, quantity_sold") ;;
    let value_error :=
      (db, Msg 400 "product_id, store_id, quantity_sold must be valid numbers") in
    product_id ← try_int db value_error product_id ;
    store_id ← try_int db value_error store_id ;
    quantity_sold ← try_int db value_error quantity_sold ;
    return_if (quantity_sold <=? 0) (db, Msg 400 "Quantity sold must be positive") ;;
    product ← unless_none (query_get Product_id (products db) product_id)
                (db, Msg 404 ("Product with ID " +:+ pretty product_id +:+ " not found")) ;
    store ← unless_none (query_get Store_id (stores db) store_id)
              (db, Msg 404 ("Store with ID " +:+ pretty store_id +:+ " not found")) ;
    return_if (truthy_id (Clerk_store_id clerk) && id_differs (Clerk_store_id clerk) store_id)
      (db, Msg 403 "Clerk is not assigned to this store") ;;
    match latest_inventory_record db product_id store_id with
    | None => Return (db, Msg 400 "Insufficient stock for this product in this store")
    | Some latest =>
        return_if (items_in_stock latest <? quantity_sold)
          (db, Msg 400 "Insufficient stock for this product in this store") ;;
        let selling_price := selling_price product in
        let total_revenue := float_mul_int selling_price quantity_sold in
        let new_transaction :=
          {| Transaction_id := next_id Transaction_id (transactions db);
             Transaction_product_id := product_id;
             Transaction_store_id := store_id;
             Transaction_clerk_id := Some current_clerk_id;
             quantity_sold := quantity_sold;
             selling_price_at_transaction := selling_price;
             total_revenue := total_revenue;
             transaction_date := now |} in
        let latest' := set_items_in_stock latest (items_in_stock latest - quantity_sold) in
        Return (session_commit o db
                  (stage_inventory latest' (stage_new_transaction new_transaction db))
                  (Data 201 (Some "Transaction recorded successfully") new_transaction)
                  (Msg 500 "An internal server error occurred during transaction creation."))
    end).

(** [user_type == t] on the claim read from the token. *)
Definition claim_is (user_type : option string) (t : string) : bool :=
  bool_decide (user_type = Some t).

(** [user_type not in ['merchant', 'admin', 'clerk']]. *)
Definition unknown_user_type (user_type : option string) : bool :=
  negb (claim_is user_type "merchant" || claim_is user_type "admin"
        || claim_is user_type "clerk").

Definition TransactionListResource_get (db : DB) (tok : jwt)
  : response (list Transaction) :=
  let current_user_id := identity tok in
  let user_type := user_type tok in
  run (
    return_if (unknown_user_type user_type)
      (Msg 403 "Authentication required to view transactions") ;;
    let query := transactions db in
    query ←
      (if claim_is user_type "admin" then
         admin ← unless_none (query_get Admin_id (admins db) current_user_id)
                   (Msg 404 "Admin not found") ;
         if truthy_id (Admin_store_id admin) then
           Next (filter (fun t => Some (Transaction_store_id t) = Admin_store_id admin) query)
         else
           Return (Msg 403 "Admin not assigned to a store. Cannot view transactions.")
       else if claim_is user_type "clerk" then
         clerk ← unless_none (query_get Clerk_id (clerks db) current_user_id)
                   (Msg 404 "Clerk not found") ;
         Next (filter (fun t => Transaction_clerk_id t = Some current_user_id) query)
       else Next query) ;
    Return (Data 200 None query)).

Definition TransactionResource_get (db : DB) (tok : jwt) (transaction_id : Z)
  : response Transaction :=
  let current_user_id := identity tok in
  let user_type := user_type tok in
  run (
    transaction ← unless_none (query_get Transaction_id (transactions db) transaction_id)
                    (Msg 404 "Transaction not found") ;
    (if claim_is user_type "merchant" then Next tt
     else if claim_is user_type "admin" then
       match query_get Admin_id (admins db) current_user_id with
       | None => Return (Msg 403 "Unauthorized to view this transaction record")
       | Some admin =>
           return_if (truthy_id (Admin_store_id admin)
                      && id_differs (Admin_store_id admin) (Transaction_store_id transaction))
             (Msg 403 "Unauthorized to view this transaction record")
       end
     else if claim_is user_type "clerk" then
       match query_get Clerk_id (clerks db) current_user_id with
       | None => Return (Msg 403 "Unauthorized to view this transaction record")
       | Some clerk =>
           return_if (negb (bool_decide (Some (Clerk_id clerk) = Transaction_clerk_id transaction)))
             (Msg 403 "Unauthorized to view this transaction record")
       end
     else Return (Msg 403 "Authentication required to view transaction record")) ;;
    Return (Data 200 None transaction)).

(** ** app/models/inventory.py *)

Definition InventoryListResource_get (db : DB) (tok : jwt)
  : response (list Inventory) :=
  let current_user_id := identity tok in
  let user_type := user_type tok in
  run (
    return_if (unknown_user_type user_type)
      (Msg 403 "Authentication required to view inventory records") ;;
    let query := inventory_records db in
    query ←
      (if claim_is user_type "admin" then
         admin ← unless_none (query_get Admin_id (admins db) current_user_id)
                   (Msg 404 "Admin not found") ;
         if truthy_id (Admin_store_id admin) then
           Next (filter (fun r => Some (Inventory_store_id r) = Admin_store_id admin) query)
         else
           Return (Msg 403
             "Admin not assigned to a store. Cannot view specific inventory records.")
       else if claim_is user_type "clerk" then
         clerk ← unless_none (query_get Clerk_id (clerks db) current_user_id)
                   (Msg 404 "Clerk not found") ;
         Next (filter (fun r => Inventory_clerk_id r = Some current_user_id) query)
       else Next query) ;
    Return (Data 200 None query)).

Definition InventoryListResource_post (db : DB) (now : Z) (o : commit_outcome)
    (tok : jwt) (data : gmap string json) : DB * response Inventory :=
  run (
    clerk_required db tok ;;
    let current_clerk_id := identity tok in
    clerk ← unless_none (query_get Clerk_id (clerks db) current_clerk_id)
              (db, Msg 404 "Clerk not found") ;
    let product_id := dict_get data "product_id" in
    let store_id := dict_get data "store_id" in
    let quantity_received := dict_get data "quantity_received" in
    let items_spoilt := dict_get_default data "items_spoilt" (JInt 0) in
    let payment_status := dict_get_default data "payment_status" (JBool false) in
    return_if (negb (truthy product_id && truthy store_id && is_not_None quantity_received))
      (db, Msg 400 "Missing required fields: product_id, store_id, quantity_received") ;;
    let value_error :=
      (db, Msg 400 "product_id, store_id, quantities must be valid numbers") in
    product_id ← try_int db value_error product_id ;
    store_id ← try_int db value_error store_id ;
    quantity_received ← try_int db value_error quantity_received ;
    items_spoilt ← try_int db value_error items_spoilt ;
    return_if ((quantity_received <? 0) || (items_spoilt <? 0))
      (db, Msg 400 "Quantities cannot be negative") ;;
    product ← unless_none (query_get Product_id (products db) product_id)
                (db, Msg 404 ("Product with ID " +:+ pretty product_id +:+ " not found")) ;
    store ← unless_none (query_get Store_id (stores db) store_id)
              (db, Msg 404 ("Store with ID " +:+ pretty store_id +:+ " not found")) ;
    return_if (truthy_id (Clerk_store_id clerk) && id_differs (Clerk_store_id clerk) store_id)
      (db, Msg 403 "Clerk is not assigned to this store") ;;
    let new_record :=
      {| Inventory_id := next_id Inventory_id (inventory_records db);
         Inventory_product_id := product_id;
         Inventory_store_id := store_id;
         Inventory_clerk_id := Some current_clerk_id;
         quantity_received := quantity_received;
         items_in_stock := quantity_received - items_spoilt;
         items_spoilt := items_spoilt;
         payment_status := payment_status;
         buying_price_at_record := buying_price product;
         selling_price_at_record := selling_price product;
         date_recorded := now |} in
    Return (session_commit o db (stage_new_inventory new_record db)
              (Data 201 (Some "Inventory record created successfully") new_record)
              (Msg 500 "An internal server error occurred during record creation."))).

Definition InventoryResource_get (db : DB) (tok : jwt) (record_id : Z)
  : response Inventory :=
  let current_user_id := identity tok in
  let user_type := user_type tok in
  run (
    record ← unless_none (query_get Inventory_id (inventory_records db) record_id)
               (Msg 404 "Inventory record not found") ;
    (if claim_is user_type "merchant" then Next tt
     else if claim_is user_type "admin" then
       match query_get Admin_id (admins db) current_user_id with
       | None => Return (Msg 403 "Unauthorized to view this inventory record")
       | Some admin =>
           return_if (truthy_id (Admin_store_id admin)
                      && id_differs (Admin_store_id admin) (Inventory_store_id record))
             (Msg 403 "Unauthorized to view this inventory record")
       end
     else if claim_is user_type "clerk" then
       match query_get Clerk_id (clerks db) current_user_id with
       | None => Return (Msg 403 "Unauthorized to view this inventory record")
       | Some clerk =>
           return_if (negb (bool_decide (Some (Clerk_id clerk) = Inventory_clerk_id record)))
             (Msg 403 "Unauthorized to view this inventory record")
       end
     else Return (Msg 403 "Authentication required to view inventory record")) ;;
    Return (Data 200 None record)).

Definition set_quantity_received (r : Inventory) (n : Z) : Inventory :=
  {| Inventory_id := Inventory_id r;
     Inventory_product_id := Inventory_product_id r;
     Inventory_store_id := Inventory_store_id r;
     Inventory_clerk_id := Inventory_clerk_id r;
     quantity_received := n;
     items_in_stock := items_in_stock r;
     items_spoilt := items_spoilt r;
     payment_status := payment_status r;
     buying_price_at_record := buying_price_at_record r;
     selling_price_at_record := selling_price_at_record r;
     date_recorded := date_recorded r |}.

Definition set_items_spoilt (r : Inventory) (n : Z) : Inventory :=
  {| Inventory_id := Inventory_id r;
     Inventory_product_id := Inventory_product_id r;
     Inventory_store_id := Inventory_store_id r;
     Inventory_clerk_id := Inventory_clerk_id r;
     quantity_received := quantity_received r;
     items_in_stock := items_in_stock r;
     items_spoilt := n;
     payment_status := payment_status r;
     buying_price_at_record := buying_price_at_record r;
     selling_price_at_record := selling_price_at_record r;
     date_recorded := date_recorded r |}.

Definition set_payment_status (r : Inventory) (v : json) : Inventory :=
  {| Inventory_id := Inventory_id r;
     Inventory_product_id := Inventory_product_id r;
     Inventory_store_id := Inventory_store_id r;
     Inventory_clerk_id := Inventory_clerk_id r;
     quantity_received := quantity_received r;
     items_in_stock := items_in_stock r;
     items_spoilt := items_spoilt r;
     payment_status := v;
     buying_price_at_record := buying_price_at_record r;
     selling_price_at_record := selling_price_at_record r;
     date_recorded := date_recorded r |}.

Definition set_buying_price_at_record (r : Inventory) (f : float) : Inventory :=
  {| Inventory_id := Inventory_id r;
     Inventory_product_id := Inventory_product_id r;
     Inventory_store_id := Inventory_store_id r;
     Inventory_clerk_id := Inventory_clerk_id r;
     quantity_received := quantity_received r;
     items_in_stock := items_in_stock r;
     items_spoilt := items_spoilt r;
     payment_status := payment_status r;
     buying_price_at_record := f;
     selling_price_at_record := selling_price_at_record r;
     date_recorded := date_recorded r |}.

Definition set_selling_price_at_record (r : Inventory) (f : float) : Inventory :=
  {| Inventory_id := Inventory_id r;
     Inventory_product_id := Inventory_product_id r;
     Inventory_store_id := Inventory_store_id r;
     Inventory_clerk_id := Inventory_clerk_id r;
     quantity_received := quantity_received r;
     items_in_stock := items_in_stock r;
     items_spoilt := items_spoilt r;
     payment_status := payment_status r;
     buying_price_at_record := buying_price_at_record r;
     selling_price_at_record := f;
     date_recorded := date_recorded r |}.

(** One conversion inside [try: ... except ValueError: return r], for
    [float]. *)
Definition try_float {A} (db : DB) (on_value_error : DB * response A) (v : json)
  : flow (DB * response A) float :=
  match float_of v with
  | inr f => Next f
  | inl ValueError => Return on_value_error
  | inl e => Return (db, Raised e)
  end.

(** [if k in data: try: record.f = int(data[k]); if record.f < 0: return
    negative  except ValueError: return invalid]. *)
Definition assign_int_field {A} (db : DB) (data : gmap string json) (k : string)
    (set : Inventory -> Z -> Inventory) (negative invalid : string)
    (record : Inventory) : flow (DB * response A) Inventory :=
  match data !! k with
  | None => Next record
  | Some v =>
      n ← try_int db (db, Msg 400 invalid) v ;
      return_if (n <? 0) (db, Msg 400 negative) ;;
      Next (set record n)
  end.

(** The same statement for a [float] column. *)
Definition assign_float_field {A} (db : DB) (data : gmap string json) (k : string)
    (set : Inventory -> float -> Inventory) (negative invalid : string)
    (record : Inventory) : flow (DB * response A) Inventory :=
  match data !! k with
  | None => Next record
  | Some v =>
      f ← try_float db (db, Msg 400 invalid) v ;
      return_if (float_is_negative f) (db, Msg 400 negative) ;;
      Next (set record f)
  end.

Definition InventoryResource_put (db : DB) (o : commit_outcome)
    (tok : jwt) (record_id : Z) (data : gmap string json) : DB * response Inventory :=
  let current_user_id := identity tok in
  let user_type := user_type tok in
  run (
    record ← unless_none (query_get Inventory_id (inventory_records db) record_id)
               (db, Msg 404 "Inventory record not found") ;
    record ←
      (if claim_is user_type "merchant" then Next record
       else if claim_is user_type "admin" then
         admin ← unless_none (query_get Admin_id (admins db) current_user_id)
                   (db, Msg 403 "Unauthorized to update this inventory record") ;
         return_if (truthy_id (Admin_store_id admin)
                    && id_differs (Admin_store_id admin) (Inventory_store_id record))
           (db, Msg 403 "Unauthorized to update this inventory record") ;;
         return_if (dict_has data "quantity_received" || dict_has data "items_in_stock"
                    || dict_has data "items_spoilt" || dict_has data "buying_price_at_record"
                    || dict_has data "selling_price_at_record")
           (db, Msg 403 "Admins can only update payment status of inventory records") ;;
         match data !! "payment_status" with
         | Some v => Next (set_payment_status record v)
         | None => Return (db, Msg 400 "No valid fields for Admin to update provided")
         end
       else if claim_is user_type "clerk" then
         clerk ← unless_none (query_get Clerk_id (clerks db) current_user_id)
                   (db, Msg 403 "Unauthorized to update this inventory record") ;
         return_if (negb (bool_decide (Some (Clerk_id clerk) = Inventory_clerk_id record)))
           (db, Msg 403 "Unauthorized to update this inventory record") ;;
         return_if (dict_has data "payment_status" || dict_has data "quantity_received"
                    || dict_has data "buying_price_at_record"
                    || dict_has data "selling_price_at_record")
           (db, Msg 403 "Clerks can only update stock and spoilt items in inventory records") ;;
         record ← assign_int_field db data "items_in_stock" set_items_in_stock
                    "Items in stock cannot be negative"
                    "Items in stock must be a valid number" record ;
         record ← assign_int_field db data "items_spoilt" set_items_spoilt
                    "Items spoilt cannot be negative"
                    "Items spoilt must be a valid number" record ;
         return_if (negb (dict_has data "items_in_stock" || dict_has data "items_spoilt"))
           (db, Msg 400 "No valid fields for Clerk to update provided") ;;
         Next record
       else Return (db, Msg 403 "Unauthorized to update this inventory record")) ;
    record ←
      (if claim_is user_type "merchant" then
         record ← assign_int_field db data "quantity_received" set_quantity_received
                    "Quantity received cannot be negative"
                    "Quantity received must be a valid number" record ;
         record ← assign_int_field db data "items_in_stock" set_items_in_stock
                    "Items in stock cannot be negative"
                    "Items in stock must be a valid number" record ;
         record ← assign_int_field db data "items_spoilt" set_items_spoilt
                    "Items spoilt cannot be negative"
                    "Items spoilt must be a valid number" record ;
         let record := match data !! "payment_status" with
                       | Some v => set_payment_status record v
                       | None => record
                       end in
         record ← assign_float_field db data "buying_price_at_record"
                    set_buying_price_at_record
                    "Buying price cannot be negative"
                    "Buying price must be a valid number" record ;
         record ← assign_float_field db data "selling_price_at_record"
                    set_selling_price_at_record
                    "Selling price cannot be negative"
                    "Selling price must be a valid number" record ;
         Next record
       else Next record) ;
    Return (session_commit o db (stage_inventory record db)
              (Data 200 (Some "Inventory record updated successfully") record)
              (Msg 500 "An internal server error occurred during record update."))).

(** ** app/models/supply_request.py *)

Definition stage_supply_request (r : SupplyRequest) (db : DB) : DB :=
  {| merchants := merchants db; admins := admins db; clerks := clerks db;
     stores := stores db; products := products db;
     inventory_records := inventory_records db;
     transactions := transactions db;
     supply_requests := update_row SupplyRequest_id r (supply_requests db) |}.

Definition SupplyRequestListResource_get (db : DB) (tok : jwt)
  : response (list SupplyRequest) :=
  let current_user_id := identity tok in
  let user_type := user_type tok in
  run (
    return_if (unknown_user_type user_type)
      (Msg 403 "Authentication required to view supply requests") ;;
    let query := supply_requests db in
    query ←
      (if claim_is user_type "admin" then
         admin ← unless_none (query_get Admin_id (admins db) current_user_id)
                   (Msg 404 "Admin not found") ;
         if truthy_id (Admin_store_id admin) then
           Next (filter (fun r => Some (SupplyRequest_store_id r) = Admin_store_id admin) query)
         else
           Return (Msg 403 "Admin not assigned to a store. Cannot view supply requests.")
       else if claim_is user_type "clerk" then
         clerk ← unless_none (query_get Clerk_id (clerks db) current_user_id)
                   (Msg 404 "Clerk not found") ;
         Next (filter (fun r => requested_by_clerk_id r = Some current_user_id) query)
       else Next query) ;
    Return (Data 200 None query)).

Definition SupplyRequestResource_get (db : DB) (tok : jwt) (request_id : Z)
  : response SupplyRequest :=
  let current_user_id := identity tok in
  let user_type := user_type tok in
  run (
    req ← unless_none (query_get SupplyRequest_id (supply_requests db) request_id)
            (Msg 404 "Supply request not found") ;
    (if claim_is user_type "merchant" then Next tt
     else if claim_is user_type "admin" then
       match query_get Admin_id (admins db) current_user_id with
       | None => Return (Msg 403 "Unauthorized to view this supply request")
       | Some admin =>
           return_if (truthy_id (Admin_store_id admin)
                      && id_differs (Admin_store_id admin) (SupplyRequest_store_id req))
             (Msg 403 "Unauthorized to view this supply request")
       end
     else if claim_is user_type "clerk" then
       match query_get Clerk_id (clerks db) current_user_id with
       | None => Return (Msg 403 "Unauthorized to view this supply request")
       | Some clerk =>
           return_if (negb (bool_decide (Some (Clerk_id clerk) = requested_by_clerk_id req)))
             (Msg 403 "Unauthorized to view this supply request")
       end
     else Return (Msg 403 "Authentication required to view supply request")) ;;
    Return (Data 200 None req)).

(** The body of [SupplyRequestResource.put], over the binding of the name
    [status].  The function reads [status] without ever assigning it, so
    Python resolves the name in the module's globals; [binding] is what
    it finds there ([None]: the name is unbound and the read raises
    [NameError]); [status'] is the local reading of it. *)
Definition SupplyRequestResource_put_body (binding : option json)
    (db : DB) (now : Z) (o : commit_outcome) (tok : jwt) (request_id : Z)
    (data : gmap string json) : DB * response SupplyRequest :=
  run (
    admin_required db tok ;;
    let current_admin_id := identity tok in
    admin ← unless_none (query_get Admin_id (admins db) current_admin_id)
              (db, Msg 404 "Admin not found") ;
    req ← unless_none (query_get SupplyRequest_id (supply_requests db) request_id)
            (db, Msg 404 "Supply request not found") ;
    return_if (truthy_id (Admin_store_id admin)
               && id_differs (Admin_store_id admin) (SupplyRequest_store_id req))
      (db, Msg 403 "Admin is not assigned to this store to approve requests") ;;
    let notes := dict_get_default data "notes" (notes req) in
    status' ← unless_none binding (db, Raised NameError) ;
    return_if (negb (truthy status'))
      (db, Msg 400 "Status is required to update supply request") ;;
    let valid_statuses := ["Approved"; "Declined"; "Fulfilled"] in
    let invalid :=
      (db, Msg 400 "Invalid status. Must be one of: Approved, Declined, Fulfilled") in
    status' ← match status' with
              | JStr s => if bool_decide (s ∈ valid_statuses) then Next s else Return invalid
              | _ => Return invalid
              end ;
    return_if (bool_decide (status req ∈ ["Fulfilled"; "Declined"])
               && negb (bool_decide (status' = status req)))
      (db, Msg 400 "Cannot change status of a fulfilled or declined request") ;;
    let req' :=
      {| SupplyRequest_id := SupplyRequest_id req;
         SupplyRequest_product_id := SupplyRequest_product_id req;
         SupplyRequest_store_id := SupplyRequest_store_id req;
         requested_by_clerk_id := requested_by_clerk_id req;
         approved_by_admin_id := Some current_admin_id;
         quantity_requested := quantity_requested req;
         status := status';
         notes := notes;
         request_date := request_date req;
         response_date := Some now |} in
    Return (session_commit o db (stage_supply_request req' db)
              (Data 200 (Some "Supply request updated successfully") req')
              (Msg 500 "An internal server error occurred during request update."))).

(** [app/models/supply_request.py] binds no global [status]. *)
Definition supply_request_module_status : option json := None.

Definition SupplyRequestResource_put
  : DB -> Z -> commit_outcome -> jwt -> Z -> gmap string json
    -> DB * response SupplyRequest :=
  SupplyRequestResource_put_body supply_request_module_status.

(** ** app/models/reports.py *)

(** [BaseReportResource.get_authorized_query], for a model with a
    [store_id] column: the error response, or the rows of the query. *)
Definition get_authorized_query {M A} (store_id_of : M -> Z) (tbl : list M)
    (db : DB) (user_id : Z) (user_type : option string) : flow (response A) (list M) :=
  let query := tbl in
  if claim_is user_type "merchant" then Next query
  else if claim_is user_type "admin" then
    admin ← unless_none (query_get Admin_id (admins db) user_id)
              (Msg 404 "Admin not found") ;
    return_if (negb (truthy_id (Admin_store_id admin)))
      (Msg 403 "Admin not assigned to a store. Cannot generate store-specific reports.") ;;
    Next (filter (fun r => Some (store_id_of r) = Admin_store_id admin) query)
  else Return (Msg 403 "Unauthorized to view reports").

(** The four report resources start with [get_authorized_query] and
    answer its error when there is one; [project] is what each does with
    the authorised query (filters and aggregation of the projector). *)
Definition SalesReportResource_get {A} (project : list Transaction -> response A)
    (db : DB) (tok : jwt) : response A :=
  run (query ← get_authorized_query Transaction_store_id (transactions db) db
                 (identity tok) (user_type tok) ;
       Return (project query)).

Definition StockReportResource_get {A} (project : list Inventory -> response A)
    (db : DB) (tok : jwt) : response A :=
  run (query ← get_authorized_query Inventory_store_id (inventory_records db) db
                 (identity tok) (user_type tok) ;
       Return (project query)).

Definition SpoiltItemsReportResource_get {A} (project : list Inventory -> response A)
    (db : DB) (tok : jwt) : response A :=
  run (query ← get_authorized_query Inventory_store_id (inventory_records db) db
                 (identity tok) (user_type tok) ;
       Return (project query)).

Definition PaymentStatusReportResource_get {A} (project : list Inventory -> response A)
    (db : DB) (tok : jwt) : response A :=
  run (query ← get_authorized_query Inventory_store_id (inventory_records db) db
                 (identity tok) (user_type tok) ;
       Return (project query)).

(** ** app/auth/login.py *)

(** The account kinds, as the [user] variable of [UserLogin.post] holds
    them. *)
Inductive account : Type :=
| AMerchant (m : Merchant)
| AAdmin (a : Admin)
| AClerk (c : Clerk).

Definition account_id (u : account) : Z :=
  match u with
  | AMerchant m => Merchant_id m
  | AAdmin a => Admin_id a
  | AClerk c => Clerk_id c
  end.

Definition account_is_active (u : account) : bool :=
  match u with
  | AMerchant m => Merchant_is_active m
  | AAdmin a => Admin_is_active a
  | AClerk c => Clerk_is_active c
  end.

(** [user.check_password(password)]. *)
Definition check_password (u : account) (password : json) : bool :=
  match u with
  | AMerchant m => check_password_hash (Merchant_password_hash m) password
  | AAdmin a => check_password_hash (Admin_password_hash a) password
  | AClerk c => check_password_hash (Clerk_password_hash c) password
  end.

Record login_payload : Type := {
  access_token : jwt;
  refresh_token : jwt;
  login_user_type : string;
  login_user_id : Z
}.

(** The lookup of [UserLogin.post]: the pair [(user, user_type)] after the
    nested [if]s. *)
Definition lookup_account (db : DB) (email : json) : option (account * string) :=
  match find (fun m => bool_decide (Merchant_email m = email)) (merchants db) with
  | Some merchant => Some (AMerchant merchant, "merchant")
  | None =>
      match find (fun a => bool_decide (Admin_email a = email)) (admins db) with
      | Some admin => Some (AAdmin admin, "admin")
      | None =>
          match find (fun c => bool_decide (Clerk_email c = email)) (clerks db) with
          | Some clerk => Some (AClerk clerk, "clerk")
          | None => None
          end
      end
  end.

Definition UserLogin_post (db : DB) (data : gmap string json) : response login_payload :=
  run (
    let email := dict_get data "email" in
    let password := dict_get data "password" in
    return_if (negb (truthy email && truthy password))
      (Msg 400 "Missing email or password") ;;
    return_if (negb (validators_email email)) (Msg 400 "Invalid email format") ;;
    match lookup_account db email with
    | None => Return (Msg 401 "Invalid credentials")
    | Some (user, user_type) =>
        return_if (negb (check_password user password)) (Msg 401 "Invalid credentials") ;;
        return_if (negb (account_is_active user))
          (Msg 403 "Account is inactive. Please contact support.") ;;
        let access_token := create_access_token (account_id user) user_type in
        let refresh_token := create_refresh_token (account_id user) user_type in
        Return (Data 200 (Some "Login successful")
                  {| access_token := access_token;
                     refresh_token := refresh_token;
                     login_user_type := user_type;
                     login_user_id := account_id user |})
    end).

(** ** app/utils/validators.py *)

Definition validate_email (email : json) : bool := validators_email email.

Definition is_upper (c : Ascii.ascii) : bool :=
  let n := Z.of_nat (Ascii.nat_of_ascii c) in (65 <=? n) && (n <=? 90).

Definition is_lower (c : Ascii.ascii) : bool :=
  let n := Z.of_nat (Ascii.nat_of_ascii c) in (97 <=? n) && (n <=? 122).

Definition is_decimal_digit (c : Ascii.ascii) : bool :=
  let n := Z.of_nat (Ascii.nat_of_ascii c) in (48 <=? n) && (n <=? 57).

(** The special characters of the last regular expression of
    [validate_password], by character code (34 is the double quote). *)
Definition is_special (c : Ascii.ascii) : bool :=
  bool_decide (Ascii.nat_of_ascii c ∈
    [33; 64; 35; 36; 37; 94; 38; 42; 40; 41; 44; 46; 63; 34; 58; 123; 125; 124; 60; 62]%nat).

(** [validate_password] on a string of ASCII text; [len] of a value that
    is not a string raises [TypeError]. *)
Definition validate_password (password : json) : pyexn + bool :=
  match password with
  | JStr s =>
      let cs := String.list_ascii_of_string s in
      inr (if Z.of_nat (length cs) <? 8 then false
           else if negb (existsb is_upper cs) then false
           else if negb (existsb is_lower cs) then false
           else if negb (existsb is_decimal_digit cs) then false
           else if negb (existsb is_special cs) then false
           else true)
  | _ => inl TypeError
  end.

(** ** app/models/merchant.py *)

Definition stage_new_merchant (m : Merchant) (db : DB) : DB :=
  {| merchants := merchants db ++ [m]; admins := admins db; clerks := clerks db;
     stores := stores db; products := products db;
     inventory_records := inventory_records db;
     transactions := transactions db;
     supply_requests := supply_requests db |}.

(** Modelled from the spec: the column defaults of [Merchant] are in the
    absent [app.models.user_models]; an account is created active, and
    the Merchant is the superuser. *)
Definition Merchant_default_is_active : bool := true.
Definition Merchant_default_is_superuser : bool := true.

Definition MerchantRegistration_post (db : DB) (o : commit_outcome)
    (data : gmap string json) : DB * response Merchant :=
  run (
    let username := dict_get data "username" in
    let email := dict_get data "email" in
    let password := dict_get data "password" in
    return_if (negb (truthy username && truthy email && truthy password))
      (db, Msg 400 "Missing required fields: username, email, password") ;;
    return_if (negb (validate_email email)) (db, Msg 400 "Invalid email format") ;;
    match validate_password password with
    | inl e => Return (db, Raised e)
    | inr false => Return (db, Msg 400 "Password does not meet requirements")
    | inr true =>
        match merchants db with
        | _ :: _ =>
            Return (db, Msg 403
              "Superuser (Merchant) already exists. Registration not allowed.")
        | [] =>
            let new_merchant :=
              {| Merchant_id := next_id Merchant_id (merchants db);
                 Merchant_username := username;
                 Merchant_email := email;
                 Merchant_password_hash := generate_password_hash password;
                 Merchant_is_active := Merchant_default_is_active;
                 Merchant_is_superuser := Merchant_default_is_superuser |} in
            Return
              (match o with
               | Committed =>
                   (stage_new_merchant new_merchant db,
                    Data 201 (Some "Superuser (Merchant) registered successfully")
                      new_merchant)
               | IntegrityError => (db, Msg 409 "Username or email already exists")
               | DatastoreError =>
                   (db, Msg 500 "An internal server error occurred during registration.")
               end)
        end
    end).

(** Two inventory records that differ at most in stock and spoilt items. *)
Definition same_but_stock_and_spoilt (r r' : Inventory) : Prop :=
  Inventory_id r' = Inventory_id r
  /\ Inventory_product_id r' = Inventory_product_id r
  /\ Inventory_store_id r' = Inventory_store_id r
  /\ Inventory_clerk_id r' = Inventory_clerk_id r
  /\ quantity_received r' = quantity_received r
  /\ payment_status r' = payment_status r
  /\ buying_price_at_record r' = buying_price_at_record r
  /\ selling_price_at_record r' = selling_price_at_record r
  /\ date_recorded r' = date_recorded r.

(** The body [{"payment_status": v}]. *)
Definition data_only_payment_status (v : json) : gmap string json :=
  {[ "payment_status" := v ]}.

(** A store in which a clerk and an admin have the same key. *)
Definition shared_key_store : DB :=
  {| merchants := [];
     admins := [ {| Admin_id := 1; Admin_username := JStr "admin";
                    Admin_email := JStr "admin@x.com"; Admin_password_hash := "";
                    Admin_is_active := true; Admin_merchant_id := 1;
                    Admin_store_id := None |} ];
     clerks := [ {| Clerk_id := 1; Clerk_username := JStr "clerk";
                    Clerk_email := JStr "clerk@x.com"; Clerk_password_hash := "";
                    Clerk_is_active := true; Clerk_admin_id := 1;
                    Clerk_store_id := None |} ];
     stores := []; products := []; inventory_records := [];
     transactions := []; supply_requests := [] |}.

(** Primary keys come from autoincrement columns, which count from 1. *)
Definition keys_from_one (db : DB) : Prop :=
  Forall (fun p => 0 < Product_id p) (products db)
  /\ Forall (fun s => 0 < Store_id s) (stores db).

(** ** Deletions (transactions.py, inventory.py, supply_request.py) *)

(** [db.session.delete(row)] at the flush: the row with that key goes. *)
Definition delete_row {A : Type} (key : A -> Z) (k : Z) (tbl : list A) : list A :=
  List.filter (fun r => negb (key r =? k)) tbl.

Definition stage_delete_transaction (k : Z) (db : DB) : DB :=
  {| merchants := merchants db; admins := admins db; clerks := clerks db;
     stores := stores db; products := products db;
     inventory_records := inventory_records db;
     transactions := delete_row Transaction_id k (transactions db);
     supply_requests := supply_requests db |}.

Definition stage_delete_inventory (k : Z) (db : DB) : DB :=
  {| merchants := merchants db; admins := admins db; clerks := clerks db;
     stores := stores db; products := products db;
     inventory_records := delete_row Inventory_id k (inventory_records db);
     transactions := transactions db;
     supply_requests := supply_requests db |}.

Definition stage_delete_supply_request (k : Z) (db : DB) : DB :=
  {| merchants := merchants db; admins := admins db; clerks := clerks db;
     stores := stores db; products := products db;
     inventory_records := inventory_records db;
     transactions := transactions db;
     supply_requests := delete_row SupplyRequest_id k (supply_requests db) |}.

Definition TransactionResource_delete (db : DB) (o : commit_outcome) (tok : jwt)
    (transaction_id : Z) : DB * response unit :=
  run (
    merchant_required db tok ;;
    transaction ← unless_none (query_get Transaction_id (transactions db) transaction_id)
                    (db, Msg 404 "Transaction not found") ;
    Return (session_commit o db
              (stage_delete_transaction (Transaction_id transaction) db)
              (Msg 204 "Transaction deleted successfully")
              (Msg 500 "An internal server error occurred during transaction deletion."))).

Definition InventoryResource_delete (db : DB) (o : commit_outcome) (tok : jwt)
    (record_id : Z) : DB * response unit :=
  run (
    merchant_required db tok ;;
    record ← unless_none (query_get Inventory_id (inventory_records db) record_id)
               (db, Msg 404 "Inventory record not found") ;
    Return (session_commit o db
              (stage_delete_inventory (Inventory_id record) db)
              (Msg 204 "Inventory record deleted successfully")
              (Msg 500 "An internal server error occurred during record deletion."))).

Definition SupplyRequestResource_delete (db : DB) (o : commit_outcome) (tok : jwt)
    (request_id : Z) : DB * response unit :=
  run (
    merchant_required db tok ;;
    req ← unless_none (query_get SupplyRequest_id (supply_requests db) request_id)
            (db, Msg 404 "Supply request not found") ;
    Return (session_commit o db
              (stage_delete_supply_request (SupplyRequest_id req) db)
              (Msg 204 "Supply request deleted successfully")
              (Msg 500 "An internal server error occurred during request deletion."))).

(** ** supply_request.py: creation *)

Definition stage_new_supply_request (r : SupplyRequest) (db : DB) : DB :=
  {| merchants := merchants db; admins := admins db; clerks := clerks db;
     stores := stores db; products := products db;
     inventory_records := inventory_records db;
     transactions := transactions db;
     supply_requests := supply_requests db ++ [r] |}.

Definition SupplyRequestListResource_post (db : DB) (now : Z) (o : commit_outcome)
    (tok : jwt) (data : gmap string json) : DB * response SupplyRequest :=
  run (
    clerk_required db tok ;;
    let current_clerk_id := identity tok in
    clerk ← unless_none (query_get Clerk_id (clerks db) current_clerk_id)
              (db, Msg 404 "Clerk not found") ;
    let product_id := dict_get data "product_id" in
    let quantity_requested := dict_get data "quantity_requested" in
    let notes := dict_get data "notes" in
    return_if (negb (truthy product_id && is_not_None quantity_requested))
      (db, Msg 400 "Missing required fields: product_id, quantity_requested") ;;
    let value_error :=
      (db, Msg 400 "product_id and quantity_requested must be valid numbers") in
    product_id ← try_int db value_error product_id ;
    quantity_requested ← try_int db value_error quantity_requested ;
    return_if (quantity_requested <=? 0)
      (db, Msg 400 "Quantity requested must be positive") ;;
    product ← unless_none (query_get Product_id (products db) product_id)
                (db, Msg 404 ("Product with ID " +:+ pretty product_id +:+ " not found")) ;
    (* [if not clerk.store_id: return ...]; past it, the store is a number *)
    match Clerk_store_id clerk with
    | None =>
        Return (db, Msg 403 "Clerk must be assigned to a store to make a supply request")
    | Some store_id =>
        return_if (store_id =? 0)
          (db, Msg 403 "Clerk must be assigned to a store to make a supply request") ;;
        let new_request :=
          {| SupplyRequest_id := next_id SupplyRequest_id (supply_requests db);
             SupplyRequest_product_id := product_id;
             SupplyRequest_store_id := store_id;
             requested_by_clerk_id := Some current_clerk_id;
             approved_by_admin_id := None;
             quantity_requested := quantity_requested;
             status := "Pending";
             notes := notes;
             request_date := now;
             response_date := None |} in
        Return (session_commit o db (stage_new_supply_request new_request db)
                  (Data 201 (Some "Supply request created successfully") new_request)
                  (Msg 500 "An internal server error occurred during request creation."))
    end).

(** ** reports.py: the stock report *)

(** One value of the [current_stock] dictionary. *)
Record stock_entry : Type := {
  entry_product_id : Z;
  entry_product_name : json;
  entry_store_id : Z;
  entry_store_name : json;
  entry_items_in_stock : Z;
  entry_last_updated : Z
}.

(** [.order_by(Inventory.date_recorded.desc()).all()]: the rows by
    decreasing [date_recorded], rows of one date in storage order (the
    convention of [first_by_date_desc]). *)
Fixpoint insert_by_date_desc (r : Inventory) (l : list Inventory) : list Inventory :=
  match l with
  | [] => [r]
  | y :: ys =>
      if date_recorded y <=? date_recorded r then r :: y :: ys
      else y :: insert_by_date_desc r ys
  end.

Definition order_by_date_desc (l : list Inventory) : list Inventory :=
  foldr insert_by_date_desc [] l.

Definition stock_entry_of (db : DB) (record : Inventory) : stock_entry :=
  let product := query_get Product_id (products db) (Inventory_product_id record) in
  let store := query_get Store_id (stores db) (Inventory_store_id record) in
  {| entry_product_id := Inventory_product_id record;
     entry_product_name := match product with
                           | Some p => Product_name p
                           | None => JNull
                           end;
     entry_store_id := Inventory_store_id record;
     entry_store_name := match store with
                         | Some s => Store_name s
                         | None => JNull
                         end;
     entry_items_in_stock := items_in_stock record;
     entry_last_updated := date_recorded record |}.

(** [key in current_stock], the dictionary being the list of its items in
    the order of insertion. *)
Definition has_key (key : Z * Z) (current_stock : list (Z * Z * stock_entry)) : bool :=
  existsb (fun kv => (fst (fst kv) =? fst key) && (snd (fst kv) =? snd key)) current_stock.

(** The loop [for record in all_records: if key not in current_stock: ...]. *)
Fixpoint current_stock_loop (db : DB) (current_stock : list (Z * Z * stock_entry))
    (all_records : list Inventory) : list (Z * Z * stock_entry) :=
  match all_records with
  | [] => current_stock
  | record :: rest =>
      let key := (Inventory_product_id record, Inventory_store_id record) in
      if has_key key current_stock then current_stock_loop db current_stock rest
      else current_stock_loop db (current_stock ++ [(key, stock_entry_of db record)]) rest
  end.

(** [StockReportResource.get] after [get_authorized_query]; [product_id]
    and [store_id] are [request.args.get(..., type=int)]. *)
Definition stock_report (db : DB) (product_id store_id : option Z)
    (query : list Inventory) : response (string * list stock_entry) :=
  let query := match product_id with
               | Some p => if p =? 0 then query
                           else List.filter (fun r => Inventory_product_id r =? p) query
               | None => query
               end in
  let query := match store_id with
               | Some s => if s =? 0 then query
                           else List.filter (fun r => Inventory_store_id r =? s) query
               | None => query
               end in
  let all_records := order_by_date_desc query in
  let current_stock := current_stock_loop db [] all_records in
  let report_data := map snd current_stock in
  Data 200 None ("current_stock", report_data).

Definition StockReportResource_get_stock (db : DB) (tok : jwt)
    (product_id store_id : option Z) : response (string * list stock_entry) :=
  StockReportResource_get (stock_report db product_id store_id) db tok.

(** ** login.py: logout and refresh *)

(** The claims of a decoded token that the blocklist and the refresh read. *)
Record jwt_payload : Type := {
  jti : string;
  payload_token : jwt
}.

(** [check_if_token_in_blacklist], on the module's [blacklist] set. *)
Definition check_if_token_in_blacklist (blacklist : gset string)
    (payload : jwt_payload) : bool :=
  bool_decide (jti payload ∈ blacklist).

(** [UserLogout.post]: the set after [blacklist.add(jti)], and the answer. *)
Definition UserLogout_post (blacklist : gset string) (payload : jwt_payload)
  : gset string * response unit :=
  ({[ jti payload ]} ∪ blacklist, Msg 200 "Successfully logged out").

(** [TokenRefresh.post]: the new access token copies the identity and the
    [user_type] claim of the refresh token. *)
Definition TokenRefresh_post (payload : jwt_payload) : response jwt :=
  let current_user_id := identity (payload_token payload) in
  let user_type := user_type (payload_token payload) in
  Data 200 None {| identity := current_user_id; user_type := user_type |}.

(** ** Caller kinds read from the tables (store.py, clerk.py) *)

(** [db.session.commit()] where [IntegrityError] has its own answer. *)
Definition session_commit_unique {A} (o : commit_outcome) (db staged : DB)
    (success conflict failure : response A) : DB * response A :=
  match o with
  | Committed => (staged, success)
  | IntegrityError => (db, conflict)
  | DatastoreError => (db, failure)
  end.

(** Truth of [is_merchant = merchant and merchant.is_superuser]. *)
Definition is_merchant (db : DB) (current_user_id : Z) : bool :=
  match query_get Merchant_id (merchants db) current_user_id with
  | Some merchant => Merchant_is_superuser merchant
  | None => false
  end.

(** [is_admin = admin is not None]. *)
Definition is_admin (db : DB) (current_user_id : Z) : bool :=
  match query_get Admin_id (admins db) current_user_id with
  | Some _ => true
  | None => false
  end.

(** [isinstance(v, bool)], with the boolean. *)
Definition as_bool (v : json) : option bool :=
  match v with
  | JBool b => Some b
  | _ => None
  end.

(** ** app/models/store.py *)

Definition stage_new_store (st : Store) (db : DB) : DB :=
  {| merchants := merchants db; admins := admins db; clerks := clerks db;
     stores := stores db ++ [st]; products := products db;
     inventory_records := inventory_records db;
     transactions := transactions db;
     supply_requests := supply_requests db |}.

Definition stage_store (st : Store) (db : DB) : DB :=
  {| merchants := merchants db; admins := admins db; clerks := clerks db;
     stores := update_row Store_id st (stores db); products := products db;
     inventory_records := inventory_records db;
     transactions := transactions db;
     supply_requests := supply_requests db |}.

Definition StoreListResource_get (db : DB) (tok : jwt) : response (list Store) :=
  let current_user_id := identity tok in
  if negb (is_merchant db current_user_id || is_admin db current_user_id) then
    Msg 403 "Merchant or Admin access required to view stores"
  else Data 200 None (stores db).

Definition StoreListResource_post (db : DB) (o : commit_outcome) (tok : jwt)
    (data : gmap string json) : DB * response Store :=
  run (
    merchant_required db tok ;;
    let name := dict_get data "name" in
    let location := dict_get data "location" in
    let current_merchant_id := identity tok in
    return_if (negb (truthy name && truthy location))
      (db, Msg 400 "Missing required fields: name, location") ;;
    let new_store :=
      {| Store_id := next_id Store_id (stores db);
         Store_name := name;
         Store_location := location;
         Store_is_active := true;
         Store_merchant_id := current_merchant_id |} in
    Return (session_commit_unique o db (stage_new_store new_store db)
              (Data 201 (Some "Store created successfully") new_store)
              (Msg 409 "Store with this name already exists")
              (Msg 500 "An internal server error occurred during store creation."))).

(** [admin and admin.store_id == store_id]. *)
Definition admin_of_store (db : DB) (current_user_id store_id : Z) : bool :=
  match query_get Admin_id (admins db) current_user_id with
  | Some admin => bool_decide (Admin_store_id admin = Some store_id)
  | None => false
  end.

Definition StoreResource_get (db : DB) (tok : jwt) (store_id : Z) : response Store :=
  let current_user_id := identity tok in
  run (
    store ← unless_none (query_get Store_id (stores db) store_id)
              (Msg 404 "Store not found") ;
    if is_merchant db current_user_id then Return (Data 200 None store)
    else if admin_of_store db current_user_id store_id then Return (Data 200 None store)
    else Return (Msg 403 "Unauthorized to view this store")).

Definition StoreResource_put (db : DB) (o : commit_outcome) (tok : jwt)
    (store_id : Z) (data : gmap string json) : DB * response Store :=
  let current_user_id := identity tok in
  let is_merchant := is_merchant db current_user_id in
  run (
    store ← unless_none (query_get Store_id (stores db) store_id)
              (db, Msg 404 "Store not found") ;
    return_if (negb (is_merchant || admin_of_store db current_user_id store_id))
      (db, Msg 403 "Unauthorized to update this store") ;;
    let name := dict_get_default data "name" (Store_name store) in
    let location := dict_get_default data "location" (Store_location store) in
    let is_active := dict_get_default data "is_active" (JBool (Store_is_active store)) in
    let store :=
      {| Store_id := Store_id store;
         Store_name := if truthy name then name else Store_name store;
         Store_location := if truthy location then location else Store_location store;
         Store_is_active := Store_is_active store;
         Store_merchant_id := Store_merchant_id store |} in
    store ←
      match as_bool is_active with
      | Some b =>
          if is_merchant then
            Next {| Store_id := Store_id store;
                    Store_name := Store_name store;
                    Store_location := Store_location store;
                    Store_is_active := b;
                    Store_merchant_id := Store_merchant_id store |}
          else if negb (bool_decide (b = Store_is_active store)) then
            Return (db, Msg 403 "Only Merchant can change store active status")
          else Next store
      | None => Next store
      end ;
    Return (session_commit_unique o db (stage_store store db)
              (Data 200 (Some "Store updated successfully") store)
              (Msg 409 "Store with this name already exists")
              (Msg 500 "An internal server error occurred during store update."))).

(** ** app/models/clerk.py *)

Definition stage_new_clerk (c : Clerk) (db : DB) : DB :=
  {| merchants := merchants db; admins := admins db; clerks := clerks db ++ [c];
     stores := stores db; products := products db;
     inventory_records := inventory_records db;
     transactions := transactions db;
     supply_requests := supply_requests db |}.

Definition stage_clerk (c : Clerk) (db : DB) : DB :=
  {| merchants := merchants db; admins := admins db;
     clerks := update_row Clerk_id c (clerks db);
     stores := stores db; products := products db;
     inventory_records := inventory_records db;
     transactions := transactions db;
     supply_requests := supply_requests db |}.

(** Modelled from the spec: the column defaults of [Clerk] are in the
    absent [app.models.user_models]; a clerk is created active and, its
    [store_id] being nullable and not given, without a store. *)
Definition Clerk_default_is_active : bool := true.
Definition Clerk_default_store_id : option Z := None.

Definition ClerkRegistrationByAdmin_post (db : DB) (o : commit_outcome) (tok : jwt)
    (data : gmap string json) : DB * response Clerk :=
  run (
    admin_required db tok ;;
    let username := dict_get data "username" in
    let email := dict_get data "email" in
    let password := dict_get data "password" in
    return_if (negb (truthy username && truthy email && truthy password))
      (db, Msg 400 "Missing required fields: username, email, password") ;;
    return_if (negb (validate_email email)) (db, Msg 400 "Invalid email format") ;;
    match validate_password password with
    | inl e => Return (db, Raised e)
    | inr false => Return (db, Msg 400 "Password does not meet requirements")
    | inr true =>
        let current_admin_id := identity tok in
        admin ← unless_none (query_get Admin_id (admins db) current_admin_id)
                  (db, Msg 404 "Admin not found") ;
        let new_clerk :=
          {| Clerk_id := next_id Clerk_id (clerks db);
             Clerk_username := username;
             Clerk_email := email;
             Clerk_password_hash := generate_password_hash password;
             Clerk_is_active := Clerk_default_is_active;
             Clerk_admin_id := Admin_id admin;
             Clerk_store_id := Clerk_default_store_id |} in
        Return (session_commit_unique o db (stage_new_clerk new_clerk db)
                  (Data 201 (Some "Clerk registered successfully") new_clerk)
                  (Msg 409 "Username or email already exists")
                  (Msg 500 "An internal server error occurred during clerk registration."))
    end).

Definition ClerkResource_put (db : DB) (o : commit_outcome) (tok : jwt)
    (clerk_id : option Z) (data : gmap string json) : DB * response Clerk :=
  let current_user_id := identity tok in
  let is_merchant := is_merchant db current_user_id in
  let is_admin := is_admin db current_user_id in
  run (
    target_clerk ←
      match clerk_id with
      | None =>
          unless_none (query_get Clerk_id (clerks db) current_user_id)
            (db, Msg 404 "Clerk profile not found")
      | Some clerk_id =>
          return_if (negb (is_merchant || is_admin))
            (db, Msg 403 "Admin or Merchant access required to update other clerk profiles") ;;
          unless_none (query_get Clerk_id (clerks db) clerk_id)
            (db, Msg 404 "Clerk not found")
      end ;
    let username := dict_get_default data "username" (Clerk_username target_clerk) in
    let email := dict_get_default data "email" (Clerk_email target_clerk) in
    let password := dict_get data "password" in
    let is_active :=
      dict_get_default data "is_active" (JBool (Clerk_is_active target_clerk)) in
    let new_username := if truthy username then username else Clerk_username target_clerk in
    new_email ←
      (if truthy email then
         return_if (negb (validate_email email)) (db, Msg 400 "Invalid email format") ;;
         Next email
       else Next (Clerk_email target_clerk)) ;
    new_hash ←
      (if truthy password then
         match validate_password password with
         | inl e => Return (db, Raised e)
         | inr false => Return (db, Msg 400 "Password does not meet requirements")
         | inr true => Next (generate_password_hash password)
         end
       else Next (Clerk_password_hash target_clerk)) ;
    new_is_active ←
      match as_bool is_active with
      | Some b =>
          if is_merchant || is_admin then Next b
          else if negb (bool_decide (b = Clerk_is_active target_clerk)) then
            Return (db, Msg 403 "Clerks cannot change their own active status")
          else Next (Clerk_is_active target_clerk)
      | None => Next (Clerk_is_active target_clerk)
      end ;
    let target_clerk :=
      {| Clerk_id := Clerk_id target_clerk;
         Clerk_username := new_username;
         Clerk_email := new_email;
         Clerk_password_hash := new_hash;
         Clerk_is_active := new_is_active;
         Clerk_admin_id := Clerk_admin_id target_clerk;
         Clerk_store_id := Clerk_store_id target_clerk |} in
    Return (session_commit_unique o db (stage_clerk target_clerk db)
              (Data 200 (Some "Clerk updated successfully") target_clerk)
              (Msg 409 "Username or email already exists")
              (Msg 500 "An internal server error occurred during update."))).

(** ** app/models/products.py *)

Definition stage_new_product (p : Product) (db : DB) : DB :=
  {| merchants := merchants db; admins := admins db; clerks := clerks db;
     stores := stores db; products := products db ++ [p];
     inventory_records := inventory_records db;
     transactions := transactions db;
     supply_requests := supply_requests db |}.

Definition stage_product (p : Product) (db : DB) : DB :=
  {| merchants := merchants db; admins := admins db; clerks := clerks db;
     stores := stores db; products := update_row Product_id p (products db);
     inventory_records := inventory_records db;
     transactions := transactions db;
     supply_requests := supply_requests db |}.

Definition ProductListResource_post (db : DB) (o : commit_outcome) (tok : jwt)
    (data : gmap string json) : DB * response Product :=
  let current_user_id := identity tok in
  let user_type := user_type tok in
  run (
    return_if (negb (claim_is user_type "merchant" || claim_is user_type "admin"))
      (db, Msg 403 "Merchant or Admin access required to create products") ;;
    let name := dict_get data "name" in
    let description := dict_get data "description" in
    let buying_price := dict_get data "buying_price" in
    let selling_price := dict_get data "selling_price" in
    return_if (negb (truthy name && truthy buying_price && is_not_None selling_price))
      (db, Msg 400 "Missing required fields: name, buying_price, selling_price") ;;
    let value_error :=
      (db, Msg 400 "Buying and selling prices must be valid numbers") in
    buying_price ← try_float db value_error buying_price ;
    selling_price ← try_float db value_error selling_price ;
    return_if (float_is_negative buying_price || float_is_negative selling_price)
      (db, Msg 400 "Prices cannot be negative") ;;
    product_merchant_id ←
      (if claim_is user_type "merchant" then Next current_user_id
       else if claim_is user_type "admin" then
         admin ← unless_none (query_get Admin_id (admins db) current_user_id)
                   (db, Msg 404 "Admin not found for product creation") ;
         Next (Admin_merchant_id admin)
       else Return (db, Msg 403 "Unauthorized to create products")) ;
    let new_product :=
      {| Product_id := next_id Product_id (products db);
         Product_name := name;
         Product_description := description;
         buying_price := buying_price;
         selling_price := selling_price;
         Product_merchant_id := product_merchant_id;
         Product_is_active := true |} in
    Return (session_commit_unique o db (stage_new_product new_product db)
              (Data 201 (Some "Product created successfully") new_product)
              (Msg 409 "Product with this name already exists")
              (Msg 500 "An internal server error occurred during product creation."))).

(** [v = data.get(k, stored)] followed by [if v is not None: try:
    v = float(v); if v < 0: return negative; field = v  except ValueError:
    return invalid]: the new value of the field. *)
Definition updated_price {A} (db : DB) (data : gmap string json) (k : string)
    (stored : float) (negative invalid : string) : flow (DB * response A) float :=
  match data !! k with
  | None =>
      return_if (float_is_negative stored) (db, Msg 400 negative) ;;
      Next stored
  | Some JNull => Next stored
  | Some v =>
      f ← try_float db (db, Msg 400 invalid) v ;
      return_if (float_is_negative f) (db, Msg 400 negative) ;;
      Next f
  end.

Definition ProductResource_put (db : DB) (o : commit_outcome) (tok : jwt)
    (product_id : Z) (data : gmap string json) : DB * response Product :=
  let current_user_id := identity tok in
  let user_type := user_type tok in
  run (
    return_if (negb (claim_is user_type "merchant" || claim_is user_type "admin"))
      (db, Msg 403 "Merchant or Admin access required to update products") ;;
    product ← unless_none (query_get Product_id (products db) product_id)
                (db, Msg 404 "Product not found") ;
    (if claim_is user_type "merchant" then
       return_if (negb (Product_merchant_id product =? current_user_id))
         (db, Msg 403 "Unauthorized to update this product")
     else
       match query_get Admin_id (admins db) current_user_id with
       | None => Return (db, Msg 403 "Unauthorized to update this product")
       | Some admin =>
           return_if (negb (Product_merchant_id product =? Admin_merchant_id admin))
             (db, Msg 403 "Unauthorized to update this product")
       end) ;;
    let name := dict_get_default data "name" (Product_name product) in
    let description := dict_get_default data "description" (Product_description product) in
    let is_active := dict_get_default data "is_active" (JBool (Product_is_active product)) in
    new_buying_price ← updated_price db data "buying_price" (buying_price product)
                          "Buying price cannot be negative"
                          "Buying price must be a valid number" ;
    new_selling_price ← updated_price db data "selling_price" (selling_price product)
                           "Selling price cannot be negative"
                           "Selling price must be a valid number" ;
    let product :=
      {| Product_id := Product_id product;
         Product_name := if truthy name then name else Product_name product;
         Product_description := if is_not_None description then description
                                else Product_description product;
         buying_price := new_buying_price;
         selling_price := new_selling_price;
         Product_merchant_id := Product_merchant_id product;
         Product_is_active := match as_bool is_active with
                              | Some b => b
                              | None => Product_is_active product
                              end |} in
    Return (session_commit_unique o db (stage_product product db)
              (Data 200 (Some "Product updated successfully") product)
              (Msg 409 "Product with this name already exists")
              (Msg 500 "An internal server error occurred during product update."))).

(** Two inventory records with the same key, product, store, clerk and
    date of record. *)
Definition same_identity (r r' : Inventory) : Prop :=
  Inventory_id r' = Inventory_id r
  /\ Inventory_product_id r' = Inventory_product_id r
  /\ Inventory_store_id r' = Inventory_store_id r
  /\ Inventory_clerk_id r' = Inventory_clerk_id r
  /\ date_recorded r' = date_recorded r.

(** Two inventory records that differ at most in the payment status. *)
Definition same_but_payment_status (r r' : Inventory) : Prop :=
  same_identity r r'
  /\ quantity_received r' = quantity_received r
  /\ items_in_stock r' = items_in_stock r
  /\ items_spoilt r' = items_spoilt r
  /\ buying_price_at_record r' = buying_price_at_record r
  /\ selling_price_at_record r' = selling_price_at_record r.

(** The rows by decreasing date of record. *)
Definition by_date_desc (l : list Inventory) : Prop :=
  StronglySorted (fun a b => date_recorded b <= date_recorded a) l.

(** The test that an entry of the stock report is the one of a pair. *)
Definition entry_of_pair (p s : Z) (e : stock_entry) : bool :=
  (entry_product_id e =? p) && (entry_store_id e =? s).

(** The test that an inventory record is one of a pair. *)
Definition record_of_pair (p s : Z) (r : Inventory) : bool :=
  (Inventory_product_id r =? p) && (Inventory_store_id r =? s).

End Backend.

(** ** Sample data

    A platform for the examples: prices in whole units, an e-mail check
    that accepts every string, and a hash that is the password itself.
    The store is the scenario of the specification: the product Widget
    bought at 10 and sold at 15, one store with its admin and its clerk,
    and a receipt of 100 items of which 5 are spoilt. *)

Definition sample_platform : Platform :=
  {| float := Z;
     float_mul_int := Z.mul;
     float_of := fun v => match v with
                          | JInt z => inr z
                          | JBool b => inr (if b then 1 else 0)
                          | JStr _ => inl ValueError
                          | JNull => inl TypeError
                          end;
     float_is_negative := fun f => f <? 0;
     int_of_str := fun _ => None;
     validators_email := fun v => match v with JStr _ => true | _ => false end;
     generate_password_hash := fun v => match v with JStr s => s | _ => "" end;
     check_password_hash := fun h v => bool_decide (v = JStr h) |}.

(** A price of the sample platform. *)
Definition whole (z : Z) : @float sample_platform := z.

Definition merchant_M : Merchant :=
  {| Merchant_id := 1; Merchant_username := JStr "M";
     Merchant_email := JStr "m@x.com"; Merchant_password_hash := "Strong1!A";
     Merchant_is_active := true; Merchant_is_superuser := true |}.

Definition admin_1 : Admin :=
  {| Admin_id := 1; Admin_username := JStr "admin1";
     Admin_email := JStr "a1@x.com"; Admin_password_hash := "Strong1!A";
     Admin_is_active := true; Admin_merchant_id := 1; Admin_store_id := Some 1 |}.

(** The admin of another store. *)
Definition admin_2 : Admin :=
  {| Admin_id := 2; Admin_username := JStr "admin2";
     Admin_email := JStr "a2@x.com"; Admin_password_hash := "Strong1!A";
     Admin_is_active := true; Admin_merchant_id := 1; Admin_store_id := Some 2 |}.

(** An admin that has no store. *)
Definition admin_3 : Admin :=
  {| Admin_id := 3; Admin_username := JStr "admin3";
     Admin_email := JStr "a3@x.com"; Admin_password_hash := "Strong1!A";
     Admin_is_active := true; Admin_merchant_id := 1; Admin_store_id := None |}.

Definition clerk_1 : Clerk :=
  {| Clerk_id := 1; Clerk_username := JStr "clerk1";
     Clerk_email := JStr "c1@x.com"; Clerk_password_hash := "Strong1!A";
     Clerk_is_active := true; Clerk_admin_id := 1; Clerk_store_id := Some 1 |}.

(** A clerk whose account was switched off. *)
Definition clerk_2 : Clerk :=
  {| Clerk_id := 2; Clerk_username := JStr "clerk2";
     Clerk_email := JStr "c2@x.com"; Clerk_password_hash := "Strong1!A";
     Clerk_is_active := false; Clerk_admin_id := 1; Clerk_store_id := Some 1 |}.

Definition store_1 : Store :=
  {| Store_id := 1; Store_name := JStr "Main"; Store_location := JStr "Nairobi";
     Store_is_active := true; Store_merchant_id := 1 |}.

Definition store_2 : Store :=
  {| Store_id := 2; Store_name := JStr "Branch"; Store_location := JStr "Mombasa";
     Store_is_active := true; Store_merchant_id := 1 |}.

Definition widget : @Product sample_platform :=
  {| Product_id := 1; Product_name := JStr "Widget"; Product_description := JNull;
     buying_price := whole 10; selling_price := whole 15;
     Product_merchant_id := 1; Product_is_active := true |}.

Definition receipt_1 : @Inventory sample_platform :=
  {| Inventory_id := 1; Inventory_product_id := 1; Inventory_store_id := 1;
     Inventory_clerk_id := Some 1;
     quantity_received := 100; items_in_stock := 95; items_spoilt := 5;
     payment_status := JBool false;
     buying_price_at_record := whole 10; selling_price_at_record := whole 15;
     date_recorded := 1000 |}.

Definition request_of (st : string) : SupplyRequest :=
  {| SupplyRequest_id := 1; SupplyRequest_product_id := 1;
     SupplyRequest_store_id := 1;
     requested_by_clerk_id := Some 1; approved_by_admin_id := None;
     quantity_requested := 50; status := st; notes := JNull;
     request_date := 1000; response_date := None |}.

(** The store before any receipt. *)
Definition duka : @DB sample_platform :=
  {| merchants := [merchant_M];
     admins := [admin_1; admin_2; admin_3];
     clerks := [clerk_1; clerk_2];
     stores := [store_1; store_2];
     products := [widget];
     inventory_records := [];
     transactions := [];
     supply_requests := [] |}.

(** The store after the receipt, with a supply request of status [st]. *)
Definition duka_stocked (st : string) : @DB sample_platform :=
  {| merchants := [merchant_M];
     admins := [admin_1; admin_2; admin_3];
     clerks := [clerk_1; clerk_2];
     stores := [store_1; store_2];
     products := [widget];
     inventory_records := [receipt_1];
     transactions := [];
     supply_requests := [request_of st] |}.

(** The store before the Merchant registers. *)
Definition empty_store : @DB sample_platform :=
  {| merchants := []; admins := []; clerks := []; stores := []; products := [];
     inventory_records := []; transactions := []; supply_requests := [] |}.

Definition clerk_1_token : jwt := create_access_token 1 "clerk".
Definition admin_1_token : jwt := create_access_token 1 "admin".
Definition admin_2_token : jwt := create_access_token 2 "admin".
Definition admin_3_token : jwt := create_access_token 3 "admin".

(** The store once the clerk has sold the 95 items in stock. *)
Definition duka_sold_out : @DB sample_platform :=
  fst (TransactionListResource_post (duka_stocked "Pending") 2000 Committed
         clerk_1_token
         (<["product_id" := JInt 1]>
            (<["store_id" := JInt 1]> {[ "quantity_sold" := JInt 95 ]}))).

Definition sale_body (q : Z) : gmap string json :=
  <["product_id" := JInt 1]> (<["store_id" := JInt 1]> {[ "quantity_sold" := JInt q ]}).

Definition receipt_body (received spoilt : Z) : gmap string json :=
  <["product_id" := JInt 1]>
    (<["store_id" := JInt 1]>
       (<["quantity_received" := JInt received]> {[ "items_spoilt" := JInt spoilt ]})).

Definition status_body (st : string) : gmap string json :=
  {[ "status" := JStr st ]}.

Definition registration_body : gmap string json :=
  <["username" := JStr "M"]>
    (<["email" := JStr "m@x.com"]> {[ "password" := JStr "Strong1!A" ]}).

Definition login_body (email : string) : gmap string json :=
  <["email" := JStr email]> {[ "password" := JStr "Strong1!A" ]}.

(** The token of the Merchant, and the bodies of the further scenarios. *)
Definition merchant_token : jwt := create_access_token 1 "merchant".

(** A sale of one Widget in the branch, store 2. *)
Definition branch_sale_body : gmap string json :=
  <["product_id" := JInt 1]> (<["store_id" := JInt 2]> {[ "quantity_sold" := JInt 1 ]}).

(** A receipt that says nothing of spoilt items or of payment. *)
Definition bare_receipt_body (received : Z) : gmap string json :=
  <["product_id" := JInt 1]>
    (<["store_id" := JInt 1]> {[ "quantity_received" := JInt received ]}).

(** A recount of a record: the stock and the items spoilt. *)
Definition count_body (n m : Z) : gmap string json :=
  <["items_in_stock" := JInt n]> {[ "items_spoilt" := JInt m ]}.

(** A supply request that also names a store and a status. *)
Definition request_body (q : Z) : gmap string json :=
  <["product_id" := JInt 1]>
    (<["quantity_requested" := JInt q]>
       (<["store_id" := JInt 2]> {[ "status" := JStr "Approved" ]})).

(** What the login answers to the clerk of store 1. *)
Definition clerk_1_login : login_payload :=
  {| access_token := create_access_token 1 "clerk";
     refresh_token := create_refresh_token 1 "clerk";
     login_user_type := "clerk";
     login_user_id := 1 |}.

(** A registration whose password is the number 12345678. *)
Definition numeric_password_body : gmap string json :=
  <["username" := JStr "M"]>
    (<["email" := JStr "m@x.com"]> {[ "password" := JInt 12345678 ]}).

Definition activity_body (b : bool) : gmap string json :=
  {[ "is_active" := JBool b ]}.

Definition product_body (buying selling : Z) : gmap string json :=
  <["name" := JStr "Gift"]>
    (<["buying_price" := JInt buying]> {[ "selling_price" := JInt selling ]}).

(** A new selling price for a product. *)
Definition price_body (selling : Z) : gmap string json :=
  {[ "selling_price" := JInt selling ]}.

(** * Properties *)

Section QueryFacts.
Context {A : Type} (key : A -> Z).

Lemma query_get_Some tbl k r :
  query_get key tbl k = Some r -> In r tbl /\ key r = k.
Proof.
  unfold query_get. intros Hf. apply find_some in Hf as [Hin Hk].
  split; [exact Hin | lia].
Qed.

Lemma query_get_update_row r tbl :
  (exists x, In x tbl /\ key x = key r) ->
  query_get key (update_row key r tbl) (key r) = Some r.
Proof.
  unfold query_get, update_row.
  induction tbl as [|y tbl IH]; intros [x [Hin Hx]].
  - destruct Hin.
  - simpl. destruct (key y =? key r) eqn:E.
    + simpl. rewrite Z.eqb_refl. reflexivity.
    + simpl. rewrite E. apply IH. destruct Hin as [-> | Hin].
      * lia.
      * exists x. split; assumption.
Qed.

End QueryFacts.

Section Properties.
Context `{Platform}.

(** The row the ledger query selects is one of the rows it ranges over. *)
Lemma first_by_date_desc_In l r :
  first_by_date_desc l = Some r -> In r l.
Proof.
  revert r. induction l as [|x l IH]; simpl; intros r Hr.
  - discriminate.
  - destruct (first_by_date_desc l) as [b|].
    + destruct (date_recorded x <? date_recorded b); inversion Hr; subst.
      * right. apply IH. reflexivity.
      * left. reflexivity.
    + inversion Hr. left. reflexivity.
Qed.

(** No row it ranges over was recorded later. *)
Lemma first_by_date_desc_max l r :
  first_by_date_desc l = Some r ->
  forall x, In x l -> date_recorded x <= date_recorded r.
Proof.
  revert r. induction l as [|y l IH]; simpl; intros r Hr x Hx.
  - destruct Hx.
  - destruct (first_by_date_desc l) as [b|] eqn:Hb.
    + destruct (date_recorded y <? date_recorded b) eqn:E; inversion Hr; subst.
      * destruct Hx as [<- | Hx]; [lia | apply IH; auto].
      * destruct Hx as [<- | Hx]; [lia |].
        specialize (IH b eq_refl x Hx). lia.
    + inversion Hr; subst. destruct Hx as [<- | Hx]; [lia |].
      destruct l; [destruct Hx | simpl in Hb].
      destruct (first_by_date_desc l) as [b'|].
      * destruct (date_recorded i <? date_recorded b'); discriminate.
      * discriminate.
Qed.

(** The latest record of a pair is a stored record of that pair, and no
    record of the pair is more recent. *)
Lemma latest_inventory_record_spec db p s r :
  latest_inventory_record db p s = Some r ->
  In r (inventory_records db)
  /\ Inventory_product_id r = p /\ Inventory_store_id r = s
  /\ forall x, In x (inventory_records db) ->
       Inventory_product_id x = p -> Inventory_store_id x = s ->
       date_recorded x <= date_recorded r.
Proof.
  unfold latest_inventory_record, inventory_for. intros Hr.
  pose proof (first_by_date_desc_In _ _ Hr) as Hin.
  apply list_elem_of_In, list_elem_of_filter in Hin as [[Hp Hs] Hin].
  apply list_elem_of_In in Hin.
  repeat split; try assumption.
  intros x Hx Hxp Hxs. apply (first_by_date_desc_max _ _ Hr).
  apply list_elem_of_In, list_elem_of_filter. split; [split; assumption |].
  apply list_elem_of_In. exact Hx.
Qed.

(** There is no latest record exactly when the pair has no record. *)
Lemma latest_inventory_record_None db p s :
  latest_inventory_record db p s = None <->
  forall x, In x (inventory_records db) ->
    ~ (Inventory_product_id x = p /\ Inventory_store_id x = s).
Proof.
  unfold latest_inventory_record, inventory_for. split.
  - intros Hn x Hx Hm.
    assert (x ∈ filter (fun r => Inventory_product_id r = p /\ Inventory_store_id r = s)
                  (inventory_records db)) as Hf.
    { apply list_elem_of_filter. split; [exact Hm | apply list_elem_of_In; exact Hx]. }
    destruct (filter _ _) as [|y l]; [inversion Hf |].
    simpl in Hn. destruct (first_by_date_desc l) as [b|].
    + destruct (date_recorded y <? date_recorded b); discriminate.
    + discriminate.
  - intros Hall.
    destruct (filter _ _) as [|y l] eqn:E; [reflexivity |].
    exfalso. assert (y ∈ y :: l) as Hy by left.
    rewrite <- E in Hy. apply list_elem_of_filter in Hy as [Hm Hy].
    apply list_elem_of_In in Hy. exact (Hall y Hy Hm).
Qed.

(** A stored product or store has a key that Python holds for true. *)
Lemma stored_product_key db p product :
  keys_from_one db -> query_get Product_id (products db) p = Some product -> p <> 0.
Proof.
  intros [Hp _] Hq. apply query_get_Some in Hq as [Hin <-].
  rewrite List.Forall_forall in Hp. specialize (Hp _ Hin). lia.
Qed.

Lemma stored_store_key db s store :
  keys_from_one db -> query_get Store_id (stores db) s = Some store -> s <> 0.
Proof.
  intros [_ Hs] Hq. apply query_get_Some in Hq as [Hin <-].
  rewrite List.Forall_forall in Hs. specialize (Hs _ Hin). lia.
Qed.

(** The scope test of a clerk passes when the clerk has no store or has
    the store of the request. *)
Lemma clerk_scope_passes (c : Clerk) s :
  Clerk_store_id c = None \/ Clerk_store_id c = Some s ->
  truthy_id (Clerk_store_id c) && id_differs (Clerk_store_id c) s = false.
Proof.
  intros [-> | ->]; simpl; [reflexivity |].
  rewrite Z.eqb_refl. simpl. apply andb_false_r.
Qed.

(** The sale handler, once every guard before the commit has passed. *)
Lemma TransactionListResource_post_commits
    db now o tok data clerk product store latest p s q :
  keys_from_one db ->
  query_get Clerk_id (clerks db) (identity tok) = Some clerk ->
  data !! "product_id" = Some (JInt p) ->
  data !! "store_id" = Some (JInt s) ->
  data !! "quantity_sold" = Some (JInt q) ->
  query_get Product_id (products db) p = Some product ->
  query_get Store_id (stores db) s = Some store ->
  Clerk_store_id clerk = None \/ Clerk_store_id clerk = Some s ->
  0 < q ->
  latest_inventory_record db p s = Some latest ->
  q <= items_in_stock latest ->
  let t := {| Transaction_id := next_id Transaction_id (transactions db);
              Transaction_product_id := p;
              Transaction_store_id := s;
              Transaction_clerk_id := Some (identity tok);
              quantity_sold := q;
              selling_price_at_transaction := selling_price product;
              total_revenue := float_mul_int (selling_price product) q;
              transaction_date := now |} in
  TransactionListResource_post db now o tok data =
    session_commit o db
      (stage_inventory (set_items_in_stock latest (items_in_stock latest - q))
         (stage_new_transaction t db))
      (Data 201 (Some "Transaction recorded successfully") t)
      (Msg 500 "An internal server error occurred during transaction creation.").
Proof.
  intros Hk Hc Hp Hs Hq Hprod Hstore Hscope Hpos Hl Hle t.
  pose proof (stored_product_key _ _ _ Hk Hprod) as Hp0.
  pose proof (stored_store_key _ _ _ Hk Hstore) as Hs0.
  unfold TransactionListResource_post, clerk_required, dict_get.
  rewrite Hc, Hp, Hs, Hq. cbn.
  assert ((p =? 0) = false) as -> by lia.
  assert ((s =? 0) = false) as -> by lia.
  assert ((q <=? 0) = false) as -> by lia.
  rewrite Hprod, Hstore. cbn.
  rewrite (clerk_scope_passes _ _ Hscope), Hl. cbn.
  assert ((items_in_stock latest <? q) = false) as -> by lia.
  reflexivity.
Qed.


(** C2. A sale of a positive quantity that the pair has no inventory
    record for, or that exceeds the stock of its latest record, fails
    with the insufficient-stock answer and leaves the whole store as it
    was: no Transaction, no change of stock. *)
Theorem sell_insufficient_stock_rejected
    db now o tok data clerk product store p s q :
  keys_from_one db ->
  query_get Clerk_id (clerks db) (identity tok) = Some clerk ->
  data !! "product_id" = Some (JInt p) ->
  data !! "store_id" = Some (JInt s) ->
  data !! "quantity_sold" = Some (JInt q) ->
  query_get Product_id (products db) p = Some product ->
  query_get Store_id (stores db) s = Some store ->
  Clerk_store_id clerk = None \/ Clerk_store_id clerk = Some s ->
  0 < q ->
  (forall x, In x (inventory_records db) ->
     ~ (Inventory_product_id x = p /\ Inventory_store_id x = s))
  \/ (exists latest, latest_inventory_record db p s = Some latest
                     /\ items_in_stock latest < q) ->
  TransactionListResource_post db now o tok data
    = (db, Msg 400 "Insufficient stock for this product in this store").
Proof.
  intros Hk Hc Hp Hs Hq Hprod Hstore Hscope Hpos Hstock.
  pose proof (stored_product_key _ _ _ Hk Hprod) as Hp0.
  pose proof (stored_store_key _ _ _ Hk Hstore) as Hs0.
  unfold TransactionListResource_post, clerk_required, dict_get.
  rewrite Hc, Hp, Hs, Hq. cbn.
  assert ((p =? 0) = false) as -> by lia.
  assert ((s =? 0) = false) as -> by lia.
  assert ((q <=? 0) = false) as -> by lia.
  rewrite Hprod, Hstore. cbn.
  rewrite (clerk_scope_passes _ _ Hscope). cbn.
  destruct Hstock as [Hnone | [latest [Hl Hlt]]].
  - apply latest_inventory_record_None in Hnone. rewrite Hnone. reflexivity.
  - rewrite Hl. cbn.
    assert ((items_in_stock latest <? q) = true) as -> by lia.
    reflexivity.
Qed.

(** C4. A receipt recorded by an authenticated clerk, for an existing
    product and store within the clerk's scope, with quantities that are
    not negative: an inventory record is created whose stock is the
    quantity received minus the items spoilt (there is no test that the
    difference is not negative) and whose prices are the product's
    current buying and selling price. *)
Theorem record_receipt_creates_inventory_record
    db now tok data clerk product store p s received spoilt :
  keys_from_one db ->
  query_get Clerk_id (clerks db) (identity tok) = Some clerk ->
  data !! "product_id" = Some (JInt p) ->
  data !! "store_id" = Some (JInt s) ->
  data !! "quantity_received" = Some (JInt received) ->
  data !! "items_spoilt" = Some (JInt spoilt) ->
  query_get Product_id (products db) p = Some product ->
  query_get Store_id (stores db) s = Some store ->
  Clerk_store_id clerk = None \/ Clerk_store_id clerk = Some s ->
  0 <= received ->
  0 <= spoilt ->
  exists (r : Inventory) (db' : DB),
    InventoryListResource_post db now Committed tok data
      = (db', Data 201 (Some "Inventory record created successfully") r)
    /\ Inventory_product_id r = p
    /\ Inventory_store_id r = s
    /\ Inventory_clerk_id r = Some (Clerk_id clerk)
    /\ quantity_received r = received
    /\ items_spoilt r = spoilt
    /\ items_in_stock r = received - spoilt
    /\ buying_price_at_record r = buying_price product
    /\ selling_price_at_record r = selling_price product
    /\ inventory_records db' = inventory_records db ++ [r].
Proof.
  intros Hk Hc Hp Hs Hr Hsp Hprod Hstore Hscope Hr0 Hsp0.
  pose proof (stored_product_key _ _ _ Hk Hprod) as Hp0.
  pose proof (stored_store_key _ _ _ Hk Hstore) as Hs0.
  destruct (query_get_Some _ _ _ _ Hc) as [_ Hcid].
  unfold InventoryListResource_post, clerk_required, dict_get, dict_get_default.
  rewrite Hc, Hp, Hs, Hr, Hsp. cbn.
  assert ((p =? 0) = false) as -> by lia.
  assert ((s =? 0) = false) as -> by lia.
  assert ((received <? 0) = false) as -> by lia.
  assert ((spoilt <? 0) = false) as -> by lia.
  rewrite Hprod, Hstore. cbn.
  rewrite (clerk_scope_passes _ _ Hscope). cbn.
  eexists. eexists. split; [reflexivity |].
  rewrite Hcid. repeat split; reflexivity.
Qed.

(** ** Field-level rules of the inventory update *)

Lemma assign_int_field_cases {A} db data k set negative invalid record :
  (exists n, assign_int_field (A:=A) db data k set negative invalid record
               = Next (set record n))
  \/ assign_int_field (A:=A) db data k set negative invalid record = Next record
  \/ (exists r, assign_int_field (A:=A) db data k set negative invalid record
                  = Return (db, r)).
Proof.
  unfold assign_int_field, try_int.
  destruct (data !! k) as [v|]; [| right; left; reflexivity].
  destruct (py_int v) as [e|n]; cbn.
  - right; right. destruct e; eexists; reflexivity.
  - destruct (n <? 0); cbn.
    + right; right. eexists; reflexivity.
    + left. exists n. reflexivity.
Qed.

(** C5. An update of an inventory record by the authenticated clerk who
    created it changes nothing but the stock and the spoilt items of that
    record; and when the body names the payment status, the quantity
    received or one of the two prices, the update is refused with 403 and
    the store is left as it was. *)
Theorem clerk_update_limited_to_stock_and_spoilt
    db o tok record_id data clerk record :
  user_type tok = Some "clerk" ->
  query_get Clerk_id (clerks db) (identity tok) = Some clerk ->
  query_get Inventory_id (inventory_records db) record_id = Some record ->
  Inventory_clerk_id record = Some (Clerk_id clerk) ->
  (exists record',
     same_but_stock_and_spoilt record record'
     /\ (fst (InventoryResource_put db o tok record_id data) = db
         \/ fst (InventoryResource_put db o tok record_id data)
              = stage_inventory record' db))
  /\ (is_Some (data !! "payment_status")
      \/ is_Some (data !! "quantity_received")
      \/ is_Some (data !! "buying_price_at_record")
      \/ is_Some (data !! "selling_price_at_record") ->
      InventoryResource_put db o tok record_id data
        = (db, Msg 403
                 "Clerks can only update stock and spoilt items in inventory records")).
Proof.
  intros Hut Hc Hrec Hown.
  unfold InventoryResource_put. rewrite Hut, Hrec, Hc.
  change (claim_is (Some "clerk") "merchant") with false.
  change (claim_is (Some "clerk") "admin") with false.
  change (claim_is (Some "clerk") "clerk") with true.
  cbn. rewrite Hown. rewrite bool_decide_eq_true_2 by reflexivity. cbn.
  split.
  - destruct (dict_has data "payment_status" || dict_has data "quantity_received"
              || dict_has data "buying_price_at_record"
              || dict_has data "selling_price_at_record"); cbn.
    { exists record. split; [repeat split | left; reflexivity]. }
    destruct (assign_int_field_cases (A:=Inventory) db data "items_in_stock"
                set_items_in_stock "Items in stock cannot be negative"
                "Items in stock must be a valid number" record)
      as [[n ->] | [-> | [r ->]]]; cbn;
      try (exists record; split; [repeat split | left; reflexivity]).
    + destruct (assign_int_field_cases (A:=Inventory) db data "items_spoilt"
                  set_items_spoilt "Items spoilt cannot be negative"
                  "Items spoilt must be a valid number" (set_items_in_stock record n))
        as [[m ->] | [-> | [r ->]]]; cbn;
        try (exists record; split; [repeat split | left; reflexivity]).
      * destruct (dict_has data "items_in_stock" || dict_has data "items_spoilt"); cbn.
        -- exists (set_items_spoilt (set_items_in_stock record n) m).
           split; [repeat split |]. destruct o; cbn; auto.
        -- exists record. split; [repeat split | left; reflexivity].
      * destruct (dict_has data "items_in_stock" || dict_has data "items_spoilt"); cbn.
        -- exists (set_items_in_stock record n).
           split; [repeat split |]. destruct o; cbn; auto.
        -- exists record. split; [repeat split | left; reflexivity].
    + destruct (assign_int_field_cases (A:=Inventory) db data "items_spoilt"
                  set_items_spoilt "Items spoilt cannot be negative"
                  "Items spoilt must be a valid number" record)
        as [[m ->] | [-> | [r ->]]]; cbn;
        try (exists record; split; [repeat split | left; reflexivity]).
      * destruct (dict_has data "items_in_stock" || dict_has data "items_spoilt"); cbn.
        -- exists (set_items_spoilt record m).
           split; [repeat split |]. destruct o; cbn; auto.
        -- exists record. split; [repeat split | left; reflexivity].
      * destruct (dict_has data "items_in_stock" || dict_has data "items_spoilt"); cbn.
        -- exists record. split; [repeat split |]. destruct o; cbn; auto.
        -- exists record. split; [repeat split | left; reflexivity].
  - intros Hkeys.
    assert (dict_has data "payment_status" || dict_has data "quantity_received"
            || dict_has data "buying_price_at_record"
            || dict_has data "selling_price_at_record" = true) as ->.
    { unfold dict_has.
      destruct Hkeys as [Hk | [Hk | [Hk | Hk]]];
        rewrite (bool_decide_eq_true_2 _ Hk); cbn;
        rewrite ?orb_true_r; reflexivity. }
    reflexivity.
Qed.

(** ** Store scope of an Admin *)

(** C7. An Admin without a store is refused with 403 and a reason of its
    own, "Admin not assigned to a store", by every store-scoped listing:
    inventory records, transactions, supply requests and the four
    reports. *)
Theorem unassigned_admin_denied_listings db tok admin :
  user_type tok = Some "admin" ->
  query_get Admin_id (admins db) (identity tok) = Some admin ->
  Admin_store_id admin = None ->
  InventoryListResource_get db tok
    = Msg 403 "Admin not assigned to a store. Cannot view specific inventory records."
  /\ TransactionListResource_get db tok
      = Msg 403 "Admin not assigned to a store. Cannot view transactions."
  /\ SupplyRequestListResource_get db tok
      = Msg 403 "Admin not assigned to a store. Cannot view supply requests."
  /\ (forall A (project : list Transaction -> response A),
        SalesReportResource_get project db tok
        = Msg 403 "Admin not assigned to a store. Cannot generate store-specific reports.")
  /\ (forall A (project : list Inventory -> response A),
        StockReportResource_get project db tok
        = Msg 403 "Admin not assigned to a store. Cannot generate store-specific reports."
        /\ SpoiltItemsReportResource_get project db tok
           = Msg 403 "Admin not assigned to a store. Cannot generate store-specific reports."
        /\ PaymentStatusReportResource_get project db tok
           = Msg 403 "Admin not assigned to a store. Cannot generate store-specific reports.").
Proof.
  intros Hut Ha Hs.
  unfold InventoryListResource_get, TransactionListResource_get,
    SupplyRequestListResource_get, SalesReportResource_get, StockReportResource_get,
    SpoiltItemsReportResource_get, PaymentStatusReportResource_get,
    get_authorized_query.
  rewrite Hut.
  change (unknown_user_type (Some "admin")) with false.
  change (claim_is (Some "admin") "merchant") with false.
  change (claim_is (Some "admin") "admin") with true.
  rewrite Ha. cbn. rewrite Hs. cbn.
  repeat split; reflexivity.
Qed.

(** The by-id reads let an Admin without a store through, whatever the
    store of the record. *)
Lemma unassigned_admin_reads_any_store db tok admin :
  user_type tok = Some "admin" ->
  query_get Admin_id (admins db) (identity tok) = Some admin ->
  Admin_store_id admin = None ->
  (forall k r, query_get Inventory_id (inventory_records db) k = Some r ->
     InventoryResource_get db tok k = Data 200 None r)
  /\ (forall k t, query_get Transaction_id (transactions db) k = Some t ->
        TransactionResource_get db tok k = Data 200 None t)
  /\ (forall k q, query_get SupplyRequest_id (supply_requests db) k = Some q ->
        SupplyRequestResource_get db tok k = Data 200 None q).
Proof.
  intros Hut Ha Hs.
  unfold InventoryResource_get, TransactionResource_get, SupplyRequestResource_get.
  rewrite Hut.
  change (claim_is (Some "admin") "merchant") with false.
  change (claim_is (Some "admin") "admin") with true.
  rewrite Ha, Hs.
  repeat split; intros k r Hr; rewrite Hr; reflexivity.
Qed.

(** So does the update of an inventory record: the Admin without a store
    sets the payment status of a record of any store. *)
Lemma unassigned_admin_sets_payment_status_any_store db tok admin k r v :
  user_type tok = Some "admin" ->
  query_get Admin_id (admins db) (identity tok) = Some admin ->
  Admin_store_id admin = None ->
  query_get Inventory_id (inventory_records db) k = Some r ->
  InventoryResource_put db Committed tok k (data_only_payment_status v)
    = (stage_inventory (set_payment_status r v) db,
       Data 200 (Some "Inventory record updated successfully")
         (set_payment_status r v)).
Proof.
  intros Hut Ha Hs Hr.
  unfold InventoryResource_put.
  rewrite Hut, Hr, Ha.
  change (claim_is (Some "admin") "merchant") with false.
  change (claim_is (Some "admin") "admin") with true.
  cbn. rewrite Hs. cbn.
  unfold dict_has, data_only_payment_status.
  assert (forall k', k' <> "payment_status" ->
            bool_decide (is_Some (({["payment_status" := v]} : gmap string json) !! k'))
            = false) as Hother.
  { intros k' Hne. apply bool_decide_eq_false_2.
    rewrite lookup_singleton_ne by congruence. apply is_Some_None. }
  rewrite !Hother by discriminate.
  rewrite lookup_singleton_eq. reflexivity.
Qed.

(** The store test of the supply-request update lets the Admin without a
    store through as well; what follows it is the read of the unbound
    name [status], which every call that gets this far raises on. *)
Lemma SupplyRequestResource_put_raises db now o tok request_id data admin req :
  query_get Admin_id (admins db) (identity tok) = Some admin ->
  query_get SupplyRequest_id (supply_requests db) request_id = Some req ->
  truthy_id (Admin_store_id admin)
    && id_differs (Admin_store_id admin) (SupplyRequest_store_id req) = false ->
  SupplyRequestResource_put db now o tok request_id data = (db, Raised NameError).
Proof.
  intros Ha Hr Hscope.
  unfold SupplyRequestResource_put, SupplyRequestResource_put_body,
    supply_request_module_status, admin_required.
  rewrite Ha, Hr. cbn. rewrite Hscope. reflexivity.
Qed.

(** ** Supply requests *)

(** The guards of the update that follow the read of [status]: with the
    name bound to one of the three replies, an Approved request of the
    Admin's store moves on; the frozen-status test names Fulfilled and
    Declined only. *)
Lemma approved_request_is_not_frozen db now tok request_id data admin req s' :
  query_get Admin_id (admins db) (identity tok) = Some admin ->
  query_get SupplyRequest_id (supply_requests db) request_id = Some req ->
  truthy_id (Admin_store_id admin)
    && id_differs (Admin_store_id admin) (SupplyRequest_store_id req) = false ->
  status req = "Approved" ->
  s' ∈ ["Approved"; "Declined"; "Fulfilled"] ->
  exists req',
    SupplyRequestResource_put_body (Some (JStr s')) db now Committed tok request_id data
      = (stage_supply_request req' db,
         Data 200 (Some "Supply request updated successfully") req')
    /\ status req' = s'.
Proof.
  intros Ha Hr Hscope Hst Hin.
  unfold SupplyRequestResource_put_body, admin_required.
  rewrite Ha, Hr. cbn. rewrite Hscope, Hst.
  assert (s' = "Approved" \/ s' = "Declined" \/ s' = "Fulfilled")
    as [-> | [-> | ->]]
    by (rewrite !elem_of_cons, elem_of_nil in Hin; tauto);
    eexists; split; reflexivity.
Qed.


(** ** Role guards and login *)

(** The token of a successful login carries the key of the account that
    the lookup found and the name of its kind. *)
Lemma UserLogin_post_token db data code message payload :
  UserLogin_post db data = Data code message payload ->
  exists user kind,
    lookup_account db (dict_get data "email") = Some (user, kind)
    /\ access_token payload = create_access_token (account_id user) kind.
Proof.
  unfold UserLogin_post.
  destruct (truthy (dict_get data "email") && truthy (dict_get data "password"));
    cbn; [| discriminate].
  destruct (validators_email (dict_get data "email")); cbn; [| discriminate].
  destruct (lookup_account db (dict_get data "email")) as [[user kind]|];
    cbn; [| discriminate].
  destruct (check_password user (dict_get data "password")); cbn; [| discriminate].
  destruct (account_is_active user); cbn; [| discriminate].
  intros Heq. inversion Heq; subst. exists user, kind. split; reflexivity.
Qed.

(** C6. The three role guards decide on the token's identity alone: they
    pass exactly when the table of their kind has a row with that key
    (a superuser row for the Merchant guard), whatever the token's
    [user_type]; so in a store where a clerk and an admin share a key,
    the token issued for the clerk passes the Admin guard and the token
    issued for the admin passes the Clerk guard. *)
Theorem role_guards_ignore_user_type :
  (forall A db i t t',
     merchant_required (A:=A) db {| identity := i; user_type := t |}
       = merchant_required db {| identity := i; user_type := t' |}
     /\ admin_required (A:=A) db {| identity := i; user_type := t |}
         = admin_required db {| identity := i; user_type := t' |}
     /\ clerk_required (A:=A) db {| identity := i; user_type := t |}
         = clerk_required db {| identity := i; user_type := t' |})
  /\ (forall A db tok,
        (merchant_required (A:=A) db tok = Next tt <->
           exists m, query_get Merchant_id (merchants db) (identity tok) = Some m
                     /\ Merchant_is_superuser m = true)
        /\ (admin_required (A:=A) db tok = Next tt <->
              exists a, query_get Admin_id (admins db) (identity tok) = Some a)
        /\ (clerk_required (A:=A) db tok = Next tt <->
              exists c, query_get Clerk_id (clerks db) (identity tok) = Some c))
  /\ (exists db clerk admin,
        In clerk (clerks db) /\ In admin (admins db)
        /\ Clerk_id clerk = Admin_id admin
        /\ (forall A, admin_required (A:=A) db
                        (create_access_token (Clerk_id clerk) "clerk") = Next tt)
        /\ (forall A, clerk_required (A:=A) db
                        (create_access_token (Admin_id admin) "admin") = Next tt)).
Proof.
  split; [| split].
  - intros A db i t t'. repeat split; reflexivity.
  - intros A db tok. unfold merchant_required, admin_required, clerk_required.
    repeat split.
    + destruct (query_get Merchant_id (merchants db) (identity tok)) as [m|];
        [| discriminate].
      destruct (Merchant_is_superuser m) eqn:E; [| discriminate].
      intros _. exists m. split; [reflexivity | exact E].
    + intros [m [-> ->]]. reflexivity.
    + destruct (query_get Admin_id (admins db) (identity tok)) as [a|];
        [| discriminate].
      intros _. exists a. reflexivity.
    + intros [a ->]. reflexivity.
    + destruct (query_get Clerk_id (clerks db) (identity tok)) as [c|];
        [| discriminate].
      intros _. exists c. reflexivity.
    + intros [c ->]. reflexivity.
  - exists shared_key_store.
    eexists. eexists.
    split; [left; reflexivity |].
    split; [left; reflexivity |].
    repeat split; reflexivity.
Qed.

(** The first row of a table whose e-mail is the one looked up. *)
Lemma find_first_match {A} (f : A -> bool) l x :
  In x l -> f x = true -> exists y, find f l = Some y /\ f y = true.
Proof.
  intros Hin Hf. destruct (find f l) as [y|] eqn:E.
  - exists y. split; [reflexivity |]. apply find_some in E. tauto.
  - pose proof (find_none f l E x Hin) as Hn. congruence.
Qed.

Lemma find_no_match {A} (f : A -> bool) l :
  (forall x, In x l -> f x = false) -> find f l = None.
Proof.
  intros Hall. destruct (find f l) as [y|] eqn:E; [| reflexivity].
  apply find_some in E as [Hin Hy]. rewrite (Hall y Hin) in Hy. discriminate.
Qed.

(** C9. A login with an e-mail and a password that pass the validation
    looks the e-mail up among the Merchants, then the Admins, then the
    Clerks, and takes the first account found; if the password of that
    account verifies and the account is inactive, the answer is the 403
    of an inactive account, which is not the 401 of invalid credentials
    given when no account is found or the password fails. *)
Theorem login_first_match_and_inactive db data email password :
  data !! "email" = Some email ->
  data !! "password" = Some password ->
  truthy email = true ->
  truthy password = true ->
  validators_email email = true ->
  ((forall m, In m (merchants db) -> Merchant_email m = email ->
      exists m', lookup_account db email = Some (AMerchant m', "merchant")
                 /\ Merchant_email m' = email)
   /\ ((forall m, In m (merchants db) -> Merchant_email m <> email) ->
       forall a, In a (admins db) -> Admin_email a = email ->
       exists a', lookup_account db email = Some (AAdmin a', "admin")
                  /\ Admin_email a' = email)
   /\ ((forall m, In m (merchants db) -> Merchant_email m <> email) ->
       (forall a, In a (admins db) -> Admin_email a <> email) ->
       forall c, In c (clerks db) -> Clerk_email c = email ->
       exists c', lookup_account db email = Some (AClerk c', "clerk")
                  /\ Clerk_email c' = email)
   /\ ((forall m, In m (merchants db) -> Merchant_email m <> email) ->
       (forall a, In a (admins db) -> Admin_email a <> email) ->
       (forall c, In c (clerks db) -> Clerk_email c <> email) ->
       lookup_account db email = None))
  /\ (forall user kind,
        lookup_account db email = Some (user, kind) ->
        check_password user password = true ->
        account_is_active user = false ->
        UserLogin_post db data = Msg 403 "Account is inactive. Please contact support.")
  /\ (lookup_account db email = None
      \/ (exists user kind, lookup_account db email = Some (user, kind)
                            /\ check_password user password = false) ->
      UserLogin_post db data = Msg 401 "Invalid credentials")
  /\ (forall user kind,
        lookup_account db email = Some (user, kind) ->
        check_password user password = true ->
        account_is_active user = true ->
        exists payload,
          UserLogin_post db data = Data 200 (Some "Login successful") payload
          /\ access_token payload = create_access_token (account_id user) kind).
Proof.
  intros He Hp Hte Htp Hv.
  split; [| split; [| split]].
  - unfold lookup_account. repeat split.
    + intros m Hin Hm.
      destruct (find_first_match
                  (fun m => bool_decide (Merchant_email m = email)) _ m Hin)
        as [m' [-> Hm']]; [apply bool_decide_eq_true_2; exact Hm |].
      exists m'. split; [reflexivity | apply bool_decide_eq_true_1 in Hm'; exact Hm'].
    + intros Hnm a Hin Ha.
      rewrite find_no_match
        by (intros m Hm; apply bool_decide_eq_false_2; apply Hnm; exact Hm).
      destruct (find_first_match
                  (fun a => bool_decide (Admin_email a = email)) _ a Hin)
        as [a' [-> Ha']]; [apply bool_decide_eq_true_2; exact Ha |].
      exists a'. split; [reflexivity | apply bool_decide_eq_true_1 in Ha'; exact Ha'].
    + intros Hnm Hna c Hin Hc.
      rewrite find_no_match
        by (intros m Hm; apply bool_decide_eq_false_2; apply Hnm; exact Hm).
      rewrite find_no_match
        by (intros a Ha; apply bool_decide_eq_false_2; apply Hna; exact Ha).
      destruct (find_first_match
                  (fun c => bool_decide (Clerk_email c = email)) _ c Hin)
        as [c' [-> Hc']]; [apply bool_decide_eq_true_2; exact Hc |].
      exists c'. split; [reflexivity | apply bool_decide_eq_true_1 in Hc'; exact Hc'].
    + intros Hnm Hna Hnc.
      rewrite find_no_match
        by (intros m Hm; apply bool_decide_eq_false_2; apply Hnm; exact Hm).
      rewrite find_no_match
        by (intros a Ha; apply bool_decide_eq_false_2; apply Hna; exact Ha).
      rewrite find_no_match
        by (intros c Hc; apply bool_decide_eq_false_2; apply Hnc; exact Hc).
      reflexivity.
  - intros user kind Hl Hpw Hact.
    unfold UserLogin_post, dict_get. rewrite He, Hp. cbn.
    rewrite Hte, Htp, Hv. cbn. rewrite Hl. cbn. rewrite Hpw. cbn.
    rewrite Hact. reflexivity.
  - intros Hfail.
    unfold UserLogin_post, dict_get. rewrite He, Hp. cbn.
    rewrite Hte, Htp, Hv. cbn.
    destruct Hfail as [-> | [user [kind [-> Hpw]]]]; [reflexivity |].
    cbn. rewrite Hpw. reflexivity.
  - intros user kind Hl Hpw Hact.
    unfold UserLogin_post, dict_get. rewrite He, Hp. cbn.
    rewrite Hte, Htp, Hv. cbn. rewrite Hl. cbn. rewrite Hpw. cbn.
    rewrite Hact. cbn. eexists. split; reflexivity.
Qed.

(** ** Merchant registration *)

(** No registration changes the store while a Merchant exists. *)
Lemma MerchantRegistration_post_keeps_store db o data :
  merchants db <> [] -> fst (MerchantRegistration_post db o data) = db.
Proof.
  intros Hm. unfold MerchantRegistration_post.
  destruct (truthy (dict_get data "username") && truthy (dict_get data "email")
            && truthy (dict_get data "password")); cbn; [| reflexivity].
  destruct (validate_email (dict_get data "email")); cbn; [| reflexivity].
  destruct (validate_password (dict_get data "password")) as [e | []];
    cbn; try reflexivity.
  destruct (merchants db); [contradiction | reflexivity].
Qed.

(** C8, as the code has it.  At most one Merchant account exists at a
    time: a well-formed registration into a store without a Merchant
    creates the account, a well-formed registration while a Merchant
    exists is refused with 403 and the reason that the superuser already
    exists, and no registration, well-formed or not, creates an account
    then. *)
Theorem merchant_registration_at_most_one db o data username email password :
  data !! "username" = Some username ->
  data !! "email" = Some email ->
  data !! "password" = Some password ->
  truthy username = true ->
  truthy email = true ->
  truthy password = true ->
  validate_email email = true ->
  validate_password password = inr true ->
  (merchants db = [] ->
     exists m,
       MerchantRegistration_post db Committed data
         = (stage_new_merchant m db,
            Data 201 (Some "Superuser (Merchant) registered successfully") m)
       /\ merchants (stage_new_merchant m db) = [m]
       /\ Merchant_username m = username /\ Merchant_email m = email)
  /\ (merchants db <> [] ->
      MerchantRegistration_post db o data
        = (db, Msg 403 "Superuser (Merchant) already exists. Registration not allowed."))
  /\ (forall o' data', merchants db <> [] ->
        fst (MerchantRegistration_post db o' data') = db)
  /\ (forall o' data', (length (merchants db) <= 1)%nat ->
        (length (merchants (fst (MerchantRegistration_post db o' data'))) <= 1)%nat).
Proof.
  intros Hu He Hp Htu Hte Htp Hve Hvp.
  repeat split.
  - intros Hm. unfold MerchantRegistration_post, dict_get.
    rewrite Hu, He, Hp. cbn. rewrite Htu, Hte, Htp, Hve. cbn.
    rewrite Hvp, Hm. cbn. eexists. repeat split.
  - intros Hm. unfold MerchantRegistration_post, dict_get.
    rewrite Hu, He, Hp. cbn. rewrite Htu, Hte, Htp, Hve. cbn.
    rewrite Hvp. destruct (merchants db); [contradiction | reflexivity].
  - intros o' data' Hm. apply MerchantRegistration_post_keeps_store. exact Hm.
  - intros o' data' Hlen.
    destruct (merchants db) as [|m l] eqn:Hm.
    + unfold MerchantRegistration_post.
      destruct (truthy (dict_get data' "username") && truthy (dict_get data' "email")
                && truthy (dict_get data' "password")); cbn;
        [| rewrite Hm; cbn; lia].
      destruct (validate_email (dict_get data' "email")); cbn;
        [| rewrite Hm; cbn; lia].
      destruct (validate_password (dict_get data' "password")) as [e | []];
        cbn; try (rewrite Hm; cbn; lia).
      rewrite Hm. destruct o'; cbn; rewrite ?Hm; cbn; lia.
    + rewrite MerchantRegistration_post_keeps_store by (rewrite Hm; discriminate).
      rewrite Hm. exact Hlen.
Qed.

(** C10, at the input where it fails.  The by-id reads and the inventory
    update let an Admin without a store through for a record of any store
    ([unassigned_admin_reads_any_store],
    [unassigned_admin_sets_payment_status_any_store]), and so does the
    store test of the supply-request update; but the update then reads
    the name [status], which the function never assigns: the call raises
    [NameError] and the request is not transitioned. *)
Theorem unassigned_admin_transition_raises db now o tok request_id data admin req :
  query_get Admin_id (admins db) (identity tok) = Some admin ->
  query_get SupplyRequest_id (supply_requests db) request_id = Some req ->
  Admin_store_id admin = None ->
  SupplyRequestResource_put db now o tok request_id data = (db, Raised NameError).
Proof.
  intros Ha Hr Hs.
  apply (SupplyRequestResource_put_raises db now o tok request_id data admin req Ha Hr).
  rewrite Hs. reflexivity.
Qed.

(** * Further properties of the handlers *)

(** ** Sales (transactions.py) *)

(** What a sale can do to the store, on every input: nothing, or the
    debit of a stored inventory record by a positive quantity that its
    stock covers, together with one new transaction. *)
Lemma TransactionListResource_post_shape db now o tok data :
  fst (TransactionListResource_post db now o tok data) = db
  \/ exists latest q t,
       In latest (inventory_records db)
       /\ 0 < q <= items_in_stock latest
       /\ fst (TransactionListResource_post db now o tok data)
          = stage_inventory (set_items_in_stock latest (items_in_stock latest - q))
              (stage_new_transaction t db).
Proof.
  unfold TransactionListResource_post, clerk_required, try_int.
  destruct (query_get Clerk_id (clerks db) (identity tok)) as [clerk|];
    cbn; [| left; reflexivity].
  destruct (truthy (dict_get data "product_id") && truthy (dict_get data "store_id")
            && is_not_None (dict_get data "quantity_sold")); cbn;
    [| left; reflexivity].
  destruct (py_int (dict_get data "product_id")) as [[] | p]; cbn;
    try (left; reflexivity).
  destruct (py_int (dict_get data "store_id")) as [[] | s]; cbn;
    try (left; reflexivity).
  destruct (py_int (dict_get data "quantity_sold")) as [[] | q]; cbn;
    try (left; reflexivity).
  destruct (q <=? 0) eqn:Hq; cbn; [left; reflexivity |].
  destruct (query_get Product_id (products db) p) as [product|]; cbn;
    [| left; reflexivity].
  destruct (query_get Store_id (stores db) s) as [store|]; cbn;
    [| left; reflexivity].
  destruct (truthy_id (Clerk_store_id clerk) && id_differs (Clerk_store_id clerk) s);
    cbn; [left; reflexivity |].
  destruct (latest_inventory_record db p s) as [latest|] eqn:Hl; cbn;
    [| left; reflexivity].
  destruct (items_in_stock latest <? q) eqn:Hlt; cbn; [left; reflexivity |].
  destruct o; cbn; try (left; reflexivity).
  right. eexists latest, q, _. split; [| split; [| reflexivity]].
  - apply latest_inventory_record_spec in Hl. tauto.
  - lia.
Qed.

(** X1. No sale drives a stock below zero: if every inventory record has
    a stock that is not negative, so has every record after the call,
    whatever the request and whatever the commit does. *)
Theorem sell_keeps_stock_nonnegative db now o tok data :
  Forall (fun r => 0 <= items_in_stock r) (inventory_records db) ->
  Forall (fun r => 0 <= items_in_stock r)
         (inventory_records (fst (TransactionListResource_post db now o tok data))).
Proof.
  intros Hall.
  destruct (TransactionListResource_post_shape db now o tok data)
    as [-> | (latest & q & t & Hin & Hq & ->)]; [exact Hall |].
  cbn. unfold update_row. rewrite List.Forall_forall in *.
  intros x Hx. apply in_map_iff in Hx as (y & <- & Hy).
  destruct (Inventory_id y =? _); [cbn; lia | apply Hall; exact Hy].
Qed.

(** X2. A sale writes to the inventory records and the transactions only:
    the accounts, stores, products and supply requests are as before, the
    transactions are as before or have one more row at the end, and the
    inventory table has the same keys in the same order. *)
Theorem sell_touches_only_the_ledgers db now o tok data :
  let db' := fst (TransactionListResource_post db now o tok data) in
  merchants db' = merchants db /\ admins db' = admins db /\ clerks db' = clerks db
  /\ stores db' = stores db /\ products db' = products db
  /\ supply_requests db' = supply_requests db
  /\ (transactions db' = transactions db
      \/ exists t, transactions db' = transactions db ++ [t])
  /\ map Inventory_id (inventory_records db') = map Inventory_id (inventory_records db).
Proof.
  cbv zeta.
  destruct (TransactionListResource_post_shape db now o tok data)
    as [-> | (latest & q & t & Hin & Hq & ->)].
  - repeat split; auto.
  - cbn. repeat split; try reflexivity.
    + right. exists t. reflexivity.
    + unfold update_row. rewrite map_map. apply map_ext_in. intros x _.
      destruct (Inventory_id x =? Inventory_id latest) eqn:E; [cbn; lia | reflexivity].
Qed.

(** X3. Input validation of a sale, for an authenticated clerk: a missing
    or null field, or an id that is 0, is answered 400 "Missing required
    fields"; a quantity that is not positive, 400 "Quantity sold must be
    positive"; a quantity given as a string that [int] cannot read, 400
    "must be valid numbers".  The store is left as it was. *)
Theorem sell_input_validation db now o tok data clerk :
  query_get Clerk_id (clerks db) (identity tok) = Some clerk ->
  (truthy (dict_get data "product_id") = false
   \/ truthy (dict_get data "store_id") = false
   \/ data !! "quantity_sold" = None
   \/ data !! "quantity_sold" = Some JNull ->
   TransactionListResource_post db now o tok data
     = (db, Msg 400 "Missing required fields: product_id, store_id, quantity_sold"))
  /\ (forall p s q,
        data !! "product_id" = Some (JInt p) -> p <> 0 ->
        data !! "store_id" = Some (JInt s) -> s <> 0 ->
        data !! "quantity_sold" = Some (JInt q) -> q <= 0 ->
        TransactionListResource_post db now o tok data
          = (db, Msg 400 "Quantity sold must be positive"))
  /\ (forall p s text,
        data !! "product_id" = Some (JInt p) -> p <> 0 ->
        data !! "store_id" = Some (JInt s) -> s <> 0 ->
        data !! "quantity_sold" = Some (JStr text) -> int_of_str text = None ->
        TransactionListResource_post db now o tok data
          = (db, Msg 400 "product_id, store_id, quantity_sold must be valid numbers")).
Proof.
  intros Hc. unfold TransactionListResource_post, clerk_required, try_int, dict_get.
  rewrite Hc. cbn. repeat split.
  - intros [Hp | [Hs | [Hq | Hq]]].
    + unfold dict_get in Hp. rewrite Hp. reflexivity.
    + unfold dict_get in Hs. rewrite Hs, andb_false_r. reflexivity.
    + rewrite Hq. cbn. rewrite andb_false_r. reflexivity.
    + rewrite Hq. cbn. rewrite andb_false_r. reflexivity.
  - intros p s q Hp Hp0 Hs Hs0 Hq Hq0. rewrite Hp, Hs, Hq. cbn.
    assert ((p =? 0) = false) as -> by lia.
    assert ((s =? 0) = false) as -> by lia.
    assert ((q <=? 0) = true) as -> by lia.
    reflexivity.
  - intros p s text Hp Hp0 Hs Hs0 Hq Hparse. rewrite Hp, Hs, Hq. cbn.
    assert ((p =? 0) = false) as -> by lia.
    assert ((s =? 0) = false) as -> by lia.
    cbn. rewrite Hparse. reflexivity.
Qed.

(** X4. Who and what a sale is refused for: a caller without a Clerk row
    gets 403; an unknown product or store, 404 with the id in the
    message; a clerk assigned to another store, 403.  The store is left
    as it was. *)
Theorem sell_refusals db now o tok data p s q :
  data !! "product_id" = Some (JInt p) -> p <> 0 ->
  data !! "store_id" = Some (JInt s) -> s <> 0 ->
  data !! "quantity_sold" = Some (JInt q) -> 0 < q ->
  (query_get Clerk_id (clerks db) (identity tok) = None ->
   TransactionListResource_post db now o tok data
     = (db, Msg 403 "Clerk access required"))
  /\ (forall clerk,
        query_get Clerk_id (clerks db) (identity tok) = Some clerk ->
        (query_get Product_id (products db) p = None ->
         TransactionListResource_post db now o tok data
           = (db, Msg 404 ("Product with ID " +:+ pretty p +:+ " not found")))
        /\ (query_get Product_id (products db) p <> None ->
            query_get Store_id (stores db) s = None ->
            TransactionListResource_post db now o tok data
              = (db, Msg 404 ("Store with ID " +:+ pretty s +:+ " not found")))
        /\ (forall z,
              query_get Product_id (products db) p <> None ->
              query_get Store_id (stores db) s <> None ->
              Clerk_store_id clerk = Some z -> z <> 0 -> z <> s ->
              TransactionListResource_post db now o tok data
                = (db, Msg 403 "Clerk is not assigned to this store"))).
Proof.
  intros Hp Hp0 Hs Hs0 Hq Hq0.
  unfold TransactionListResource_post, clerk_required, try_int, dict_get.
  split.
  - intros ->. reflexivity.
  - intros clerk ->. rewrite Hp, Hs, Hq. cbn.
    assert ((p =? 0) = false) as -> by lia.
    assert ((s =? 0) = false) as -> by lia.
    assert ((q <=? 0) = false) as -> by lia.
    cbn. repeat split.
    + intros ->. reflexivity.
    + intros Hprod ->.
      destruct (query_get Product_id (products db) p); [reflexivity | contradiction].
    + intros z Hprod Hstore Hz Hz0 Hzs.
      destruct (query_get Product_id (products db) p); [| contradiction].
      destruct (query_get Store_id (stores db) s); [| contradiction].
      cbn. rewrite Hz. cbn.
      assert ((z =? 0) = false) as -> by lia.
      assert ((z =? s) = false) as -> by lia.
      reflexivity.
Qed.

(** The ledger query commutes with a rewriting of the rows that keeps
    their product, store and date. *)
Lemma first_by_date_desc_map (g : Inventory -> Inventory) l :
  (forall x, In x l -> date_recorded (g x) = date_recorded x) ->
  first_by_date_desc (map g l) = option_map g (first_by_date_desc l).
Proof.
  induction l as [|x l IH]; intros Hg; [reflexivity |].
  simpl. rewrite IH by (intros y Hy; apply Hg; right; exact Hy).
  destruct (first_by_date_desc l) as [b|] eqn:Hb; simpl; [| reflexivity].
  rewrite (Hg x) by (left; reflexivity).
  rewrite (Hg b) by (right; apply first_by_date_desc_In; exact Hb).
  destruct (date_recorded x <? date_recorded b); reflexivity.
Qed.

Lemma inventory_filter_map (g : Inventory -> Inventory) p s l :
  (forall x, In x l -> Inventory_product_id (g x) = Inventory_product_id x
                       /\ Inventory_store_id (g x) = Inventory_store_id x) ->
  filter (fun r => Inventory_product_id r = p /\ Inventory_store_id r = s) (map g l)
  = map g (filter (fun r => Inventory_product_id r = p /\ Inventory_store_id r = s) l).
Proof.
  induction l as [|x l IH]; intros Hg; [reflexivity |].
  simpl map. rewrite !filter_cons.
  destruct (Hg x (or_introl eq_refl)) as [Hp Hs].
  rewrite IH by (intros y Hy; apply Hg; right; exact Hy).
  destruct (decide (Inventory_product_id x = p /\ Inventory_store_id x = s)) as [Hx | Hx];
    destruct (decide (Inventory_product_id (g x) = p /\ Inventory_store_id (g x) = s))
      as [Hgx | Hgx]; try reflexivity; exfalso.
  - apply Hgx. rewrite Hp, Hs. exact Hx.
  - apply Hx. rewrite <- Hp, <- Hs. exact Hgx.
Qed.

(** Two rows of a table with unique keys that have the same key are one. *)
Lemma unique_key_row {A} (key : A -> Z) (l : list A) x y :
  NoDup (map key l) -> In x l -> In y l -> key x = key y -> x = y.
Proof.
  induction l as [|z l IH]; intros Hnd Hx Hy E; [destruct Hx |].
  cbn in Hnd. apply NoDup_cons in Hnd as [Hnz Hnd].
  destruct Hx as [-> | Hx], Hy as [-> | Hy]; try reflexivity.
  - exfalso. apply Hnz. rewrite E. apply list_elem_of_In, in_map. exact Hy.
  - exfalso. apply Hnz. rewrite <- E. apply list_elem_of_In, in_map. exact Hx.
  - apply IH; assumption.
Qed.

(** With keys that are unique, a debit of the latest record of a pair
    leaves it the latest record of the pair. *)
Lemma latest_after_debit db db0 p s latest n :
  NoDup (map Inventory_id (inventory_records db)) ->
  inventory_records db0 = inventory_records db ->
  latest_inventory_record db p s = Some latest ->
  latest_inventory_record (stage_inventory (set_items_in_stock latest n) db0) p s
    = Some (set_items_in_stock latest n).
Proof.
  intros Hnd Hsame Hl.
  pose proof (latest_inventory_record_spec _ _ _ _ Hl) as (Hin & _).
  unfold latest_inventory_record, inventory_for in *. cbn.
  rewrite Hsame. unfold update_row.
  assert (forall x, In x (inventory_records db) ->
            (if Inventory_id x =? Inventory_id (set_items_in_stock latest n)
             then set_items_in_stock latest n else x)
            = (if Inventory_id x =? Inventory_id latest
               then set_items_in_stock x n else x)) as Hg.
  { intros x Hx. cbn. destruct (Inventory_id x =? Inventory_id latest) eqn:E;
      [| reflexivity].
    apply Z.eqb_eq in E.
    rewrite (unique_key_row Inventory_id _ x latest Hnd Hx Hin E). reflexivity. }
  rewrite (map_ext_in _ _ _ Hg).
  rewrite inventory_filter_map
    by (intros x _; destruct (Inventory_id x =? Inventory_id latest); split; reflexivity).
  rewrite first_by_date_desc_map
    by (intros x _; destruct (Inventory_id x =? Inventory_id latest); reflexivity).
  rewrite Hl. cbn. rewrite Z.eqb_refl. reflexivity.
Qed.

(** X5. Sales add up.  With unique keys, after a committed sale of [q1]
    from a latest record of stock [n], a further sale of the pair is
    checked against [n - q1]: a quantity above it is refused for
    insufficient stock, a positive quantity within it commits and leaves
    the record at [n - q1 - q2]. *)
Theorem consecutive_sales_add_up
    db now now' o tok data data' clerk product store latest p s q1 q2 :
  keys_from_one db ->
  NoDup (map Inventory_id (inventory_records db)) ->
  query_get Clerk_id (clerks db) (identity tok) = Some clerk ->
  data !! "product_id" = Some (JInt p) ->
  data !! "store_id" = Some (JInt s) ->
  data !! "quantity_sold" = Some (JInt q1) ->
  data' !! "product_id" = Some (JInt p) ->
  data' !! "store_id" = Some (JInt s) ->
  data' !! "quantity_sold" = Some (JInt q2) ->
  query_get Product_id (products db) p = Some product ->
  query_get Store_id (stores db) s = Some store ->
  Clerk_store_id clerk = None \/ Clerk_store_id clerk = Some s ->
  0 < q1 <= items_in_stock latest ->
  0 < q2 ->
  latest_inventory_record db p s = Some latest ->
  let db1 := fst (TransactionListResource_post db now Committed tok data) in
  (items_in_stock latest - q1 < q2 ->
   TransactionListResource_post db1 now' o tok data'
     = (db1, Msg 400 "Insufficient stock for this product in this store"))
  /\ (q2 <= items_in_stock latest - q1 ->
      exists latest'',
        latest_inventory_record
          (fst (TransactionListResource_post db1 now' Committed tok data')) p s
          = Some latest''
        /\ items_in_stock latest'' = items_in_stock latest - q1 - q2).
Proof.
  intros Hk Hnd Hc Hp Hs Hq Hp' Hs' Hq' Hprod Hstore Hscope Hq1 Hq2 Hl db1.
  assert (Hpost := TransactionListResource_post_commits
                     db now Committed tok data clerk product store latest p s q1
                     Hk Hc Hp Hs Hq Hprod Hstore Hscope
                     (proj1 Hq1) Hl (proj2 Hq1)).
  cbv zeta in Hpost. subst db1. rewrite Hpost. cbn [session_commit fst].
  match goal with
  | |- context [stage_inventory ?r (stage_new_transaction ?t db)] =>
      set (db1 := stage_inventory r (stage_new_transaction t db))
  end.
  assert (Hl1 : latest_inventory_record db1 p s
                = Some (set_items_in_stock latest (items_in_stock latest - q1))).
  { apply (latest_after_debit db); [exact Hnd | reflexivity | exact Hl]. }
  assert (Hk1 : keys_from_one db1) by exact Hk.
  assert (Hc1 : query_get Clerk_id (clerks db1) (identity tok) = Some clerk)
    by exact Hc.
  assert (Hprod1 : query_get Product_id (products db1) p = Some product)
    by exact Hprod.
  assert (Hstore1 : query_get Store_id (stores db1) s = Some store)
    by exact Hstore.
  assert (Hnd1 : NoDup (map Inventory_id (inventory_records db1))).
  { subst db1. cbn. unfold update_row. rewrite map_map.
    erewrite map_ext_in; [exact Hnd |].
    intros x _. cbn.
    destruct (Inventory_id x =? Inventory_id latest) eqn:E;
      [cbn; lia | reflexivity]. }
  clearbody db1.
  pose proof (stored_product_key _ _ _ Hk Hprod) as Hp0.
  pose proof (stored_store_key _ _ _ Hk Hstore) as Hs0.
  split.
  - intros Hlt.
    unfold TransactionListResource_post, clerk_required, dict_get.
    rewrite Hc1, Hp', Hs', Hq'. cbn.
    assert ((p =? 0) = false) as -> by lia.
    assert ((s =? 0) = false) as -> by lia.
    assert ((q2 <=? 0) = false) as -> by lia.
    rewrite Hprod1, Hstore1. cbn.
    rewrite (clerk_scope_passes _ _ Hscope), Hl1. cbn.
    assert ((items_in_stock latest - q1 <? q2) = true) as -> by lia.
    reflexivity.
  - intros Hle.
    rewrite (TransactionListResource_post_commits
               db1 now' Committed tok data' clerk product store
               (set_items_in_stock latest (items_in_stock latest - q1)) p s q2
               Hk1 Hc1 Hp' Hs' Hq' Hprod1 Hstore1 Hscope Hq2 Hl1 Hle).
    cbn [session_commit fst].
    eexists. split.
    + apply (latest_after_debit db1); [exact Hnd1 | reflexivity | exact Hl1].
    + reflexivity.
Qed.

(** The ledger query on a table with one more row at its end, recorded
    after every row of the pair. *)
Lemma first_by_date_desc_snoc l r :
  (forall x, In x l -> date_recorded x < date_recorded r) ->
  first_by_date_desc (l ++ [r]) = Some r.
Proof.
  induction l as [|x l IH]; intros Hlt; [reflexivity |].
  simpl. rewrite IH by (intros y Hy; apply Hlt; right; exact Hy).
  assert (date_recorded x < date_recorded r) by (apply Hlt; left; reflexivity).
  assert ((date_recorded x <? date_recorded r) = true) as -> by lia.
  reflexivity.
Qed.

(** X6. A receipt resets the stock of its pair.  After a committed
    receipt recorded later than every record of the pair, the latest
    record of the pair is the new one: a sale is checked against the
    quantity received minus the items spoilt of that receipt, not
    against a sum with what was in stock before. *)
Theorem receipt_becomes_the_stock_reference
    db now tok data clerk product store p s received spoilt :
  keys_from_one db ->
  query_get Clerk_id (clerks db) (identity tok) = Some clerk ->
  data !! "product_id" = Some (JInt p) ->
  data !! "store_id" = Some (JInt s) ->
  data !! "quantity_received" = Some (JInt received) ->
  data !! "items_spoilt" = Some (JInt spoilt) ->
  query_get Product_id (products db) p = Some product ->
  query_get Store_id (stores db) s = Some store ->
  Clerk_store_id clerk = None \/ Clerk_store_id clerk = Some s ->
  0 <= received ->
  0 <= spoilt ->
  (forall x, In x (inventory_records db) ->
     Inventory_product_id x = p -> Inventory_store_id x = s ->
     date_recorded x < now) ->
  exists r,
    latest_inventory_record
      (fst (InventoryListResource_post db now Committed tok data)) p s = Some r
    /\ items_in_stock r = received - spoilt
    /\ date_recorded r = now.
Proof.
  intros Hk Hc Hp Hs Hr Hsp Hprod Hstore Hscope Hr0 Hsp0 Hlater.
  pose proof (stored_product_key _ _ _ Hk Hprod) as Hp0.
  pose proof (stored_store_key _ _ _ Hk Hstore) as Hs0.
  unfold InventoryListResource_post, clerk_required, dict_get, dict_get_default.
  rewrite Hc, Hp, Hs, Hr, Hsp. cbn.
  assert ((p =? 0) = false) as -> by lia.
  assert ((s =? 0) = false) as -> by lia.
  assert ((received <? 0) = false) as -> by lia.
  assert ((spoilt <? 0) = false) as -> by lia.
  rewrite Hprod, Hstore. cbn.
  rewrite (clerk_scope_passes _ _ Hscope). cbn.
  eexists. split.
  - unfold latest_inventory_record, inventory_for. cbn.
    rewrite filter_app, filter_cons, filter_nil.
    rewrite decide_True by (cbn; split; reflexivity).
    apply first_by_date_desc_snoc.
    intros x Hx. apply list_elem_of_In, list_elem_of_filter in Hx as [[Hxp Hxs] Hx].
    cbn. apply Hlater; [apply list_elem_of_In; exact Hx | exact Hxp | exact Hxs].
  - split; reflexivity.
Qed.

(** ** Receipts and updates of inventory records (inventory.py) *)

(** X7. What a receipt takes from the body beyond the quantities: without
    [items_spoilt] the record has 0 items spoilt and the whole quantity
    received in stock; its payment status is the value of the body, or
    false when the body has none. *)
Theorem record_receipt_defaults
    db now tok data clerk product store p s received :
  keys_from_one db ->
  query_get Clerk_id (clerks db) (identity tok) = Some clerk ->
  data !! "product_id" = Some (JInt p) ->
  data !! "store_id" = Some (JInt s) ->
  data !! "quantity_received" = Some (JInt received) ->
  data !! "items_spoilt" = None ->
  query_get Product_id (products db) p = Some product ->
  query_get Store_id (stores db) s = Some store ->
  Clerk_store_id clerk = None \/ Clerk_store_id clerk = Some s ->
  0 <= received ->
  exists r db',
    InventoryListResource_post db now Committed tok data
      = (db', Data 201 (Some "Inventory record created successfully") r)
    /\ items_spoilt r = 0
    /\ items_in_stock r = received
    /\ payment_status r = match data !! "payment_status" with
                          | Some v => v
                          | None => JBool false
                          end.
Proof.
  intros Hk Hc Hp Hs Hr Hsp Hprod Hstore Hscope Hr0.
  pose proof (stored_product_key _ _ _ Hk Hprod) as Hp0.
  pose proof (stored_store_key _ _ _ Hk Hstore) as Hs0.
  unfold InventoryListResource_post, clerk_required, dict_get, dict_get_default.
  rewrite Hc, Hp, Hs, Hr, Hsp. cbn.
  assert ((p =? 0) = false) as -> by lia.
  assert ((s =? 0) = false) as -> by lia.
  assert ((received <? 0) = false) as -> by lia.
  rewrite Hprod, Hstore. cbn.
  rewrite (clerk_scope_passes _ _ Hscope). cbn.
  eexists. eexists. split; [reflexivity |].
  cbn. split; [reflexivity |]. split; [lia |].
  destruct (data !! "payment_status"); reflexivity.
Qed.

(** X8. A receipt with a negative quantity received or a negative number
    of items spoilt is refused with 400 "Quantities cannot be negative",
    before the product and the store are looked up, and nothing is
    stored. *)
Theorem record_receipt_rejects_negative_quantities
    db now o tok data clerk p s received spoilt :
  query_get Clerk_id (clerks db) (identity tok) = Some clerk ->
  data !! "product_id" = Some (JInt p) -> p <> 0 ->
  data !! "store_id" = Some (JInt s) -> s <> 0 ->
  data !! "quantity_received" = Some (JInt received) ->
  data !! "items_spoilt" = Some (JInt spoilt) ->
  received < 0 \/ spoilt < 0 ->
  InventoryListResource_post db now o tok data
    = (db, Msg 400 "Quantities cannot be negative").
Proof.
  intros Hc Hp Hp0 Hs Hs0 Hr Hsp Hneg.
  unfold InventoryListResource_post, clerk_required, dict_get, dict_get_default.
  rewrite Hc, Hp, Hs, Hr, Hsp. cbn.
  assert ((p =? 0) = false) as -> by lia.
  assert ((s =? 0) = false) as -> by lia.
  cbn.
  assert ((received <? 0) || (spoilt <? 0) = true) as ->.
  { destruct Hneg; [assert ((received <? 0) = true) as -> by lia; reflexivity |].
    assert ((spoilt <? 0) = true) as -> by lia. apply orb_true_r. }
  reflexivity.
Qed.

(** A property of the record that the setter keeps holds of the record
    the assignment leaves. *)
Lemma assign_int_field_keeps {A} (Q : Inventory -> Prop) db data k set
    negative invalid record r' :
  (forall r n, Q r -> Q (set r n)) ->
  Q record ->
  assign_int_field (A:=A) db data k set negative invalid record = Next r' ->
  Q r'.
Proof.
  intros Hset HQ. unfold assign_int_field, try_int.
  destruct (data !! k) as [v|]; [| intros [= <-]; exact HQ].
  destruct (py_int v) as [[] | n]; cbn; try discriminate.
  destruct (n <? 0); cbn; [discriminate |].
  intros [= <-]. apply Hset. exact HQ.
Qed.

Lemma assign_float_field_keeps {A} (Q : Inventory -> Prop) db data k set
    negative invalid record r' :
  (forall r f, Q r -> Q (set r f)) ->
  Q record ->
  assign_float_field (A:=A) db data k set negative invalid record = Next r' ->
  Q r'.
Proof.
  intros Hset HQ. unfold assign_float_field, try_float.
  destruct (data !! k) as [v|]; [| intros [= <-]; exact HQ].
  destruct (float_of v) as [[] | f]; cbn; try discriminate.
  destruct (float_is_negative f); cbn; [discriminate |].
  intros [= <-]. apply Hset. exact HQ.
Qed.

Lemma assign_int_field_returns {A} db data k set negative invalid record r :
  assign_int_field (A:=A) db data k set negative invalid record = Return r ->
  fst r = db.
Proof.
  unfold assign_int_field, try_int.
  destruct (data !! k) as [v|]; [| discriminate].
  destruct (py_int v) as [[] | n]; cbn; try (intros [= <-]; reflexivity).
  destruct (n <? 0); cbn; [intros [= <-]; reflexivity | discriminate].
Qed.

Lemma assign_float_field_returns {A} db data k set negative invalid record r :
  assign_float_field (A:=A) db data k set negative invalid record = Return r ->
  fst r = db.
Proof.
  unfold assign_float_field, try_float.
  destruct (data !! k) as [v|]; [| discriminate].
  destruct (float_of v) as [[] | f]; cbn; try (intros [= <-]; reflexivity).
  destruct (float_is_negative f); cbn; [intros [= <-]; reflexivity | discriminate].
Qed.

Ltac assign_int_step Q HQ :=
  match goal with
  | |- context [@assign_int_field ?P ?A ?db ?data ?k ?set ?neg ?inv ?r] =>
      let E := fresh "E" in
      let r' := fresh "r" in
      let ret := fresh "ret" in
      destruct (@assign_int_field P A db data k set neg inv r) as [r' | ret] eqn:E;
      cbn;
      [ apply (assign_int_field_keeps Q db data k set neg inv r r'
                 (fun x n h => h) HQ) in E
      | left; exact (assign_int_field_returns db data k set neg inv r ret E) ]
  end.

Ltac assign_float_step Q HQ :=
  match goal with
  | |- context [@assign_float_field ?P ?A ?db ?data ?k ?set ?neg ?inv ?r] =>
      let E := fresh "E" in
      let r' := fresh "r" in
      let ret := fresh "ret" in
      destruct (@assign_float_field P A db data k set neg inv r) as [r' | ret] eqn:E;
      cbn;
      [ apply (assign_float_field_keeps Q db data k set neg inv r r'
                 (fun x n h => h) HQ) in E
      | left; exact (assign_float_field_returns db data k set neg inv r ret E) ]
  end.

(** X9. No update of an inventory record, by any caller and with any
    body, moves the record: the call leaves the store as it was, or
    replaces the record by one with the same key, product, store, clerk
    and date of record. *)
Theorem inventory_update_keeps_identity db o tok record_id data :
  fst (InventoryResource_put db o tok record_id data) = db
  \/ exists record record',
       query_get Inventory_id (inventory_records db) record_id = Some record
       /\ same_identity record record'
       /\ fst (InventoryResource_put db o tok record_id data)
          = stage_inventory record' db.
Proof.
  unfold InventoryResource_put.
  destruct (query_get Inventory_id (inventory_records db) record_id)
    as [record|] eqn:Hrec; cbn; [| left; reflexivity].
  assert (HQ : same_identity record record) by (repeat split).
  destruct (claim_is (user_type tok) "merchant") eqn:Hm; cbn.
  - assign_int_step (same_identity record) HQ.
    assign_int_step (same_identity record) E.
    assign_int_step (same_identity record) E0.
    assert (HQ3 : same_identity record
                    match data !! "payment_status" with
                    | Some v => set_payment_status r1 v
                    | None => r1
                    end)
      by (destruct (data !! "payment_status"); exact E1).
    assign_float_step (same_identity record) HQ3.
    assign_float_step (same_identity record) E2.
    destruct o; cbn; try (left; reflexivity).
    right. exists record, r3. repeat split; try apply E3.
  - destruct (claim_is (user_type tok) "admin") eqn:Ha; cbn.
    + destruct (query_get Admin_id (admins db) (identity tok)) as [admin|];
        cbn; [| left; reflexivity].
      destruct (truthy_id (Admin_store_id admin)
                && id_differs (Admin_store_id admin) (Inventory_store_id record));
        cbn; [left; reflexivity |].
      destruct (dict_has data "quantity_received" || dict_has data "items_in_stock"
                || dict_has data "items_spoilt" || dict_has data "buying_price_at_record"
                || dict_has data "selling_price_at_record"); cbn;
        [left; reflexivity |].
      destruct (data !! "payment_status") as [v|]; cbn; [| left; reflexivity].
      destruct o; cbn; try (left; reflexivity).
      right. exists record, (set_payment_status record v). repeat split.
    + destruct (claim_is (user_type tok) "clerk") eqn:Hc; cbn; [| left; reflexivity].
      destruct (query_get Clerk_id (clerks db) (identity tok)) as [clerk|];
        cbn; [| left; reflexivity].
      destruct (bool_decide (Some (Clerk_id clerk) = Inventory_clerk_id record));
        cbn; [| left; reflexivity].
      destruct (dict_has data "payment_status" || dict_has data "quantity_received"
                || dict_has data "buying_price_at_record"
                || dict_has data "selling_price_at_record"); cbn;
        [left; reflexivity |].
      assign_int_step (same_identity record) HQ.
      assign_int_step (same_identity record) E.
      destruct (dict_has data "items_in_stock" || dict_has data "items_spoilt"); cbn;
        [| left; reflexivity].
      destruct o; cbn; try (left; reflexivity).
      right. exists record, r0. repeat split; try apply E0.
Qed.

(** X10. An Admin updates the payment status of an inventory record and
    nothing else: the record the call leaves differs from the stored one
    at most in the payment status; a body that names a quantity or a
    price is refused with 403, and a body without [payment_status] with
    400, the store being left as it was. *)
Theorem admin_update_limited_to_payment_status
    db o tok record_id data admin record :
  user_type tok = Some "admin" ->
  query_get Admin_id (admins db) (identity tok) = Some admin ->
  query_get Inventory_id (inventory_records db) record_id = Some record ->
  truthy_id (Admin_store_id admin)
    && id_differs (Admin_store_id admin) (Inventory_store_id record) = false ->
  (exists record',
     same_but_payment_status record record'
     /\ (fst (InventoryResource_put db o tok record_id data) = db
         \/ fst (InventoryResource_put db o tok record_id data)
              = stage_inventory record' db))
  /\ (is_Some (data !! "quantity_received") \/ is_Some (data !! "items_in_stock")
      \/ is_Some (data !! "items_spoilt")
      \/ is_Some (data !! "buying_price_at_record")
      \/ is_Some (data !! "selling_price_at_record") ->
      InventoryResource_put db o tok record_id data
        = (db, Msg 403 "Admins can only update payment status of inventory records"))
  /\ (data !! "quantity_received" = None -> data !! "items_in_stock" = None ->
      data !! "items_spoilt" = None -> data !! "buying_price_at_record" = None ->
      data !! "selling_price_at_record" = None -> data !! "payment_status" = None ->
      InventoryResource_put db o tok record_id data
        = (db, Msg 400 "No valid fields for Admin to update provided")).
Proof.
  intros Hut Ha Hrec Hscope.
  unfold InventoryResource_put. rewrite Hut, Hrec, Ha.
  change (claim_is (Some "admin") "merchant") with false.
  change (claim_is (Some "admin") "admin") with true.
  cbn. rewrite Hscope. cbn. split; [| split].
  - destruct (dict_has data "quantity_received" || dict_has data "items_in_stock"
              || dict_has data "items_spoilt" || dict_has data "buying_price_at_record"
              || dict_has data "selling_price_at_record"); cbn.
    { exists record. split; [repeat split | left; reflexivity]. }
    destruct (data !! "payment_status") as [v|]; cbn.
    + exists (set_payment_status record v). split; [repeat split |].
      destruct o; cbn; auto.
    + exists record. split; [repeat split | left; reflexivity].
  - intros Hkeys.
    assert (dict_has data "quantity_received" || dict_has data "items_in_stock"
            || dict_has data "items_spoilt" || dict_has data "buying_price_at_record"
            || dict_has data "selling_price_at_record" = true) as ->.
    { unfold dict_has.
      destruct Hkeys as [Hk | [Hk | [Hk | [Hk | Hk]]]];
        rewrite (bool_decide_eq_true_2 _ Hk); cbn;
        rewrite ?orb_true_r; reflexivity. }
    reflexivity.
  - intros H1 H2 H3 H4 H5 H6. unfold dict_has.
    rewrite H1, H2, H3, H4, H5, H6. reflexivity.
Qed.

(** X11. What a clerk's update stores.  With a body that has integers
    that are not negative for [items_in_stock] and [items_spoilt], and a
    commit that succeeds, the record gets exactly these two values, its
    quantity received staying as it was (the stock is not recomputed); a
    negative stock is refused with 400 and nothing is stored. *)
Theorem clerk_update_stores_stock_and_spoilt
    db o tok record_id data clerk record :
  user_type tok = Some "clerk" ->
  query_get Clerk_id (clerks db) (identity tok) = Some clerk ->
  query_get Inventory_id (inventory_records db) record_id = Some record ->
  Inventory_clerk_id record = Some (Clerk_id clerk) ->
  data !! "payment_status" = None -> data !! "quantity_received" = None ->
  data !! "buying_price_at_record" = None ->
  data !! "selling_price_at_record" = None ->
  (forall n m,
     data !! "items_in_stock" = Some (JInt n) -> 0 <= n ->
     data !! "items_spoilt" = Some (JInt m) -> 0 <= m ->
     exists record',
       InventoryResource_put db Committed tok record_id data
         = (stage_inventory record' db,
            Data 200 (Some "Inventory record updated successfully") record')
       /\ items_in_stock record' = n /\ items_spoilt record' = m
       /\ quantity_received record' = quantity_received record)
  /\ (forall n,
        data !! "items_in_stock" = Some (JInt n) -> n < 0 ->
        InventoryResource_put db o tok record_id data
          = (db, Msg 400 "Items in stock cannot be negative")).
Proof.
  intros Hut Hc Hrec Hown H1 H2 H3 H4.
  unfold InventoryResource_put. rewrite Hut, Hrec, Hc.
  change (claim_is (Some "clerk") "merchant") with false.
  change (claim_is (Some "clerk") "admin") with false.
  change (claim_is (Some "clerk") "clerk") with true.
  cbn. rewrite Hown. rewrite bool_decide_eq_true_2 by reflexivity. cbn.
  unfold dict_has, assign_int_field, try_int. rewrite H1, H2, H3, H4. cbn.
  split.
  - intros n m Hn Hn0 Hm Hm0. rewrite Hn, Hm. cbn.
    assert ((n <? 0) = false) as -> by lia. cbn.
    assert ((m <? 0) = false) as -> by lia. cbn.
    eexists. split; [reflexivity |]. repeat split.
  - intros n Hn Hn0. rewrite Hn. cbn.
    assert ((n <? 0) = true) as -> by lia. reflexivity.
Qed.

(** X12. Who an update of an inventory record is refused: a clerk who is
    not the clerk of the record, and so every clerk when the record has
    lost its clerk, gets 403; so does an Admin assigned to another
    store, and a caller whose token has none of the three user types.
    The store is left as it was. *)
Theorem inventory_update_refusals db o tok record_id data record :
  query_get Inventory_id (inventory_records db) record_id = Some record ->
  (forall clerk,
     user_type tok = Some "clerk" ->
     query_get Clerk_id (clerks db) (identity tok) = Some clerk ->
     Inventory_clerk_id record <> Some (Clerk_id clerk) ->
     InventoryResource_put db o tok record_id data
       = (db, Msg 403 "Unauthorized to update this inventory record"))
  /\ (forall admin z,
        user_type tok = Some "admin" ->
        query_get Admin_id (admins db) (identity tok) = Some admin ->
        Admin_store_id admin = Some z -> z <> 0 -> z <> Inventory_store_id record ->
        InventoryResource_put db o tok record_id data
          = (db, Msg 403 "Unauthorized to update this inventory record"))
  /\ (unknown_user_type (user_type tok) = true ->
      InventoryResource_put db o tok record_id data
        = (db, Msg 403 "Unauthorized to update this inventory record")).
Proof.
  intros Hrec. unfold InventoryResource_put. rewrite Hrec. cbn.
  split; [| split].
  - intros clerk Hut Hc Hown. rewrite Hut, Hc.
    change (claim_is (Some "clerk") "merchant") with false.
    change (claim_is (Some "clerk") "admin") with false.
    change (claim_is (Some "clerk") "clerk") with true.
    cbn. rewrite bool_decide_eq_false_2 by congruence. reflexivity.
  - intros admin z Hut Ha Hz Hz0 Hzs. rewrite Hut, Ha.
    change (claim_is (Some "admin") "merchant") with false.
    change (claim_is (Some "admin") "admin") with true.
    cbn. rewrite Hz. cbn.
    assert ((z =? 0) = false) as -> by lia.
    assert ((z =? Inventory_store_id record) = false) as -> by lia.
    reflexivity.
  - unfold unknown_user_type. intros Hunk.
    apply negb_true_iff in Hunk.
    apply orb_false_iff in Hunk as [Hunk Hc].
    apply orb_false_iff in Hunk as [Hm Ha].
    rewrite Hm, Ha, Hc. reflexivity.
Qed.

(** ** Reading within one's scope (inventory.py, transactions.py,
    supply_request.py) *)

(** X13. The by-id reads stay within the caller's scope: an Admin
    assigned to a store is refused, with 403, an inventory record, a
    transaction or a supply request of another store, and a clerk is
    refused one that another clerk (or no clerk any more) is recorded
    for. *)
Theorem by_id_reads_refuse_out_of_scope db tok :
  (forall admin z,
     user_type tok = Some "admin" ->
     query_get Admin_id (admins db) (identity tok) = Some admin ->
     Admin_store_id admin = Some z -> z <> 0 ->
     (forall k r, query_get Inventory_id (inventory_records db) k = Some r ->
        Inventory_store_id r <> z ->
        InventoryResource_get db tok k
          = Msg 403 "Unauthorized to view this inventory record")
     /\ (forall k t, query_get Transaction_id (transactions db) k = Some t ->
           Transaction_store_id t <> z ->
           TransactionResource_get db tok k
             = Msg 403 "Unauthorized to view this transaction record")
     /\ (forall k q, query_get SupplyRequest_id (supply_requests db) k = Some q ->
           SupplyRequest_store_id q <> z ->
           SupplyRequestResource_get db tok k
             = Msg 403 "Unauthorized to view this supply request"))
  /\ (forall clerk,
        user_type tok = Some "clerk" ->
        query_get Clerk_id (clerks db) (identity tok) = Some clerk ->
        (forall k r, query_get Inventory_id (inventory_records db) k = Some r ->
           Inventory_clerk_id r <> Some (Clerk_id clerk) ->
           InventoryResource_get db tok k
             = Msg 403 "Unauthorized to view this inventory record")
        /\ (forall k t, query_get Transaction_id (transactions db) k = Some t ->
              Transaction_clerk_id t <> Some (Clerk_id clerk) ->
              TransactionResource_get db tok k
                = Msg 403 "Unauthorized to view this transaction record")
        /\ (forall k q, query_get SupplyRequest_id (supply_requests db) k = Some q ->
              requested_by_clerk_id q <> Some (Clerk_id clerk) ->
              SupplyRequestResource_get db tok k
                = Msg 403 "Unauthorized to view this supply request")).
Proof.
  unfold InventoryResource_get, TransactionResource_get, SupplyRequestResource_get.
  split.
  - intros admin z Hut Ha Hz Hz0. rewrite Hut, Ha, Hz.
    change (claim_is (Some "admin") "merchant") with false.
    change (claim_is (Some "admin") "admin") with true.
    repeat split; intros k r Hr Hne; rewrite Hr; cbn;
      assert ((z =? 0) = false) as -> by lia;
      match goal with
      | |- context [z =? ?y] => assert ((z =? y) = false) as -> by lia
      end; reflexivity.
  - intros clerk Hut Hc. rewrite Hut, Hc.
    change (claim_is (Some "clerk") "merchant") with false.
    change (claim_is (Some "clerk") "admin") with false.
    change (claim_is (Some "clerk") "clerk") with true.
    repeat split; intros k r Hr Hne; rewrite Hr; cbn;
      rewrite bool_decide_eq_false_2 by congruence; reflexivity.
Qed.

Lemma claim_is_true ut t : claim_is ut t = true <-> ut = Some t.
Proof. unfold claim_is. apply bool_decide_eq_true. Qed.

(** X14. The listings are exactly the caller's scope.  When the listing
    of transactions answers with rows, these are, for a clerk, the
    transactions recorded for the clerk; for an Admin, those of the
    Admin's store; for the Merchant, all of them.  The listings of
    inventory records and of supply requests follow the same rule. *)
Theorem listings_are_the_scope db tok :
  (forall l, TransactionListResource_get db tok = Data 200 None l ->
     (user_type tok = Some "clerk" ->
        forall t, In t l <-> In t (transactions db)
                             /\ Transaction_clerk_id t = Some (identity tok))
     /\ (user_type tok = Some "admin" ->
         exists admin,
           query_get Admin_id (admins db) (identity tok) = Some admin
           /\ forall t, In t l <-> In t (transactions db)
                                   /\ Some (Transaction_store_id t) = Admin_store_id admin)
     /\ (user_type tok = Some "merchant" -> l = transactions db))
  /\ (forall l, InventoryListResource_get db tok = Data 200 None l ->
        (user_type tok = Some "clerk" ->
           forall r, In r l <-> In r (inventory_records db)
                                /\ Inventory_clerk_id r = Some (identity tok))
        /\ (user_type tok = Some "admin" ->
            exists admin,
              query_get Admin_id (admins db) (identity tok) = Some admin
              /\ forall r, In r l <-> In r (inventory_records db)
                                      /\ Some (Inventory_store_id r) = Admin_store_id admin)
        /\ (user_type tok = Some "merchant" -> l = inventory_records db))
  /\ (forall l, SupplyRequestListResource_get db tok = Data 200 None l ->
        (user_type tok = Some "clerk" ->
           forall q, In q l <-> In q (supply_requests db)
                                /\ requested_by_clerk_id q = Some (identity tok))
        /\ (user_type tok = Some "admin" ->
            exists admin,
              query_get Admin_id (admins db) (identity tok) = Some admin
              /\ forall q, In q l <-> In q (supply_requests db)
                                      /\ Some (SupplyRequest_store_id q) = Admin_store_id admin)
        /\ (user_type tok = Some "merchant" -> l = supply_requests db)).
Proof.
  unfold TransactionListResource_get, InventoryListResource_get,
    SupplyRequestListResource_get.
  split; [| split]; intros l Hl; (split; [| split]); intros Hut; rewrite Hut in *;
    change (unknown_user_type (Some "clerk")) with false in *;
    change (unknown_user_type (Some "admin")) with false in *;
    change (unknown_user_type (Some "merchant")) with false in *;
    change (claim_is (Some "clerk") "admin") with false in *;
    change (claim_is (Some "clerk") "clerk") with true in *;
    change (claim_is (Some "admin") "admin") with true in *;
    change (claim_is (Some "merchant") "admin") with false in *;
    change (claim_is (Some "merchant") "clerk") with false in *;
    cbn in *.
  all: try (destruct (query_get Clerk_id (clerks db) (identity tok)) as [c|];
            cbn in *; [| discriminate];
            match goal with Hl : Data _ _ _ = Data _ _ _ |- _ => inversion Hl; subst end;
            intros x; rewrite <- !list_elem_of_In, list_elem_of_filter; tauto).
  all: try (destruct (query_get Admin_id (admins db) (identity tok)) as [a|];
            cbn in *; [| discriminate];
            destruct (truthy_id (Admin_store_id a)); cbn in *; [| discriminate];
            match goal with Hl : Data _ _ _ = Data _ _ _ |- _ => inversion Hl; subst end;
            exists a; split; [reflexivity |];
            intros x; rewrite <- !list_elem_of_In, list_elem_of_filter; tauto).
  all: match goal with Hl : Data _ _ _ = Data _ _ _ |- _ => inversion Hl; reflexivity end.
Qed.

(** ** Supply requests: creation and update (supply_request.py) *)

(** X15. A supply request is created Pending, for the store of the clerk
    who asks, whatever else the body says: the request carries the
    clerk's store and key, no admin, the quantity asked and the status
    Pending, and is added at the end of the table.  A clerk without a
    store is refused with 403, a quantity that is not positive with
    400. *)
Theorem supply_request_is_created_pending db now o tok data clerk product p q :
  query_get Clerk_id (clerks db) (identity tok) = Some clerk ->
  data !! "product_id" = Some (JInt p) -> p <> 0 ->
  data !! "quantity_requested" = Some (JInt q) ->
  query_get Product_id (products db) p = Some product ->
  (forall z, 0 < q -> Clerk_store_id clerk = Some z -> z <> 0 ->
     exists r,
       SupplyRequestListResource_post db now Committed tok data
         = (stage_new_supply_request r db,
            Data 201 (Some "Supply request created successfully") r)
       /\ status r = "Pending"
       /\ SupplyRequest_store_id r = z
       /\ SupplyRequest_product_id r = p
       /\ requested_by_clerk_id r = Some (Clerk_id clerk)
       /\ approved_by_admin_id r = None
       /\ quantity_requested r = q
       /\ response_date r = None)
  /\ (0 < q -> truthy_id (Clerk_store_id clerk) = false ->
      SupplyRequestListResource_post db now o tok data
        = (db, Msg 403 "Clerk must be assigned to a store to make a supply request"))
  /\ (q <= 0 ->
      SupplyRequestListResource_post db now o tok data
        = (db, Msg 400 "Quantity requested must be positive")).
Proof.
  intros Hc Hp Hp0 Hq Hprod.
  destruct (query_get_Some _ _ _ _ Hc) as [_ Hcid].
  unfold SupplyRequestListResource_post, clerk_required, try_int, dict_get.
  rewrite Hc, Hp, Hq. cbn.
  assert ((p =? 0) = false) as -> by lia. cbn.
  split; [| split].
  - intros z Hq0 Hz Hz0.
    assert ((q <=? 0) = false) as -> by lia. cbn.
    rewrite Hprod, Hz. cbn.
    assert ((z =? 0) = false) as -> by lia. cbn.
    eexists. split; [reflexivity |]. rewrite Hcid. repeat split.
  - intros Hq0 Hns.
    assert ((q <=? 0) = false) as -> by lia. cbn.
    rewrite Hprod. cbn.
    destruct (Clerk_store_id clerk) as [z|]; [| reflexivity].
    cbn in Hns. apply negb_false_iff in Hns. rewrite Hns. reflexivity.
  - intros Hq0.
    assert ((q <=? 0) = true) as -> by lia. reflexivity.
Qed.

(** X16. The update of a supply request never takes effect: on every
    request the call leaves the store as it was, and its answer is the
    403 of the Admin guard, the 404 of an unknown request, the 403 of
    the store test, or the [NameError] raised by the read of [status]. *)
Theorem supply_request_update_never_takes_effect db now o tok request_id data :
  fst (SupplyRequestResource_put db now o tok request_id data) = db
  /\ (snd (SupplyRequestResource_put db now o tok request_id data)
        = Msg 403 "Admin access required"
      \/ snd (SupplyRequestResource_put db now o tok request_id data)
           = Msg 404 "Supply request not found"
      \/ snd (SupplyRequestResource_put db now o tok request_id data)
           = Msg 403 "Admin is not assigned to this store to approve requests"
      \/ snd (SupplyRequestResource_put db now o tok request_id data)
           = Raised NameError).
Proof.
  unfold SupplyRequestResource_put, SupplyRequestResource_put_body,
    supply_request_module_status, admin_required.
  destruct (query_get Admin_id (admins db) (identity tok)) as [admin|]; cbn;
    [| auto].
  destruct (query_get SupplyRequest_id (supply_requests db) request_id) as [req|];
    cbn; [| auto].
  destruct (truthy_id (Admin_store_id admin)
            && id_differs (Admin_store_id admin) (SupplyRequest_store_id req));
    cbn; auto 6.
Qed.

(** ** Deletions *)

Lemma query_get_delete_row {A} (key : A -> Z) k tbl :
  query_get key (delete_row key k tbl) k = None.
Proof.
  unfold query_get, delete_row. induction tbl as [|x l IH]; [reflexivity |].
  cbn. destruct (key x =? k) eqn:E; cbn; [exact IH |]. rewrite E. exact IH.
Qed.

Lemma query_get_delete_row_ne {A} (key : A -> Z) k k' tbl :
  k' <> k -> query_get key (delete_row key k tbl) k' = query_get key tbl k'.
Proof.
  intros Hne. unfold query_get, delete_row.
  induction tbl as [|x l IH]; [reflexivity |].
  cbn. destruct (key x =? k) eqn:E; cbn.
  - assert ((key x =? k') = false) as -> by lia. exact IH.
  - destruct (key x =? k'); [reflexivity | exact IH].
Qed.

(** X17. Deleting is for the Merchant and takes one row away.  With the
    token of a superuser Merchant and a commit that succeeds, the
    deletion of a transaction, of an inventory record or of a supply
    request removes the row with that key and keeps every other row of
    the table; the deletion of a transaction leaves the inventory
    records as they are, so the quantity sold is not returned to the
    stock.  Without a superuser Merchant row for the token, the answer
    is 403 and nothing is deleted. *)
Theorem deletions_remove_one_row db o tok k :
  (forall merchant,
     query_get Merchant_id (merchants db) (identity tok) = Some merchant ->
     Merchant_is_superuser merchant = true ->
     (forall t, query_get Transaction_id (transactions db) k = Some t ->
        exists db',
          TransactionResource_delete db Committed tok k
            = (db', Msg 204 "Transaction deleted successfully")
          /\ query_get Transaction_id (transactions db') k = None
          /\ (forall k', k' <> k ->
                query_get Transaction_id (transactions db') k'
                = query_get Transaction_id (transactions db) k')
          /\ inventory_records db' = inventory_records db)
     /\ (forall r, query_get Inventory_id (inventory_records db) k = Some r ->
           exists db',
             InventoryResource_delete db Committed tok k
               = (db', Msg 204 "Inventory record deleted successfully")
             /\ query_get Inventory_id (inventory_records db') k = None
             /\ (forall k', k' <> k ->
                   query_get Inventory_id (inventory_records db') k'
                   = query_get Inventory_id (inventory_records db) k')
             /\ transactions db' = transactions db)
     /\ (forall q, query_get SupplyRequest_id (supply_requests db) k = Some q ->
           exists db',
             SupplyRequestResource_delete db Committed tok k
               = (db', Msg 204 "Supply request deleted successfully")
             /\ query_get SupplyRequest_id (supply_requests db') k = None
             /\ (forall k', k' <> k ->
                   query_get SupplyRequest_id (supply_requests db') k'
                   = query_get SupplyRequest_id (supply_requests db) k')))
  /\ (is_merchant db (identity tok) = false ->
      TransactionResource_delete db o tok k
        = (db, Msg 403 "Merchant (Superuser) access required")
      /\ InventoryResource_delete db o tok k
         = (db, Msg 403 "Merchant (Superuser) access required")
      /\ SupplyRequestResource_delete db o tok k
         = (db, Msg 403 "Merchant (Superuser) access required")).
Proof.
  unfold TransactionResource_delete, InventoryResource_delete,
    SupplyRequestResource_delete, merchant_required, is_merchant.
  split.
  - intros merchant Hm Hsu. rewrite Hm, Hsu. cbn.
    repeat split; intros x Hx; rewrite Hx; cbn;
      destruct (query_get_Some _ _ _ _ Hx) as [_ ->];
      eexists; (split; [reflexivity |]); cbn; repeat split;
      try apply query_get_delete_row;
      intros k' Hne; apply query_get_delete_row_ne; exact Hne.
  - destruct (query_get Merchant_id (merchants db) (identity tok)) as [m|];
      [intros -> | intros _]; repeat split.
Qed.

(** ** The stock report (reports.py) *)

Lemma insert_by_date_desc_In r l x :
  In x (insert_by_date_desc r l) <-> x = r \/ In x l.
Proof.
  induction l as [|y l IH]; cbn.
  - split; [intros [<- | []]; left; reflexivity | intros [-> | []]; left; reflexivity].
  - destruct (date_recorded y <=? date_recorded r); cbn.
    + split; [intros [<- | Hx]; [left; reflexivity | right; exact Hx]
             | intros [-> | Hx]; [left; reflexivity | right; exact Hx]].
    + rewrite IH. split.
      * intros [<- | [-> | Hx]]; [right; left | left | right; right]; auto.
      * intros [-> | [<- | Hx]]; [right; left | left | right; right]; auto.
Qed.

Lemma insert_by_date_desc_sorted r l :
  by_date_desc l -> by_date_desc (insert_by_date_desc r l).
Proof.
  unfold by_date_desc. induction 1 as [|y l Hs IH Hy]; cbn.
  - constructor; [constructor | constructor].
  - destruct (date_recorded y <=? date_recorded r) eqn:E.
    + constructor; [constructor; assumption |].
      constructor; [lia |].
      rewrite List.Forall_forall in *. intros x Hx. specialize (Hy x Hx). lia.
    + constructor; [exact IH |].
      rewrite List.Forall_forall in *. intros x Hx.
      apply insert_by_date_desc_In in Hx as [-> | Hx]; [lia | apply Hy; exact Hx].
Qed.

Lemma order_by_date_desc_sorted l : by_date_desc (order_by_date_desc l).
Proof.
  induction l as [|x l IH]; [constructor |].
  change (order_by_date_desc (x :: l))
    with (insert_by_date_desc x (order_by_date_desc l)).
  apply insert_by_date_desc_sorted. exact IH.
Qed.

(** The first row of a kind in the ordered rows, after one more row has
    been put in its place. *)
Lemma find_insert_by_date_desc (P : Inventory -> bool) r l :
  by_date_desc l ->
  find P (insert_by_date_desc r l)
  = if P r then
      match find P l with
      | Some b => if date_recorded r <? date_recorded b then Some b else Some r
      | None => Some r
      end
    else find P l.
Proof.
  unfold by_date_desc. induction 1 as [|y l Hs IH Hy]; cbn.
  - destruct (P r); reflexivity.
  - destruct (date_recorded y <=? date_recorded r) eqn:E; cbn.
    + destruct (P r) eqn:Hr; [| reflexivity].
      destruct (P y) eqn:HPy.
      * assert ((date_recorded r <? date_recorded y) = false) as -> by lia.
        reflexivity.
      * destruct (find P l) as [b|] eqn:Hb; [| reflexivity].
        apply find_some in Hb as [Hb _].
        rewrite List.Forall_forall in Hy. specialize (Hy b Hb).
        assert ((date_recorded r <? date_recorded b) = false) as -> by lia.
        reflexivity.
    + destruct (P y) eqn:HPy.
      * destruct (P r); [| reflexivity].
        assert ((date_recorded r <? date_recorded y) = true) as -> by lia.
        reflexivity.
      * exact IH.
Qed.

(** The first row of a kind in the ordered rows is the row that the
    ledger query selects among the rows of that kind. *)
Lemma find_order_by_date_desc (P : Inventory -> bool) l :
  find P (order_by_date_desc l) = first_by_date_desc (List.filter P l).
Proof.
  induction l as [|x l IH]; [reflexivity |].
  change (order_by_date_desc (x :: l))
    with (insert_by_date_desc x (order_by_date_desc l)).
  rewrite find_insert_by_date_desc by apply order_by_date_desc_sorted.
  rewrite IH. cbn [List.filter]. destruct (P x); reflexivity.
Qed.

Lemma inventory_for_record_of_pair db p s :
  inventory_for db p s = List.filter (record_of_pair p s) (inventory_records db).
Proof.
  unfold inventory_for, record_of_pair.
  induction (inventory_records db) as [|x l IH]; [reflexivity |].
  rewrite filter_cons, IH. cbn.
  destruct (decide (Inventory_product_id x = p /\ Inventory_store_id x = s))
    as [[Hp Hs] | Hn].
  - assert ((Inventory_product_id x =? p) = true) as -> by lia.
    assert ((Inventory_store_id x =? s) = true) as -> by lia.
    reflexivity.
  - destruct (Inventory_product_id x =? p) eqn:Ep;
      destruct (Inventory_store_id x =? s) eqn:Es; cbn; try reflexivity.
    exfalso. apply Hn. split; lia.
Qed.

Lemma find_over_app {A} (f : A -> bool) l1 l2 :
  find f (l1 ++ l2) = match find f l1 with
                      | Some x => Some x
                      | None => find f l2
                      end.
Proof.
  induction l1 as [|x l1 IH]; [reflexivity |].
  cbn. destruct (f x); [reflexivity | exact IH].
Qed.

(** The dictionary of the report loop, read by pair: what was there
    stays, and a pair that was not there gets the entry of the first
    record of the pair in the rows looped over. *)
Lemma current_stock_loop_find db p s seen l :
  Forall (fun kv => fst kv = (entry_product_id (snd kv), entry_store_id (snd kv))) seen ->
  find (entry_of_pair p s) (map snd (current_stock_loop db seen l))
  = match find (entry_of_pair p s) (map snd seen) with
    | Some e => Some e
    | None => option_map (stock_entry_of db) (find (record_of_pair p s) l)
    end.
Proof.
  revert seen. induction l as [|r l IH]; intros seen Hseen.
  - cbn. destruct (find _ _); reflexivity.
  - cbn [current_stock_loop].
    assert (Hkey : has_key (Inventory_product_id r, Inventory_store_id r) seen = true
                   -> record_of_pair p s r = true
                   -> find (entry_of_pair p s) (map snd seen) <> None).
    { unfold has_key. intros Hk Hr. apply existsb_exists in Hk as (kv & Hin & Hkv).
      cbn in Hkv. unfold record_of_pair in Hr.
      rewrite List.Forall_forall in Hseen. pose proof (Hseen kv Hin) as Hkv'.
      intros Hnone.
      pose proof (find_none _ _ Hnone (snd kv) (in_map snd _ _ Hin)) as Hf.
      unfold entry_of_pair in Hf. rewrite Hkv' in Hkv. cbn in Hkv. lia. }
    destruct (has_key (Inventory_product_id r, Inventory_store_id r) seen) eqn:Hk.
    + rewrite IH by exact Hseen.
      destruct (find (entry_of_pair p s) (map snd seen)) as [e|] eqn:He;
        [reflexivity |].
      cbn. destruct (record_of_pair p s r) eqn:Hr; [| reflexivity].
      exfalso. exact (Hkey eq_refl eq_refl eq_refl).
    + rewrite IH.
      * rewrite map_app, find_over_app. cbn.
        destruct (find (entry_of_pair p s) (map snd seen)) as [e|]; [reflexivity |].
        unfold entry_of_pair at 1, record_of_pair at 2. cbn.
        destruct ((Inventory_product_id r =? p) && (Inventory_store_id r =? s));
          reflexivity.
      * apply Forall_app. split; [exact Hseen |]. constructor; [reflexivity | constructor].
Qed.

(** The dictionary of the report loop has one entry for a pair. *)
Lemma current_stock_loop_NoDup db seen l :
  NoDup (map fst seen) ->
  NoDup (map fst (current_stock_loop db seen l)).
Proof.
  revert seen. induction l as [|r l IH]; intros seen Hnd; [exact Hnd |].
  cbn [current_stock_loop].
  destruct (has_key (Inventory_product_id r, Inventory_store_id r) seen) eqn:Hk;
    [apply IH; exact Hnd |].
  apply IH. rewrite map_app. cbn. apply NoDup_app. split; [exact Hnd |].
  split; [| apply NoDup_singleton].
  intros key Hin Hin'. apply list_elem_of_singleton in Hin'. subst key.
  apply list_elem_of_In, in_map_iff in Hin as (kv & Hkv & Hin).
  assert (has_key (Inventory_product_id r, Inventory_store_id r) seen = true) as Hk'.
  { unfold has_key. apply existsb_exists. exists kv. split; [exact Hin |].
    rewrite Hkv. cbn. lia. }
  congruence.
Qed.

(** X18. The stock report shows the stock that a sale is checked
    against.  For the Merchant and without filters, the report has at
    most one entry for a pair of product and store, and the entry of a
    pair is that of the latest inventory record of the pair, the record
    whose stock the sale handler compares with the quantity sold; a pair
    without a record has no entry. *)
Theorem stock_report_shows_the_latest_record db tok :
  user_type tok = Some "merchant" ->
  exists current_stock : list (Z * Z * stock_entry),
    StockReportResource_get_stock db tok None None
      = Data 200 None ("current_stock", map snd current_stock)
    /\ NoDup (map fst current_stock)
    /\ forall p s,
         find (entry_of_pair p s) (map snd current_stock)
         = option_map (stock_entry_of db) (latest_inventory_record db p s).
Proof.
  intros Hut.
  unfold StockReportResource_get_stock, StockReportResource_get, get_authorized_query,
    stock_report.
  rewrite Hut. change (claim_is (Some "merchant") "merchant") with true. cbn.
  eexists. split; [reflexivity |]. split.
  - apply current_stock_loop_NoDup. constructor.
  - intros p s. rewrite current_stock_loop_find by constructor. cbn.
    rewrite find_order_by_date_desc.
    unfold latest_inventory_record. rewrite inventory_for_record_of_pair.
    reflexivity.
Qed.

(** X19. Who the reports are for.  A caller whose token is neither a
    Merchant's nor an Admin's is refused every report with 403; the
    Merchant's report is computed from all the rows; the report of an
    Admin with a store is computed from the rows of that store only. *)
Theorem reports_scope db tok :
  (claim_is (user_type tok) "merchant" = false ->
   claim_is (user_type tok) "admin" = false ->
   forall A (on_sales : list Transaction -> response A)
            (on_records : list Inventory -> response A),
     SalesReportResource_get on_sales db tok = Msg 403 "Unauthorized to view reports"
     /\ StockReportResource_get on_records db tok = Msg 403 "Unauthorized to view reports"
     /\ SpoiltItemsReportResource_get on_records db tok
        = Msg 403 "Unauthorized to view reports"
     /\ PaymentStatusReportResource_get on_records db tok
        = Msg 403 "Unauthorized to view reports")
  /\ (user_type tok = Some "merchant" ->
      forall A (on_sales : list Transaction -> response A)
               (on_records : list Inventory -> response A),
        SalesReportResource_get on_sales db tok = on_sales (transactions db)
        /\ StockReportResource_get on_records db tok = on_records (inventory_records db)
        /\ SpoiltItemsReportResource_get on_records db tok
           = on_records (inventory_records db)
        /\ PaymentStatusReportResource_get on_records db tok
           = on_records (inventory_records db))
  /\ (forall admin z,
        user_type tok = Some "admin" ->
        query_get Admin_id (admins db) (identity tok) = Some admin ->
        Admin_store_id admin = Some z -> z <> 0 ->
        forall A (on_sales : list Transaction -> response A)
                 (on_records : list Inventory -> response A),
          SalesReportResource_get on_sales db tok
            = on_sales (filter (fun t => Some (Transaction_store_id t) = Some z)
                          (transactions db))
          /\ StockReportResource_get on_records db tok
             = on_records (filter (fun r => Some (Inventory_store_id r) = Some z)
                             (inventory_records db))
          /\ SpoiltItemsReportResource_get on_records db tok
             = on_records (filter (fun r => Some (Inventory_store_id r) = Some z)
                             (inventory_records db))
          /\ PaymentStatusReportResource_get on_records db tok
             = on_records (filter (fun r => Some (Inventory_store_id r) = Some z)
                             (inventory_records db))).
Proof.
  unfold SalesReportResource_get, StockReportResource_get,
    SpoiltItemsReportResource_get, PaymentStatusReportResource_get,
    get_authorized_query.
  split; [| split].
  - intros Hm Ha A on_sales on_records. rewrite Hm, Ha. repeat split.
  - intros Hut A on_sales on_records. rewrite Hut.
    change (claim_is (Some "merchant") "merchant") with true. repeat split.
  - intros admin z Hut Ha Hz Hz0 A on_sales on_records. rewrite Hut, Ha.
    change (claim_is (Some "admin") "merchant") with false.
    change (claim_is (Some "admin") "admin") with true.
    cbn. rewrite Hz. cbn.
    assert ((z =? 0) = false) as -> by lia. cbn. repeat split.
Qed.

(** ** Tokens (login.py) *)

Lemma query_get_of_row {A} (key : A -> Z) tbl x :
  In x tbl -> exists y, query_get key tbl (key x) = Some y.
Proof.
  intros Hin. unfold query_get.
  destruct (find (fun r => key r =? key x) tbl) as [y|] eqn:E; [eauto |].
  pose proof (find_none _ _ E x Hin) as Hn. cbn in Hn. lia.
Qed.

(** X20. A token that the login issues passes the guard of its kind: the
    token of a clerk passes [clerk_required], the token of an admin
    passes [admin_required], and the token of a Merchant is judged by
    [merchant_required] on the superuser flag of that Merchant (the keys
    of Merchants being unique). *)
Theorem login_token_passes_the_guard_of_its_kind db data message payload :
  NoDup (map Merchant_id (merchants db)) ->
  UserLogin_post db data = Data 200 message payload ->
  (login_user_type payload = "clerk" ->
   forall A, clerk_required (A:=A) db (access_token payload) = Next tt)
  /\ (login_user_type payload = "admin" ->
      forall A, admin_required (A:=A) db (access_token payload) = Next tt)
  /\ (login_user_type payload = "merchant" ->
      exists m,
        In m (merchants db)
        /\ Merchant_id m = identity (access_token payload)
        /\ forall A,
             merchant_required (A:=A) db (access_token payload)
             = if Merchant_is_superuser m then Next tt
               else Return (db, Msg 403 "Merchant (Superuser) access required")).
Proof.
  intros Hnd. unfold UserLogin_post.
  destruct (truthy (dict_get data "email") && truthy (dict_get data "password"));
    cbn; [| discriminate].
  destruct (validators_email (dict_get data "email")); cbn; [| discriminate].
  destruct (lookup_account db (dict_get data "email")) as [[user kind]|] eqn:Hl;
    cbn; [| discriminate].
  destruct (check_password user (dict_get data "password")); cbn; [| discriminate].
  destruct (account_is_active user); cbn; [| discriminate].
  intros Heq. inversion Heq; subst. cbn.
  unfold lookup_account in Hl.
  destruct (find _ (merchants db)) as [m|] eqn:Hm.
  { inversion Hl; subst. apply find_some in Hm as [Hm _].
    split; [discriminate |]. split; [discriminate |].
    intros _. exists m. split; [exact Hm |]. split; [reflexivity |].
    intros A. unfold merchant_required. cbn.
    destruct (query_get_of_row Merchant_id _ _ Hm) as [y Hy]. rewrite Hy.
    destruct (query_get_Some _ _ _ _ Hy) as [Hyin Hyk].
    rewrite (unique_key_row Merchant_id _ y m Hnd Hyin Hm Hyk).
    destruct (Merchant_is_superuser m); reflexivity. }
  destruct (find _ (admins db)) as [a|] eqn:Ha.
  { inversion Hl; subst. apply find_some in Ha as [Ha _].
    split; [discriminate |]. split; [| discriminate].
    intros _ A. unfold admin_required. cbn.
    destruct (query_get_of_row Admin_id _ _ Ha) as [y ->]. reflexivity. }
  destruct (find _ (clerks db)) as [c|] eqn:Hc; [| discriminate].
  inversion Hl; subst. apply find_some in Hc as [Hc _].
  split; [| split; discriminate].
  intros _ A. unfold clerk_required. cbn.
  destruct (query_get_of_row Clerk_id _ _ Hc) as [y ->]. reflexivity.
Qed.

(** X21. Logging out revokes the token presented and no other: after
    [UserLogout.post] the blocklist test is true of that token's [jti],
    and its answer for a token with another [jti], the refresh token of
    the same login among them, is what it was. *)
Theorem logout_revokes_the_presented_token (blacklist : gset string) payload :
  check_if_token_in_blacklist (fst (UserLogout_post blacklist payload)) payload = true
  /\ (forall other,
        jti other <> jti payload ->
        check_if_token_in_blacklist (fst (UserLogout_post blacklist payload)) other
        = check_if_token_in_blacklist blacklist other)
  /\ (forall revoked,
        check_if_token_in_blacklist blacklist revoked = true ->
        check_if_token_in_blacklist (fst (UserLogout_post blacklist payload)) revoked
        = true).
Proof.
  unfold check_if_token_in_blacklist, UserLogout_post. cbn.
  split; [| split].
  - apply bool_decide_eq_true_2. apply elem_of_union. left.
    apply elem_of_singleton. reflexivity.
  - intros other Hne. apply bool_decide_ext.
    rewrite elem_of_union, elem_of_singleton. tauto.
  - intros revoked Hr. apply bool_decide_eq_true_1 in Hr.
    apply bool_decide_eq_true_2. apply elem_of_union. right. exact Hr.
Qed.

(** ** Registration (merchant.py, clerk.py) *)

(** X22. A password that is a number or a boolean is not answered with
    the 400 of a weak password: [validate_password] takes its length,
    which raises [TypeError], and the registration of a Merchant or of a
    Clerk ends in that exception, with nothing stored. *)
Theorem registration_with_non_string_password_raises
    db o tok data username email password :
  data !! "username" = Some username ->
  data !! "email" = Some email ->
  data !! "password" = Some password ->
  truthy username = true ->
  truthy email = true ->
  validate_email email = true ->
  truthy password = true ->
  (forall s, password <> JStr s) ->
  MerchantRegistration_post db o data = (db, Raised TypeError)
  /\ (admin_required (A:=Clerk) db tok = Next tt ->
      ClerkRegistrationByAdmin_post db o tok data = (db, Raised TypeError)).
Proof.
  intros Hu He Hp Htu Hte Hv Htp Hns.
  unfold MerchantRegistration_post, ClerkRegistrationByAdmin_post, dict_get.
  rewrite Hu, He, Hp. cbn. rewrite Htu, Hte, Htp, Hv. cbn.
  assert (validate_password password = inl TypeError) as ->.
  { destruct password as [| b | n | s]; try reflexivity.
    exfalso. exact (Hns s eq_refl). }
  split; [reflexivity |]. intros ->. reflexivity.
Qed.

(** ** Stores (store.py) *)

(** X23. Who may view a store by its key: the superuser Merchant, any
    store; an Admin, the store the Admin is assigned to and no other, so
    that an Admin without a store may view none. *)
Theorem store_view_scope db tok store_id store :
  query_get Store_id (stores db) store_id = Some store ->
  (is_merchant db (identity tok) = true ->
   StoreResource_get db tok store_id = Data 200 None store)
  /\ (forall admin,
        is_merchant db (identity tok) = false ->
        query_get Admin_id (admins db) (identity tok) = Some admin ->
        (Admin_store_id admin = Some store_id ->
         StoreResource_get db tok store_id = Data 200 None store)
        /\ (Admin_store_id admin <> Some store_id ->
            StoreResource_get db tok store_id
              = Msg 403 "Unauthorized to view this store"))
  /\ (is_merchant db (identity tok) = false ->
      query_get Admin_id (admins db) (identity tok) = None ->
      StoreResource_get db tok store_id = Msg 403 "Unauthorized to view this store").
Proof.
  intros Hst. unfold StoreResource_get, admin_of_store. rewrite Hst. cbn.
  split; [| split].
  - intros ->. reflexivity.
  - intros admin -> ->. split.
    + intros Hs. rewrite bool_decide_eq_true_2 by exact Hs. reflexivity.
    + intros Hs. rewrite bool_decide_eq_false_2 by exact Hs. reflexivity.
  - intros -> ->. reflexivity.
Qed.

(** X24. Only the Merchant changes whether a store is active.  For the
    Admin of the store who is not the Merchant: an update whose
    [is_active] is a boolean other than the store's is refused with 403
    and nothing changes; any other update that commits keeps the store's
    key, owner and active flag, and sets the name and the location that
    the body gives. *)
Theorem store_activity_is_the_merchants db o tok store_id data store :
  query_get Store_id (stores db) store_id = Some store ->
  is_merchant db (identity tok) = false ->
  admin_of_store db (identity tok) store_id = true ->
  (forall b,
     data !! "is_active" = Some (JBool b) -> b <> Store_is_active store ->
     StoreResource_put db o tok store_id data
       = (db, Msg 403 "Only Merchant can change store active status"))
  /\ (data !! "is_active" = None
      \/ data !! "is_active" = Some (JBool (Store_is_active store)) ->
      exists store',
        StoreResource_put db Committed tok store_id data
          = (stage_store store' db, Data 200 (Some "Store updated successfully") store')
        /\ Store_id store' = Store_id store
        /\ Store_merchant_id store' = Store_merchant_id store
        /\ Store_is_active store' = Store_is_active store
        /\ (forall v, data !! "name" = Some v -> truthy v = true -> Store_name store' = v)
        /\ (forall v, data !! "location" = Some v -> truthy v = true ->
              Store_location store' = v)).
Proof.
  intros Hst Hm Ha. unfold StoreResource_put, dict_get_default.
  rewrite Hst, Hm, Ha. cbn. split.
  - intros b Hb Hne. rewrite Hb. cbn.
    rewrite bool_decide_eq_false_2 by exact Hne. reflexivity.
  - intros Hact.
    destruct Hact as [-> | ->]; cbn;
      rewrite bool_decide_eq_true_2 by reflexivity; cbn;
      (eexists; split; [reflexivity |]; cbn; repeat split;
       intros v Hv Htv; rewrite Hv; cbn; rewrite Htv; reflexivity).
Qed.

(** ** Clerk accounts (clerk.py) *)

(** Case analysis on the tests that a handler goes through. *)
Ltac flow_cases :=
  repeat (cbn; unfold unless_none, return_if, session_commit_unique, session_commit;
    match goal with
    | |- context [if ?b then _ else _] => destruct b eqn:?
    | |- context [match ?x with Some _ => _ | None => _ end] => destruct x eqn:?
    | |- context [match ?x with inl _ => _ | inr _ => _ end] => destruct x eqn:?
    | |- context [match ?x with
                  | Committed => _ | IntegrityError => _ | DatastoreError => _
                  end] => destruct x
    | |- context [match ?x with
                  | NameError => _ | TypeError => _ | ValueError => _
                  | OverflowError => _
                  end] => destruct x
    end); cbn.

(** X25. The profile update of a clerk never moves the clerk: on every
    request the call leaves the store as it was, or replaces one clerk
    row by a row with the same key, the same admin and the same store;
    no other table changes. *)
Theorem clerk_update_keeps_key_admin_and_store db o tok clerk_id data :
  fst (ClerkResource_put db o tok clerk_id data) = db
  \/ exists target target',
       In target (clerks db)
       /\ Clerk_id target' = Clerk_id target
       /\ Clerk_admin_id target' = Clerk_admin_id target
       /\ Clerk_store_id target' = Clerk_store_id target
       /\ fst (ClerkResource_put db o tok clerk_id data) = stage_clerk target' db.
Proof.
  unfold ClerkResource_put. flow_cases; try (left; reflexivity);
    match goal with
    | Hq : query_get Clerk_id (clerks db) _ = Some ?c
      |- stage_clerk ?t db = db \/ _ =>
        right; exists c, t;
        (split; [exact (proj1 (query_get_Some _ _ _ _ Hq)) |]);
        repeat split
    end.
Qed.

(** X26. Who switches a clerk's account on and off.  A clerk who is
    neither Merchant nor Admin and asks for an active flag other than
    the account's is refused with 403.  A Merchant or an Admin sets the
    flag of any clerk; and since the Clerk guard looks for the row only,
    the token of a clerk whose account was switched off still passes the
    guard. *)
Theorem clerk_activity_rule db o tok data target b :
  data !! "email" = None ->
  data !! "password" = None ->
  data !! "is_active" = Some (JBool b) ->
  validate_email (Clerk_email target) = true ->
  (query_get Clerk_id (clerks db) (identity tok) = Some target ->
   is_merchant db (identity tok) || is_admin db (identity tok) = false ->
   b <> Clerk_is_active target ->
   ClerkResource_put db o tok None data
     = (db, Msg 403 "Clerks cannot change their own active status"))
  /\ (forall k,
        query_get Clerk_id (clerks db) k = Some target ->
        is_merchant db (identity tok) || is_admin db (identity tok) = true ->
        exists target',
          ClerkResource_put db Committed tok (Some k) data
            = (stage_clerk target' db,
               Data 200 (Some "Clerk updated successfully") target')
          /\ Clerk_is_active target' = b
          /\ forall A tok',
               identity tok' = k ->
               clerk_required (A:=A) (stage_clerk target' db) tok' = Next tt).
Proof.
  intros He Hp Ha Hv. unfold ClerkResource_put, dict_get, dict_get_default.
  rewrite He, Hp, Ha. cbn. split.
  - intros Ht Hrole Hne. rewrite Ht, Hrole. cbn.
    destruct (truthy (Clerk_email target)); cbn; rewrite ?Hv; cbn;
      rewrite bool_decide_eq_false_2 by exact Hne; reflexivity.
  - intros k Ht Hrole. rewrite Ht, Hrole. cbn.
    destruct (query_get_Some _ _ _ _ Ht) as [Hin Hk].
    assert (Hguard : forall c' : Clerk,
              Clerk_id c' = Clerk_id target ->
              forall A tok', identity tok' = k ->
                clerk_required (A:=A) (stage_clerk c' db) tok' = Next tt).
    { intros c' Hc' A tok' Hid. unfold clerk_required.
      change (clerks (stage_clerk c' db)) with (update_row Clerk_id c' (clerks db)).
      cbv zeta. rewrite Hid, <- Hk, <- Hc'.
      rewrite (query_get_update_row Clerk_id c');
        [reflexivity | exists target; split; [exact Hin | symmetry; exact Hc']]. }
    destruct (truthy (Clerk_email target)); cbn; rewrite ?Hv; cbn;
      (eexists; split; [reflexivity |]; split; [reflexivity |];
       apply Hguard; reflexivity).
Qed.

(** ** Products (products.py) *)

(** X27. The two prices of a new product are not tested alike.  A buying
    price of 0 is taken for a missing field and answered 400; a selling
    price of 0 is accepted.  The product of a Merchant's token belongs
    to the identity of the token and is created active. *)
Theorem product_creation_zero_prices db o tok data name :
  user_type tok = Some "merchant" ->
  data !! "name" = Some name ->
  truthy name = true ->
  (data !! "buying_price" = Some (JInt 0) ->
   ProductListResource_post db o tok data
     = (db, Msg 400 "Missing required fields: name, buying_price, selling_price"))
  /\ (forall b fb f0,
        data !! "buying_price" = Some (JInt b) -> b <> 0 ->
        data !! "selling_price" = Some (JInt 0) ->
        float_of (JInt b) = inr fb -> float_of (JInt 0) = inr f0 ->
        float_is_negative fb = false -> float_is_negative f0 = false ->
        exists product,
          ProductListResource_post db Committed tok data
            = (stage_new_product product db,
               Data 201 (Some "Product created successfully") product)
          /\ buying_price product = fb
          /\ selling_price product = f0
          /\ Product_merchant_id product = identity tok
          /\ Product_is_active product = true).
Proof.
  intros Hut Hn Htn. unfold ProductListResource_post, dict_get, try_float.
  rewrite Hut, Hn.
  change (claim_is (Some "merchant") "merchant") with true.
  cbn. rewrite Htn. cbn. split.
  - intros ->. reflexivity.
  - intros b fb f0 Hb Hb0 Hs Hfb Hf0 Hnb Hn0. rewrite Hb, Hs. cbn.
    assert ((b =? 0) = false) as -> by lia. cbn.
    rewrite Hfb. cbn. rewrite Hf0. cbn. rewrite Hnb, Hn0. cbn.
    eexists. split; [reflexivity |]. repeat split.
Qed.

Lemma updated_price_cases {A} db data k stored negative invalid :
  (exists f, updated_price (A:=A) db data k stored negative invalid = Next f)
  \/ (exists r, updated_price (A:=A) db data k stored negative invalid
                = Return (db, r)).
Proof.
  unfold updated_price, try_float.
  destruct (data !! k) as [v|]; cbn.
  - destruct v; try (left; eexists; reflexivity);
      (destruct (float_of _) as [[] | f]; cbn; try (right; eexists; reflexivity);
       destruct (float_is_negative f); cbn;
       [right; eexists; reflexivity | left; eexists; reflexivity]).
  - destruct (float_is_negative stored); cbn;
      [right; eexists; reflexivity | left; eexists; reflexivity].
Qed.

(** X28. An update of a product touches the product and nothing else: on
    every request the call leaves the store as it was, or replaces the
    product by one with the same key and the same owner; the inventory
    records and the transactions, with the prices they carry, are never
    rewritten by a change of price. *)
Theorem product_update_keeps_the_snapshots db o tok product_id data :
  (fst (ProductResource_put db o tok product_id data) = db
   \/ exists product product',
        query_get Product_id (products db) product_id = Some product
        /\ Product_id product' = Product_id product
        /\ Product_merchant_id product' = Product_merchant_id product
        /\ fst (ProductResource_put db o tok product_id data)
           = stage_product product' db)
  /\ inventory_records (fst (ProductResource_put db o tok product_id data))
     = inventory_records db
  /\ transactions (fst (ProductResource_put db o tok product_id data))
     = transactions db.
Proof.
  assert (Hshape :
    fst (ProductResource_put db o tok product_id data) = db
    \/ exists product product',
         query_get Product_id (products db) product_id = Some product
         /\ Product_id product' = Product_id product
         /\ Product_merchant_id product' = Product_merchant_id product
         /\ fst (ProductResource_put db o tok product_id data)
            = stage_product product' db).
  { unfold ProductResource_put.
    destruct (negb (claim_is (user_type tok) "merchant"
                    || claim_is (user_type tok) "admin")); cbn;
      [left; reflexivity |].
    destruct (query_get Product_id (products db) product_id) as [product|] eqn:Hq;
      cbn; [| left; reflexivity].
    assert (Hrest : forall guard : flow (DB * response Product) unit,
              guard = Next tt \/ (exists r, guard = Return (db, r)) ->
              fst (run
                (guard ;;
                 new_buying_price ← updated_price db data "buying_price"
                                       (buying_price product)
                                       "Buying price cannot be negative"
                                       "Buying price must be a valid number" ;
                 new_selling_price ← updated_price db data "selling_price"
                                        (selling_price product)
                                        "Selling price cannot be negative"
                                        "Selling price must be a valid number" ;
                 Return (session_commit_unique o db
                   (stage_product
                      {| Product_id := Product_id product;
                         Product_name :=
                           if truthy (dict_get_default data "name" (Product_name product))
                           then dict_get_default data "name" (Product_name product)
                           else Product_name product;
                         Product_description :=
                           if is_not_None (dict_get_default data "description"
                                             (Product_description product))
                           then dict_get_default data "description"
                                  (Product_description product)
                           else Product_description product;
                         buying_price := new_buying_price;
                         selling_price := new_selling_price;
                         Product_merchant_id := Product_merchant_id product;
                         Product_is_active :=
                           match as_bool (dict_get_default data "is_active"
                                            (JBool (Product_is_active product))) with
                           | Some b => b
                           | None => Product_is_active product
                           end |} db)
                   (Data 200 (Some "Product updated successfully")
                      {| Product_id := Product_id product;
                         Product_name :=
                           if truthy (dict_get_default data "name" (Product_name product))
                           then dict_get_default data "name" (Product_name product)
                           else Product_name product;
                         Product_description :=
                           if is_not_None (dict_get_default data "description"
                                             (Product_description product))
                           then dict_get_default data "description"
                                  (Product_description product)
                           else Product_description product;
                         buying_price := new_buying_price;
                         selling_price := new_selling_price;
                         Product_merchant_id := Product_merchant_id product;
                         Product_is_active :=
                           match as_bool (dict_get_default data "is_active"
                                            (JBool (Product_is_active product))) with
                           | Some b => b
                           | None => Product_is_active product
                           end |})
                   (Msg 409 "Product with this name already exists")
                   (Msg 500 "An internal server error occurred during product update."))))
              = db
              \/ exists product',
                   Product_id product' = Product_id product
                   /\ Product_merchant_id product' = Product_merchant_id product
                   /\ fst (run
                (guard ;;
                 new_buying_price ← updated_price db data "buying_price"
                                       (buying_price product)
                                       "Buying price cannot be negative"
                                       "Buying price must be a valid number" ;
                 new_selling_price ← updated_price db data "selling_price"
                                        (selling_price product)
                                        "Selling price cannot be negative"
                                        "Selling price must be a valid number" ;
                 Return (session_commit_unique o db
                   (stage_product
                      {| Product_id := Product_id product;
                         Product_name :=
                           if truthy (dict_get_default data "name" (Product_name product))
                           then dict_get_default data "name" (Product_name product)
                           else Product_name product;
                         Product_description :=
                           if is_not_None (dict_get_default data "description"
                                             (Product_description product))
                           then dict_get_default data "description"
                                  (Product_description product)
                           else Product_description product;
                         buying_price := new_buying_price;
                         selling_price := new_selling_price;
                         Product_merchant_id := Product_merchant_id product;
                         Product_is_active :=
                           match as_bool (dict_get_default data "is_active"
                                            (JBool (Product_is_active product))) with
                           | Some b => b
                           | None => Product_is_active product
                           end |} db)
                   (Data 200 (Some "Product updated successfully")
                      {| Product_id := Product_id product;
                         Product_name :=
                           if truthy (dict_get_default data "name" (Product_name product))
                           then dict_get_default data "name" (Product_name product)
                           else Product_name product;
                         Product_description :=
                           if is_not_None (dict_get_default data "description"
                                             (Product_description product))
                           then dict_get_default data "description"
                                  (Product_description product)
                           else Product_description product;
                         buying_price := new_buying_price;
                         selling_price := new_selling_price;
                         Product_merchant_id := Product_merchant_id product;
                         Product_is_active :=
                           match as_bool (dict_get_default data "is_active"
                                            (JBool (Product_is_active product))) with
                           | Some b => b
                           | None => Product_is_active product
                           end |})
                   (Msg 409 "Product with this name already exists")
                   (Msg 500 "An internal server error occurred during product update."))))
                      = stage_product product' db).
    { intros guard [-> | [r ->]]; cbn; [| left; reflexivity].
      destruct (updated_price_cases (A:=Product) db data "buying_price"
                  (buying_price product) "Buying price cannot be negative"
                  "Buying price must be a valid number") as [[fb ->] | [r ->]];
        cbn; [| left; reflexivity].
      destruct (updated_price_cases (A:=Product) db data "selling_price"
                  (selling_price product) "Selling price cannot be negative"
                  "Selling price must be a valid number") as [[fs ->] | [r ->]];
        cbn; [| left; reflexivity].
      destruct o; cbn; try (left; reflexivity).
      right. eexists. split; [| split]; [| | reflexivity]; reflexivity. }
    destruct (claim_is (user_type tok) "merchant").
    - destruct (Hrest (return_if (negb (Product_merchant_id product =? identity tok))
                         (db, Msg 403 "Unauthorized to update this product")))
        as [Hr | (product' & H1 & H2 & Hr)].
      + unfold return_if. destruct (negb _); [right; eauto | left; reflexivity].
      + left. exact Hr.
      + right. exists product, product'. auto.
    - destruct (Hrest
                  match query_get Admin_id (admins db) (identity tok) with
                  | Some admin =>
                      return_if (negb (Product_merchant_id product
                                       =? Admin_merchant_id admin))
                        (db, Msg 403 "Unauthorized to update this product")
                  | None => Return (db, Msg 403 "Unauthorized to update this product")
                  end)
        as [Hr | (product' & H1 & H2 & Hr)].
      + destruct (query_get Admin_id (admins db) (identity tok)); [| right; eauto].
        unfold return_if. destruct (negb _); [right; eauto | left; reflexivity].
      + left. exact Hr.
      + right. exists product, product'. auto. }
  split; [exact Hshape |].
  destruct Hshape as [-> | (product & product' & _ & _ & _ & ->)];
    split; reflexivity.
Qed.

(** X29. A change of price counts for the sales that follow.  After the
    Merchant's committed update of a product's selling price, a sale of
    the product is recorded at the new price, with a revenue of the new
    price times the quantity sold; the inventory records are those from
    before the update. *)
Theorem price_change_applies_to_later_sales
    db now tok merchant_tok data price_data clerk product store latest p s q z f :
  keys_from_one db ->
  user_type merchant_tok = Some "merchant" ->
  query_get Product_id (products db) p = Some product ->
  Product_merchant_id product = identity merchant_tok ->
  price_data !! "buying_price" = None ->
  float_is_negative (buying_price product) = false ->
  price_data !! "selling_price" = Some (JInt z) ->
  float_of (JInt z) = inr f ->
  float_is_negative f = false ->
  query_get Clerk_id (clerks db) (identity tok) = Some clerk ->
  data !! "product_id" = Some (JInt p) ->
  data !! "store_id" = Some (JInt s) ->
  data !! "quantity_sold" = Some (JInt q) ->
  query_get Store_id (stores db) s = Some store ->
  Clerk_store_id clerk = None \/ Clerk_store_id clerk = Some s ->
  latest_inventory_record db p s = Some latest ->
  0 < q <= items_in_stock latest ->
  let db1 := fst (ProductResource_put db Committed merchant_tok p price_data) in
  exists t db2,
    TransactionListResource_post db1 now Committed tok data
      = (db2, Data 201 (Some "Transaction recorded successfully") t)
    /\ selling_price_at_transaction t = f
    /\ total_revenue t = float_mul_int f q
    /\ inventory_records db1 = inventory_records db.
Proof.
  intros Hk Hut Hprod Hown Hbp Hbn Hsp Hf Hfn Hc Hp Hs Hq Hstore Hscope Hl Hle db1.
  assert (Hput : exists product',
            db1 = stage_product product' db
            /\ Product_id product' = Product_id product
            /\ selling_price product' = f).
  { subst db1. unfold ProductResource_put, updated_price, try_float.
    rewrite Hut. change (claim_is (Some "merchant") "merchant") with true.
    cbn. rewrite Hprod. cbn. rewrite Hown, Z.eqb_refl. cbn.
    rewrite Hbp, Hbn. cbn. rewrite Hsp. cbn. rewrite Hf. cbn. rewrite Hfn. cbn.
    eexists. split; [reflexivity |]. split; reflexivity. }
  destruct Hput as (product' & Hdb1 & Hid & Hsell).
  clearbody db1. subst db1.
  destruct (query_get_Some Product_id _ _ _ Hprod) as [Hin Hkey].
  assert (Hprod' : query_get Product_id (products (stage_product product' db)) p
                   = Some product').
  { cbn. rewrite <- Hkey, <- Hid. apply query_get_update_row.
    exists product. split; [exact Hin | symmetry; exact Hid]. }
  assert (Hk' : keys_from_one (stage_product product' db)).
  { destruct Hk as [Hkp Hks]. split; [| exact Hks].
    cbn. unfold update_row. apply List.Forall_forall. intros x Hx.
    apply in_map_iff in Hx as (y & <- & Hy).
    destruct (Product_id y =? Product_id product').
    - rewrite Hid. exact (proj1 (List.Forall_forall _ _) Hkp product Hin).
    - exact (proj1 (List.Forall_forall _ _) Hkp y Hy). }
  pose proof (TransactionListResource_post_commits
                (stage_product product' db) now Committed tok data clerk product'
                store latest p s q Hk' Hc Hp Hs Hq Hprod' Hstore Hscope
                (proj1 Hle) Hl (proj2 Hle)) as Hpost.
  cbv zeta in Hpost.
  eexists. eexists. split; [rewrite Hpost; reflexivity |].
  cbn. rewrite Hsell. repeat split.
Qed.

End Properties.

(** * The scenarios of the specification, run on the sample store *)

Lemma duka_stocked_keys st : keys_from_one (duka_stocked st).
Proof. split; repeat constructor. Qed.

Lemma duka_keys : keys_from_one duka.
Proof. split; repeat constructor. Qed.

Lemma duka_sold_out_keys : keys_from_one duka_sold_out.
Proof. split; repeat constructor. Qed.


(** The next sale of a single item finds no stock. *)
Lemma sell_after_sold_out_scenario :
  TransactionListResource_post duka_sold_out 3000 Committed clerk_1_token (sale_body 1)
    = (duka_sold_out, Msg 400 "Insufficient stock for this product in this store").
Proof.
  apply (sell_insufficient_stock_rejected
           duka_sold_out 3000 Committed clerk_1_token (sale_body 1)
           clerk_1 widget store_1 1 1 1
           duka_sold_out_keys eq_refl eq_refl eq_refl eq_refl eq_refl eq_refl
           (or_intror eq_refl) eq_refl).
  right. exists (set_items_in_stock receipt_1 0). split; reflexivity.
Defined.

(** A receipt of 3 items of which 5 are said to be spoilt is recorded,
    with a stock of -2. *)
Lemma receipt_with_more_spoilt_than_received :
  exists r db',
    InventoryListResource_post duka 1000 Committed clerk_1_token (receipt_body 3 5)
      = (db', Data 201 (Some "Inventory record created successfully") r)
    /\ items_in_stock r = -2
    /\ buying_price_at_record r = whole 10
    /\ selling_price_at_record r = whole 15.
Proof.
  destruct (record_receipt_creates_inventory_record
              duka 1000 clerk_1_token (receipt_body 3 5)
              clerk_1 widget store_1 1 1 3 5
              duka_keys eq_refl eq_refl eq_refl eq_refl eq_refl eq_refl eq_refl
              (or_intror eq_refl))
    as (r & db' & Hpost & _ & _ & _ & _ & _ & Hstock & Hbuy & Hsell & _).
  - lia.
  - lia.
  - exists r, db'.
    split; [exact Hpost |]. split; [exact Hstock |]. split; [exact Hbuy | exact Hsell].
Defined.

(** The clerk who recorded the receipt may not mark it paid. *)
Lemma clerk_cannot_set_payment_status :
  InventoryResource_put (duka_stocked "Pending") Committed clerk_1_token 1
    (data_only_payment_status (JBool true))
    = (duka_stocked "Pending",
       Msg 403 "Clerks can only update stock and spoilt items in inventory records").
Proof.
  destruct (clerk_update_limited_to_stock_and_spoilt
              (duka_stocked "Pending") Committed clerk_1_token 1
              (data_only_payment_status (JBool true)) clerk_1 receipt_1
              eq_refl eq_refl eq_refl eq_refl)
    as [_ Hforbidden].
  apply Hforbidden. left. exists (JBool true). reflexivity.
Defined.

(** The admin without a store is refused the listings. *)
Lemma admin_without_store_scenario :
  InventoryListResource_get (duka_stocked "Pending") admin_3_token
    = Msg 403 "Admin not assigned to a store. Cannot view specific inventory records."
  /\ TransactionListResource_get (duka_stocked "Pending") admin_3_token
      = Msg 403 "Admin not assigned to a store. Cannot view transactions."
  /\ SupplyRequestListResource_get (duka_stocked "Pending") admin_3_token
      = Msg 403 "Admin not assigned to a store. Cannot view supply requests.".
Proof.
  destruct (unassigned_admin_denied_listings
              (duka_stocked "Pending") admin_3_token admin_3
              eq_refl eq_refl eq_refl)
    as (Hinv & Htx & Hreq & _).
  split; [exact Hinv |]. split; [exact Htx | exact Hreq].
Defined.

(** The Merchant registers once; the second attempt is refused with 403. *)
Lemma merchant_registration_scenario :
  (exists m,
     MerchantRegistration_post empty_store Committed registration_body
       = (stage_new_merchant m empty_store,
          Data 201 (Some "Superuser (Merchant) registered successfully") m)
     /\ Merchant_email m = JStr "m@x.com")
  /\ MerchantRegistration_post duka Committed registration_body
      = (duka, Msg 403 "Superuser (Merchant) already exists. Registration not allowed.").
Proof.
  split.
  - destruct (merchant_registration_at_most_one
                empty_store Committed registration_body
                (JStr "M") (JStr "m@x.com") (JStr "Strong1!A")
                eq_refl eq_refl eq_refl eq_refl eq_refl eq_refl eq_refl eq_refl)
      as [Hfirst _].
    destruct (Hfirst eq_refl) as (m & Hpost & _ & _ & Hemail).
    exists m. split; [exact Hpost | exact Hemail].
  - destruct (merchant_registration_at_most_one
                duka Committed registration_body
                (JStr "M") (JStr "m@x.com") (JStr "Strong1!A")
                eq_refl eq_refl eq_refl eq_refl eq_refl eq_refl eq_refl eq_refl)
      as (_ & Hsecond & _).
    apply Hsecond. discriminate.
Defined.

(** The clerk whose account is switched off gives the right password. *)
Lemma inactive_clerk_login_scenario :
  UserLogin_post duka (login_body "c2@x.com")
    = Msg 403 "Account is inactive. Please contact support.".
Proof.
  destruct (login_first_match_and_inactive
              duka (login_body "c2@x.com") (JStr "c2@x.com") (JStr "Strong1!A")
              eq_refl eq_refl eq_refl eq_refl eq_refl)
    as (_ & Hinactive & _).
  apply (Hinactive (AClerk clerk_2) "clerk"); reflexivity.
Defined.



(** C8 as stated fails: the registration refused because a Merchant
    exists is answered with 403, not with the 409 of a conflict. *)
Lemma second_registration_is_not_a_conflict :
  ~ (forall (P : Platform) (db : @DB P) o data,
       merchants db <> [] ->
       response_code (snd (MerchantRegistration_post db o data)) = 409).
Proof.
  intros Hclaim.
  assert (merchants duka <> []) as Hne by discriminate.
  specialize (Hclaim sample_platform duka Committed registration_body Hne).
  vm_compute in Hclaim. discriminate Hclaim.
Qed.

(** The admin without a store tries to approve a Pending request of
    store 1: the call raises, and the request stays Pending. *)
Lemma admin_without_store_approval_raises :
  SupplyRequestResource_put (duka_stocked "Pending") 2000 Committed admin_3_token 1
    (status_body "Approved")
    = (duka_stocked "Pending", Raised NameError).
Proof.
  apply (unassigned_admin_transition_raises
           (duka_stocked "Pending") 2000 Committed admin_3_token 1
           (status_body "Approved") admin_3 (request_of "Pending")
           eq_refl eq_refl eq_refl).
Defined.

(** In the sample store the clerk and the admin of store 1 both have key
    1: the token that the login issues for the clerk passes the Admin
    guard. *)
Lemma clerk_login_token_passes_admin_guard :
  exists payload,
    UserLogin_post duka (login_body "c1@x.com")
      = Data 200 (Some "Login successful") payload
    /\ user_type (access_token payload) = Some "clerk"
    /\ admin_required (A:=SupplyRequest) duka (access_token payload) = Next tt.
Proof. eexists. repeat split. Qed.

(** * Further scenarios on the sample store *)

(** After the sale of the whole stock no record is below zero. *)
Lemma sold_out_store_has_no_negative_stock :
  Forall (fun r => 0 <= items_in_stock r) (inventory_records duka_sold_out).
Proof.
  apply (sell_keeps_stock_nonnegative
           (duka_stocked "Pending") 2000 Committed clerk_1_token (sale_body 95)).
  constructor; [cbn; lia | constructor].
Defined.

(** A sale of no item is refused. *)
Lemma sale_of_nothing_scenario :
  TransactionListResource_post (duka_stocked "Pending") 2000 Committed
    clerk_1_token (sale_body 0)
    = (duka_stocked "Pending", Msg 400 "Quantity sold must be positive").
Proof.
  destruct (sell_input_validation
              (duka_stocked "Pending") 2000 Committed clerk_1_token (sale_body 0)
              clerk_1 eq_refl)
    as (_ & Hquantity & _).
  apply (Hquantity 1 1 0); first [reflexivity | lia].
Defined.

(** The clerk of store 1 may not sell in store 2. *)
Lemma sale_in_another_store_scenario :
  TransactionListResource_post duka 2000 Committed clerk_1_token branch_sale_body
    = (duka, Msg 403 "Clerk is not assigned to this store").
Proof.
  assert (H1 : (1 : Z) <> 0) by lia.
  assert (H2 : (2 : Z) <> 0) by lia.
  assert (Hq : (0 : Z) < 1) by lia.
  destruct (sell_refusals duka 2000 Committed clerk_1_token branch_sale_body 1 2 1
              eq_refl H1 eq_refl H2 eq_refl Hq)
    as (_ & Hclerk).
  destruct (Hclerk clerk_1 eq_refl) as (_ & _ & Hstore).
  apply (Hstore 1); first [reflexivity | lia | (cbn; discriminate)].
Defined.

(** 90 of the 95 items are sold, then the last 5: the stock is 0. *)
Lemma two_sales_scenario :
  exists latest'',
    latest_inventory_record
      (fst (TransactionListResource_post
              (fst (TransactionListResource_post (duka_stocked "Pending") 2000
                      Committed clerk_1_token (sale_body 90)))
              3000 Committed clerk_1_token (sale_body 5))) 1 1
      = Some latest''
    /\ items_in_stock latest'' = 0.
Proof.
  assert (Hq1 : 0 < 90 <= items_in_stock receipt_1) by (cbn; lia).
  assert (Hq2 : (0 : Z) < 5) by lia.
  destruct (consecutive_sales_add_up
              (duka_stocked "Pending") 2000 3000 Committed clerk_1_token
              (sale_body 90) (sale_body 5) clerk_1 widget store_1 receipt_1 1 1 90 5
              (duka_stocked_keys "Pending") (NoDup_singleton 1)
              eq_refl eq_refl eq_refl eq_refl eq_refl eq_refl eq_refl eq_refl eq_refl
              (or_intror eq_refl) Hq1 Hq2 eq_refl)
    as (_ & Hsecond).
  destruct Hsecond as (latest'' & Hlatest & Hstock); [cbn; lia |].
  exists latest''. split; [exact Hlatest | exact Hstock].
Defined.

(** A later receipt of 20 items on top of a stock of 95: the stock that
    counts is 20. *)
Lemma second_receipt_scenario :
  exists r,
    latest_inventory_record
      (fst (InventoryListResource_post (duka_stocked "Pending") 2000 Committed
              clerk_1_token (receipt_body 20 0))) 1 1 = Some r
    /\ items_in_stock r = 20.
Proof.
  assert (Hr : (0 : Z) <= 20) by lia.
  assert (Hs : (0 : Z) <= 0) by lia.
  assert (Hdates : forall x, In x (inventory_records (duka_stocked "Pending")) ->
            Inventory_product_id x = 1 -> Inventory_store_id x = 1 ->
            date_recorded x < 2000).
  { intros x [<- | []] _ _. cbn. lia. }
  destruct (receipt_becomes_the_stock_reference
              (duka_stocked "Pending") 2000 clerk_1_token (receipt_body 20 0)
              clerk_1 widget store_1 1 1 20 0
              (duka_stocked_keys "Pending") eq_refl eq_refl eq_refl eq_refl eq_refl
              eq_refl eq_refl (or_intror eq_refl) Hr Hs Hdates)
    as (r & Hlatest & Hstock & _).
  exists r. split; [exact Hlatest | exact Hstock].
Defined.

(** A receipt of 30 items that says nothing else: none spoilt, not paid. *)
Lemma bare_receipt_scenario :
  exists r db',
    InventoryListResource_post duka 1000 Committed clerk_1_token (bare_receipt_body 30)
      = (db', Data 201 (Some "Inventory record created successfully") r)
    /\ items_spoilt r = 0
    /\ items_in_stock r = 30
    /\ payment_status r = JBool false.
Proof.
  assert (Hr : (0 : Z) <= 30) by lia.
  destruct (record_receipt_defaults
              duka 1000 clerk_1_token (bare_receipt_body 30) clerk_1 widget store_1
              1 1 30
              duka_keys eq_refl eq_refl eq_refl eq_refl eq_refl eq_refl eq_refl
              (or_intror eq_refl) Hr)
    as (r & db' & Hpost & Hspoilt & Hstock & Hpaid).
  exists r, db'.
  split; [exact Hpost |]. split; [exact Hspoilt |]. split; [exact Hstock | exact Hpaid].
Defined.

(** A receipt of -3 items is refused. *)
Lemma negative_receipt_scenario :
  InventoryListResource_post duka 1000 Committed clerk_1_token (receipt_body (-3) 0)
    = (duka, Msg 400 "Quantities cannot be negative").
Proof.
  assert (H1 : (1 : Z) <> 0) by lia.
  assert (Hneg : -3 < 0 \/ (0 : Z) < 0) by (left; lia).
  exact (record_receipt_rejects_negative_quantities
           duka 1000 Committed clerk_1_token (receipt_body (-3) 0) clerk_1 1 1 (-3) 0
           eq_refl eq_refl H1 eq_refl H1 eq_refl eq_refl Hneg).
Defined.

(** The admin of store 1 may not recount a record. *)
Lemma admin_cannot_recount :
  InventoryResource_put (duka_stocked "Pending") Committed admin_1_token 1
    (count_body 500 0)
    = (duka_stocked "Pending",
       Msg 403 "Admins can only update payment status of inventory records").
Proof.
  destruct (admin_update_limited_to_payment_status
              (duka_stocked "Pending") Committed admin_1_token 1 (count_body 500 0)
              admin_1 receipt_1 eq_refl eq_refl eq_refl eq_refl)
    as (_ & Hforbidden & _).
  apply Hforbidden. right. left. exists (JInt 500). reflexivity.
Defined.

(** The clerk recounts the receipt: 40 in stock, 7 spoilt, and the
    quantity received stays 100. *)
Lemma clerk_recount_scenario :
  exists record',
    InventoryResource_put (duka_stocked "Pending") Committed clerk_1_token 1
      (count_body 40 7)
      = (stage_inventory record' (duka_stocked "Pending"),
         Data 200 (Some "Inventory record updated successfully") record')
    /\ items_in_stock record' = 40 /\ items_spoilt record' = 7
    /\ quantity_received record' = 100.
Proof.
  assert (Hn : (0 : Z) <= 40) by lia.
  assert (Hm : (0 : Z) <= 7) by lia.
  destruct (clerk_update_stores_stock_and_spoilt
              (duka_stocked "Pending") Committed clerk_1_token 1 (count_body 40 7)
              clerk_1 receipt_1
              eq_refl eq_refl eq_refl eq_refl eq_refl eq_refl eq_refl eq_refl)
    as (Hstores & _).
  exact (Hstores 40 7 eq_refl Hn eq_refl Hm).
Defined.

(** The admin of store 2 may not mark a record of store 1 paid. *)
Lemma other_store_admin_cannot_mark_paid :
  InventoryResource_put (duka_stocked "Pending") Committed admin_2_token 1
    (data_only_payment_status (JBool true))
    = (duka_stocked "Pending", Msg 403 "Unauthorized to update this inventory record").
Proof.
  assert (H2 : (2 : Z) <> 0) by lia.
  assert (Hne : 2 <> Inventory_store_id receipt_1) by (cbn; lia).
  destruct (inventory_update_refusals
              (duka_stocked "Pending") Committed admin_2_token 1
              (data_only_payment_status (JBool true)) receipt_1 eq_refl)
    as (_ & Hadmin & _).
  exact (Hadmin admin_2 2 eq_refl eq_refl eq_refl H2 Hne).
Defined.

(** The admin of store 2 may not read the record of store 1. *)
Lemma other_store_admin_cannot_read :
  InventoryResource_get (duka_stocked "Pending") admin_2_token 1
    = Msg 403 "Unauthorized to view this inventory record".
Proof.
  assert (H2 : (2 : Z) <> 0) by lia.
  assert (Hne : Inventory_store_id receipt_1 <> 2) by (cbn; lia).
  destruct (by_id_reads_refuse_out_of_scope (duka_stocked "Pending") admin_2_token)
    as (Hadmin & _).
  destruct (Hadmin admin_2 2 eq_refl eq_refl eq_refl H2) as (Hrecord & _).
  exact (Hrecord 1 receipt_1 eq_refl Hne).
Defined.

(** The clerk's listing after the sale: the sales recorded for the clerk. *)
Lemma clerk_listing_scenario :
  exists l,
    TransactionListResource_get duka_sold_out clerk_1_token = Data 200 None l
    /\ forall t, In t l <-> In t (transactions duka_sold_out)
                            /\ Transaction_clerk_id t = Some 1.
Proof.
  destruct (listings_are_the_scope duka_sold_out clerk_1_token) as (Hsales & _).
  exists (transactions duka_sold_out).
  split; [reflexivity |].
  destruct (Hsales (transactions duka_sold_out) eq_refl) as (Hclerk & _).
  exact (Hclerk eq_refl).
Defined.

(** The clerk asks for 50 Widgets, naming store 2 and the status
    Approved: the request is Pending and for store 1. *)
Lemma supply_request_scenario :
  exists r,
    SupplyRequestListResource_post duka 1000 Committed clerk_1_token (request_body 50)
      = (stage_new_supply_request r duka,
         Data 201 (Some "Supply request created successfully") r)
    /\ status r = "Pending"
    /\ SupplyRequest_store_id r = 1.
Proof.
  assert (H1 : (1 : Z) <> 0) by lia.
  assert (Hq : (0 : Z) < 50) by lia.
  destruct (supply_request_is_created_pending
              duka 1000 Committed clerk_1_token (request_body 50) clerk_1 widget 1 50
              eq_refl eq_refl H1 eq_refl eq_refl)
    as (Hcreated & _).
  destruct (Hcreated 1 Hq eq_refl H1) as (r & Hpost & Hstatus & Hstore & _).
  exists r. split; [exact Hpost |]. split; [exact Hstatus | exact Hstore].
Defined.

(** The Merchant deletes the sale of the 95 items: the transaction is
    gone and the stock stays 0. *)
Lemma deleted_sale_scenario :
  exists db',
    TransactionResource_delete duka_sold_out Committed merchant_token 1
      = (db', Msg 204 "Transaction deleted successfully")
    /\ query_get Transaction_id (transactions db') 1 = None
    /\ inventory_records db' = inventory_records duka_sold_out.
Proof.
  destruct (deletions_remove_one_row duka_sold_out Committed merchant_token 1)
    as (Hmerchant & _).
  destruct (Hmerchant merchant_M eq_refl eq_refl) as (Hsale & _).
  destruct (List.hd_error (transactions duka_sold_out)) as [t|] eqn:Ht;
    [| discriminate Ht].
  injection Ht as <-.
  destruct (Hsale _ eq_refl) as (db' & Hdelete & Hgone & _ & Hrecords).
  exists db'. split; [exact Hdelete |]. split; [exact Hgone | exact Hrecords].
Defined.

(** The Merchant's stock report of the stocked store has the entry of the
    receipt for Widget in store 1. *)
Lemma stock_report_scenario :
  exists current_stock : list (Z * Z * stock_entry),
    StockReportResource_get_stock (duka_stocked "Pending") merchant_token None None
      = Data 200 None ("current_stock", map snd current_stock)
    /\ find (entry_of_pair 1 1) (map snd current_stock)
       = Some (stock_entry_of (duka_stocked "Pending") receipt_1).
Proof.
  destruct (stock_report_shows_the_latest_record
              (duka_stocked "Pending") merchant_token eq_refl)
    as (current_stock & Hreport & _ & Hentry).
  exists current_stock. split; [exact Hreport | exact (Hentry 1 1)].
Defined.

(** A clerk is refused the sales report. *)
Lemma clerk_refused_reports :
  SalesReportResource_get (fun l => Data 200 None (length l)) duka_sold_out
    clerk_1_token
    = Msg 403 "Unauthorized to view reports".
Proof.
  destruct (reports_scope duka_sold_out clerk_1_token) as (Hother & _).
  destruct (Hother eq_refl eq_refl nat (fun l => Data 200 None (length l))
              (fun l => Data 200 None (length l)))
    as (Hsales & _).
  exact Hsales.
Defined.

(** The token that the login gives the clerk passes the Clerk guard. *)
Lemma clerk_login_token_scenario :
  UserLogin_post duka (login_body "c1@x.com")
    = Data 200 (Some "Login successful") clerk_1_login
  /\ clerk_required (A:=unit) duka (access_token clerk_1_login) = Next tt.
Proof.
  destruct (login_token_passes_the_guard_of_its_kind
              duka (login_body "c1@x.com") (Some "Login successful") clerk_1_login
              (NoDup_singleton 1) eq_refl)
    as (Hclerk & _).
  split; [reflexivity | exact (Hclerk eq_refl unit)].
Defined.

(** The registration with the number 12345678 for a password raises. *)
Lemma numeric_password_scenario :
  MerchantRegistration_post empty_store Committed numeric_password_body
    = (empty_store, Raised TypeError).
Proof.
  assert (Hnot : forall s, JInt 12345678 <> JStr s) by (intros s; discriminate).
  destruct (registration_with_non_string_password_raises
              empty_store Committed merchant_token numeric_password_body
              (JStr "M") (JStr "m@x.com") (JInt 12345678)
              eq_refl eq_refl eq_refl eq_refl eq_refl eq_refl eq_refl Hnot)
    as (Hmerchant & _).
  exact Hmerchant.
Defined.

(** The admin of store 2 may not view store 1. *)
Lemma other_store_admin_cannot_view_store :
  StoreResource_get duka admin_2_token 1 = Msg 403 "Unauthorized to view this store".
Proof.
  assert (Hne : Admin_store_id admin_2 <> Some 1) by discriminate.
  destruct (store_view_scope duka admin_2_token 1 store_1 eq_refl)
    as (_ & Hadmin & _).
  destruct (Hadmin admin_2 eq_refl eq_refl) as (_ & Hother).
  exact (Hother Hne).
Defined.

(** The admin of store 2 may not close the store. *)
Lemma admin_cannot_close_store :
  StoreResource_put duka Committed admin_2_token 2 (activity_body false)
    = (duka, Msg 403 "Only Merchant can change store active status").
Proof.
  assert (Hne : false <> Store_is_active store_2) by discriminate.
  destruct (store_activity_is_the_merchants
              duka Committed admin_2_token 2 (activity_body false) store_2
              eq_refl eq_refl eq_refl)
    as (Hactive & _).
  exact (Hactive false eq_refl Hne).
Defined.

(** The admin switches the account of clerk 1 off; the clerk's token
    still passes the Clerk guard. *)
Lemma switched_off_clerk_scenario :
  exists target',
    ClerkResource_put duka Committed admin_1_token (Some 1) (activity_body false)
      = (stage_clerk target' duka, Data 200 (Some "Clerk updated successfully") target')
    /\ Clerk_is_active target' = false
    /\ clerk_required (A:=unit) (stage_clerk target' duka) clerk_1_token = Next tt.
Proof.
  destruct (clerk_activity_rule
              duka Committed admin_1_token (activity_body false) clerk_1 false
              eq_refl eq_refl eq_refl eq_refl)
    as (_ & Hadmin).
  destruct (Hadmin 1 eq_refl eq_refl) as (target' & Hput & Hflag & Hguard).
  exists target'. split; [exact Hput |]. split; [exact Hflag |].
  exact (Hguard unit clerk_1_token eq_refl).
Defined.

(** A product bought at 5 and sold at 0 is created; its owner is the
    Merchant of the token. *)
Lemma free_product_scenario :
  exists product,
    ProductListResource_post duka Committed merchant_token (product_body 5 0)
      = (stage_new_product product duka,
         Data 201 (Some "Product created successfully") product)
    /\ selling_price product = whole 0
    /\ Product_merchant_id product = 1.
Proof.
  assert (H5 : (5 : Z) <> 0) by lia.
  destruct (product_creation_zero_prices
              duka Committed merchant_token (product_body 5 0) (JStr "Gift")
              eq_refl eq_refl eq_refl)
    as (_ & Hcreated).
  destruct (Hcreated 5 (whole 5) (whole 0) eq_refl H5 eq_refl eq_refl eq_refl
              eq_refl eq_refl)
    as (product & Hpost & _ & Hselling & Howner & _).
  exists product. split; [exact Hpost |]. split; [exact Hselling | exact Howner].
Defined.

(** The Merchant raises the price of Widget to 20; the clerk then sells
    2 of them for 40. *)
Lemma sale_after_price_change_scenario :
  exists t db2,
    TransactionListResource_post
      (fst (ProductResource_put (duka_stocked "Pending") Committed merchant_token 1
              (price_body 20)))
      2000 Committed clerk_1_token (sale_body 2)
      = (db2, Data 201 (Some "Transaction recorded successfully") t)
    /\ selling_price_at_transaction t = whole 20
    /\ total_revenue t = whole 40.
Proof.
  assert (Hq : 0 < 2 <= items_in_stock receipt_1) by (cbn; lia).
  destruct (price_change_applies_to_later_sales
              (duka_stocked "Pending") 2000 clerk_1_token merchant_token
              (sale_body 2) (price_body 20) clerk_1 widget store_1 receipt_1
              1 1 2 20 (whole 20)
              (duka_stocked_keys "Pending") eq_refl eq_refl eq_refl eq_refl eq_refl
              eq_refl eq_refl eq_refl eq_refl eq_refl eq_refl eq_refl eq_refl
              (or_intror eq_refl) eq_refl Hq)
    as (t & db2 & Hpost & Hprice & Hrevenue & _).
  exists t, db2. split; [exact Hpost |]. split; [exact Hprice | exact Hrevenue].
Defined.
